(** * daily-go: repository / commit aggregation pipeline

    A shallow embedding of the core of the daily-go tool: the activity
    filter and latest-commit loader of package [main] (github.go, llm.go,
    types.go), the branch fan-out of package [github] and the go-github
    based client that reports repositories with recent commits; then its
    configuration (config.go), the start-up and the message loop of the
    terminal program (main.go), the loader of package [github] and the
    go-github client at the terminal.

    Go values are modelled as follows.
    - [string] is a Go string (a byte sequence), [len] is [String.length].
    - [int] is [Z]; a slice is the list of its elements, the nil slice
      is [[]]; where a statement is about what a function writes or
      shares, slices are headers over backing arrays ([GoSlice]).
    - a [(T, error)] result is a pair of the value and an [option] error,
      the error being its message.
    - [map[string]T] is a [gmap string T]; the order of a [range] over
      a map is not fixed by the language: the runtime draws it
      ([GoRuntime]).
    - [time.Now()] is an argument [now] of the functions that read the
      clock; the zone of the machine is a location of fixed offset
      ([GoTime]) or one with a list of offset changes ([GoZone]).
    - network calls, printing and logging go through oracles that thread
      an abstract world.
    - unbounded [for] loops take fuel; a run out of fuel is [Diverged].
    - [os.Getenv] reads an environment [Env]; a function that may call
      [log.Fatal] ends in [Fatal] or in [Returned].
    - the widgets of the bubbles library and the terminal are interfaces
      ([Bubbles], [Terminal]); the statements hold for every instance. *)

From Stdlib Require Import ZArith List String Ascii Lia Permutation.
From stdpp Require Import base option list gmap strings.

Local Open Scope string_scope.
Local Open Scope list_scope.
Local Open Scope Z_scope.

(* ===================================================================== *)
(** ** Package time (the part of the Go library the tool relies on)      *)
(* ===================================================================== *)

Module GoTime.

(** A location with a fixed offset east of UTC, in seconds; zones
    whose offset changes over the year are those of [GoZone]. *)
Record Location := mkLocation { locName : string; locOffset : Z }.

Definition UTC : Location := mkLocation "UTC" 0.

(** An instant (seconds and nanoseconds since the Unix epoch) shown in
    a location. *)
Record Time := mkTime { unixSec : Z; nsec : Z; loc : Location }.

Inductive Weekday :=
  Sunday | Monday | Tuesday | Wednesday | Thursday | Friday | Saturday.

Definition secondsPerDay : Z := 86400.

(** Unix seconds of January 1, year 1, 00:00:00 UTC: the zero Time. *)
Definition zeroUnix : Z := -62135596800.

Definition zeroTime : Time := mkTime zeroUnix 0 UTC.

(** [t.IsZero()] *)
Definition IsZero (t : Time) : bool :=
  (unixSec t =? zeroUnix) && (nsec t =? 0).

(** [t.After(u)] *)
Definition After (t u : Time) : bool :=
  (unixSec u <? unixSec t)
  || ((unixSec t =? unixSec u) && (nsec u <? nsec t)).

(** Seconds since the epoch on the wall clock of the location. *)
Definition localSec (t : Time) : Z := unixSec t + locOffset (loc t).

(** Day number of the local calendar day (0 is 1970-01-01). *)
Definition localDay (t : Time) : Z := localSec t / secondsPerDay.

(** Second of the local day, in [0, 86400). *)
Definition secOfDay (t : Time) : Z := localSec t mod secondsPerDay.

(** Proleptic Gregorian calendar: day number to (year, month, day). *)
Definition civil_from_days (z : Z) : Z * Z * Z :=
  let z' := z + 719468 in
  let era := z' / 146097 in
  let doe := z' - era * 146097 in
  let yoe := (doe - doe / 1460 + doe / 36524 - doe / 146096) / 365 in
  let doy := doe - (365 * yoe + yoe / 4 - yoe / 100) in
  let mp := (5 * doy + 2) / 153 in
  let d := doy - (153 * mp + 2) / 5 + 1 in
  let m := if mp <? 10 then mp + 3 else mp - 9 in
  let y := yoe + era * 400 in
  (if m <=? 2 then y + 1 else y, m, d).

(** (year, month, day) to day number; [d] may lie outside the month. *)
Definition days_from_civil (y m d : Z) : Z :=
  let y' := if m <=? 2 then y - 1 else y in
  let era := y' / 400 in
  let yoe := y' - era * 400 in
  let mp := if 2 <? m then m - 3 else m + 9 in
  let doy := (153 * mp + 2) / 5 + d - 1 in
  let doe := yoe * 365 + yoe / 4 - yoe / 100 + doy in
  era * 146097 + doe - 719468.

Definition Year (t : Time) : Z := fst (fst (civil_from_days (localDay t))).
Definition Month (t : Time) : Z := snd (fst (civil_from_days (localDay t))).
Definition Day (t : Time) : Z := snd (civil_from_days (localDay t)).
Definition Hour (t : Time) : Z := secOfDay t / 3600.
Definition Minute (t : Time) : Z := (secOfDay t mod 3600) / 60.
Definition Second (t : Time) : Z := secOfDay t mod 60.
Definition Nanosecond (t : Time) : Z := nsec t.
Definition GetLocation (t : Time) : Location := loc t.

(** [t.Weekday()]: 1970-01-01 was a Thursday. *)
Definition Weekday_of (t : Time) : Weekday :=
  match (localDay t + 4) mod 7 with
  | 0 => Sunday
  | 1 => Monday
  | 2 => Tuesday
  | 3 => Wednesday
  | 4 => Thursday
  | 5 => Friday
  | _ => Saturday
  end.

(** [time.Date(year, month, day, hour, min, sec, nsec, loc)]: values
    outside their usual ranges are normalised by carrying over. *)
Definition Date (year month day hour min sec ns : Z) (l : Location) : Time :=
  let m0 := month - 1 in
  let year' := year + m0 / 12 in
  let month' := m0 mod 12 + 1 in
  let days := days_from_civil year' month' 1 + (day - 1) in
  let s := days * secondsPerDay + hour * 3600 + min * 60 + sec
           + ns / 1000000000 in
  mkTime (s - locOffset l) (ns mod 1000000000) l.

(** [t.AddDate(years, months, days)] *)
Definition AddDate (t : Time) (years months days : Z) : Time :=
  Date (Year t + years) (Month t + months) (Day t + days)
       (Hour t) (Minute t) (Second t) (Nanosecond t) (GetLocation t).

(** The last decimal digit of a non-negative number. *)
Definition digit (n : Z) : ascii := ascii_of_N (Z.to_N (48 + n mod 10)).

(** The decimal digits of a non-negative number, in front of [acc]. *)
Fixpoint digits (fuel : nat) (n : Z) (acc : string) : string :=
  match fuel with
  | O => acc
  | S fuel' =>
      let acc' := String (digit n) acc in
      if n / 10 =? 0 then acc' else digits fuel' (n / 10) acc'
  end.

Fixpoint padLeft (k : nat) (s : string) : string :=
  match k with
  | O => s
  | S k' => String "0"%char (padLeft k' s)
  end.

(** [appendInt]: a sign for negative numbers, then at least [width] digits. *)
Definition appendInt (x : Z) (width : nat) : string :=
  let a := Z.abs x in
  let ds := digits (S (Z.to_nat (Z.log2 a))) a "" in
  let body := padLeft (width - String.length ds) ds in
  if x <? 0 then String "-"%char body else body.

(** [t.Format("2006-01-02")] *)
Definition FormatDate (t : Time) : string :=
  appendInt (Year t) 4 +:+ "-" +:+ appendInt (Month t) 2 +:+ "-"
  +:+ appendInt (Day t) 2.

(** [t.Format("2006-01-02 15:04")] *)
Definition FormatDateMinute (t : Time) : string :=
  FormatDate t +:+ " " +:+ appendInt (Hour t) 2 +:+ ":"
  +:+ appendInt (Minute t) 2.

End GoTime.

(** [s[:n]] on a string: [None] is the run-time panic for [n > len(s)]. *)
Definition slicePrefix (s : string) (n : nat) : option string :=
  if (n <=? String.length s)%nat then Some (substring 0 n s) else None.

(** The newline of Go's ["\n"]. *)
Definition LF : string := String (ascii_of_nat 10) EmptyString.

(* ===================================================================== *)
(** ** Effects: the outside world, panics and unbounded loops            *)
(* ===================================================================== *)

(** The outcome of running a Go function from a world [w]. *)
Inductive Run (W A : Type) : Type :=
| Done (a : A) (w : W)
| Panicked (msg : string) (w : W)
| Diverged.

Arguments Done {W A} a w.
Arguments Panicked {W A} msg w.
Arguments Diverged {W A}.

Definition IO (W A : Type) : Type := W -> Run W A.

Definition ret {W A} (a : A) : IO W A := fun w => Done a w.

Definition bind {W A B} (m : IO W A) (k : A -> IO W B) : IO W B :=
  fun w =>
    match m w with
    | Done a w' => k a w'
    | Panicked msg w' => Panicked msg w'
    | Diverged => Diverged
    end.

Definition panic {W A} (msg : string) : IO W A := fun w => Panicked msg w.

Definition diverge {W A} : IO W A := fun _ => Diverged.

(** An effect of the outside world that always returns. *)
Definition perform {W A} (f : W -> A * W) : IO W A :=
  fun w => let (a, w') := f w in Done a w'.

Notation "'let*' x ':=' m 'in' k" := (bind m (fun x => k))
  (at level 10, x pattern, m at level 100, k at level 200).

(** A Go [error] value, by its message; [None] is [nil]. *)
Abbreviation error := (option string).

(** What one HTTP exchange ends in: a failure at one of the four points
    where the code checks [err], or the decoded JSON value. *)
Inductive Wire (A : Type) : Type :=
| NewRequestFailed (err : string)
| DoFailed (err : string)
| ReadFailed (err : string)
| UnmarshalFailed (err : string)
| Decoded (v : A).

Arguments NewRequestFailed {A} err.
Arguments DoFailed {A} err.
Arguments ReadFailed {A} err.
Arguments UnmarshalFailed {A} err.
Arguments Decoded {A} v.

(** The Go runtime picks the order in which a [range] visits the keys of
    a map; the language only promises that each key is visited once. *)
Class GoRuntime (W : Type) := {
  rangeOrder : list string -> W -> list string * W;
  rangeOrder_perm : forall keys w, Permutation (fst (rangeOrder keys w)) keys
}.

(** The keys of a map, as handed to [rangeOrder]. *)
Definition keys {V : Type} (m : gmap string V) : list string :=
  fst <$> map_to_list m.

(* ===================================================================== *)
(** ** Package github: REST client with branch fan-out                   *)
(* ===================================================================== *)

Module Github.
Import GoTime.

Module Repo.
Record t := mk {
  ID : Z; Name : string; FullName : string; Private : bool;
  CommitsURL : string; HTMLURL : string; URL : string;
  Language : string; CreatedAt : Time; UpdatedAt : Time }.
End Repo.

Module CommitUser.
Record t := mk { Name : string; Email : string; Date : Time }.
End CommitUser.

Module CommitInfo.
Record t := mk {
  Author : CommitUser.t; Committer : CommitUser.t; Message : string }.
End CommitInfo.

Module Commit.
Record t := mk { SHA : string; Commit : CommitInfo.t }.

(** [func (c Commit) String() string]; [None] is the panic of
    [c.SHA[:8]]. *)
Definition String (c : t) : option string :=
  let message := CommitInfo.Message (Commit c) in
  let message :=
    if (50 <? String.length message)%nat
    then substring 0 47 message +:+ "..."
    else message in
  match slicePrefix (SHA c) 8 with
  | None => None
  | Some short =>
      Some (short +:+ " - " +:+ message +:+ " ("
            +:+ FormatDateMinute
                  (CommitUser.Date (CommitInfo.Author (Commit c)))
            +:+ ")")
  end.
End Commit.

Module Branch.
Record t := mk { Name : string; Commit : Commit.t; Protected : bool }.
End Branch.

Record user := mkUser { username : string; apiKey : string }.

Module GitHub.
Record t := mk { user : user; repos : list Repo.t }.
End GitHub.

(** GET /repos/{full_name}/branches?page=&per_page= *)
Record BranchesQuery := mkBranchesQuery {
  bqFullName : string; bqPage : Z; bqPerPage : Z; bqToken : string }.

(** GET /repos/{full_name}/commits?page=&per_page=[&since=][&sha=] *)
Record CommitsQuery := mkCommitsQuery {
  cqFullName : string; cqPage : Z; cqPerPage : Z;
  cqSince : option Time; cqSha : option string; cqToken : string }.

(** The hosting platform and the terminal, as seen by this package. *)
Class Remote (W : Type) := {
  fetchBranches : BranchesQuery -> W -> Wire (list Branch.t) * W;
  fetchCommits : CommitsQuery -> W -> Wire (list Commit.t) * W;
  Printf : string -> W -> unit * W
}.

Section Methods.
Context {W : Type} `{Remote W}.

(** The loop at the head of the two fetchers: the first repository
    with that name. *)
Fixpoint findRepo (repos : list Repo.t) (repoName : string)
  : option Repo.t :=
  match repos with
  | [] => None
  | repo :: rest =>
      if String.eqb (Repo.Name repo) repoName then Some repo
      else findRepo rest repoName
  end.

Definition perPage : Z := 100.

(** The [for] loop of [GetCommitsForRepoSinceFromBranch], from [page]
    on, with [allCommits] gathered so far. *)
Fixpoint commitPages (fuel : nat) (gh : GitHub.t) (targetRepo : Repo.t)
    (since : Time) (branchName : string) (page : Z)
    (allCommits : list Commit.t) : IO W (list Commit.t * error) :=
  match fuel with
  | O => diverge
  | S fuel' =>
      let q := mkCommitsQuery (Repo.FullName targetRepo) page perPage
                 (if IsZero since then None else Some since)
                 (if String.eqb branchName "" then None
                  else Some branchName)
                 (apiKey (GitHub.user gh)) in
      let* r := perform (fetchCommits q) in
      match r with
      | NewRequestFailed e =>
          ret ([], Some ("failed to create request: " +:+ e))
      | DoFailed e => ret ([], Some ("failed to do request: " +:+ e))
      | ReadFailed e => ret ([], Some ("failed to read data: " +:+ e))
      | UnmarshalFailed e =>
          ret ([], Some ("failed to unmarshal data: " +:+ e))
      | Decoded commits =>
          if Z.of_nat (length commits) =? 0 then ret (allCommits, None)
          else
            let allCommits' := allCommits ++ commits in
            if Z.of_nat (length commits) <? perPage
            then ret (allCommits', None)
            else commitPages fuel' gh targetRepo since branchName
                   (page + 1) allCommits'
      end
  end.

Definition GetCommitsForRepoSinceFromBranch (fuel : nat) (gh : GitHub.t)
    (repoName : string) (since : Time) (branchName : string)
  : IO W (list Commit.t * error) :=
  match findRepo (GitHub.repos gh) repoName with
  | None => ret ([], Some ("repository " +:+ repoName +:+ " not found"))
  | Some targetRepo =>
      commitPages fuel gh targetRepo since branchName 1 []
  end.

Definition GetCommitsForRepoSince (fuel : nat) (gh : GitHub.t)
    (repoName : string) (since : Time) : IO W (list Commit.t * error) :=
  GetCommitsForRepoSinceFromBranch fuel gh repoName since "".

Definition GetCommitsForRepo (fuel : nat) (gh : GitHub.t)
    (repoName : string) : IO W (list Commit.t * error) :=
  GetCommitsForRepoSince fuel gh repoName zeroTime.

(** The [for] loop of [GetBranchesForRepo]. *)
Fixpoint branchPages (fuel : nat) (gh : GitHub.t) (targetRepo : Repo.t)
    (page : Z) (allBranches : list Branch.t)
  : IO W (list Branch.t * error) :=
  match fuel with
  | O => diverge
  | S fuel' =>
      let q := mkBranchesQuery (Repo.FullName targetRepo) page perPage
                 (apiKey (GitHub.user gh)) in
      let* r := perform (fetchBranches q) in
      match r with
      | NewRequestFailed e =>
          ret ([], Some ("failed to create request: " +:+ e))
      | DoFailed e => ret ([], Some ("failed to do request: " +:+ e))
      | ReadFailed e => ret ([], Some ("failed to read data: " +:+ e))
      | UnmarshalFailed e =>
          ret ([], Some ("failed to unmarshal data: " +:+ e))
      | Decoded branches =>
          if Z.of_nat (length branches) =? 0 then ret (allBranches, None)
          else
            let allBranches' := allBranches ++ branches in
            if Z.of_nat (length branches) <? perPage
            then ret (allBranches', None)
            else branchPages fuel' gh targetRepo (page + 1) allBranches'
      end
  end.

Definition GetBranchesForRepo (fuel : nat) (gh : GitHub.t)
    (repoName : string) : IO W (list Branch.t * error) :=
  match findRepo (GitHub.repos gh) repoName with
  | None => ret ([], Some ("repository " +:+ repoName +:+ " not found"))
  | Some targetRepo => branchPages fuel gh targetRepo 1 []
  end.

(** [commitMap[sha]]: a missing key reads as [false]. *)
Definition seen (commitMap : gmap string bool) (sha : string) : bool :=
  default false (commitMap !! sha).

(** The inner loop "Add unique commits". *)
Fixpoint addUnique (commits : list Commit.t)
    (st : list Commit.t * gmap string bool)
  : list Commit.t * gmap string bool :=
  match commits with
  | [] => st
  | commit :: rest =>
      let '(allCommits, commitMap) := st in
      if negb (seen commitMap (Commit.SHA commit))
      then addUnique rest
             (allCommits ++ [commit],
              <[Commit.SHA commit := true]> commitMap)
      else addUnique rest st
  end.

(** The loop over the branches. *)
Fixpoint branchLoop (fuel : nat) (gh : GitHub.t) (repoName : string)
    (since : Time) (branches : list Branch.t)
    (st : list Commit.t * gmap string bool)
  : IO W (list Commit.t * gmap string bool) :=
  match branches with
  | [] => ret st
  | branch :: rest =>
      let* (commits, err) :=
        GetCommitsForRepoSinceFromBranch fuel gh repoName since
          (Branch.Name branch) in
      match err with
      | Some e =>
          let* _ := perform (Printf
            ("Warning: failed to get commits from branch "
             +:+ Branch.Name branch +:+ ": " +:+ e +:+ LF)) in
          branchLoop fuel gh repoName since rest st
      | None =>
          branchLoop fuel gh repoName since rest (addUnique commits st)
      end
  end.

Definition GetCommitsFromAllBranches (fuel : nat) (gh : GitHub.t)
    (repoName : string) (since : Time) : IO W (list Commit.t * error) :=
  let* (branches, err) := GetBranchesForRepo fuel gh repoName in
  match err with
  | Some e => ret ([], Some ("failed to get branches: " +:+ e))
  | None =>
      let* (allCommits, _) :=
        branchLoop fuel gh repoName since branches ([], ∅) in
      ret (allCommits, None)
  end.

(** The value of [since] that [GetCommitsForRepoByDay] hands to
    [GetCommitsFromAllBranches], [now] being what [time.Now()] gave. *)
Definition sinceByDay (now : Time) : Time :=
  let weekday := Weekday_of now in
  let since :=
    match weekday with
    | Monday => AddDate now 0 0 (-3)
    | Tuesday => AddDate now 0 0 (-1)
    | Wednesday => AddDate now 0 0 (-1)
    | Thursday => AddDate now 0 0 (-1)
    | Friday => AddDate now 0 0 (-1)
    | Saturday => AddDate now 0 0 (-1)
    | Sunday => AddDate now 0 0 (-1)
    end in
  Date (Year since) (Month since) (Day since) 0 0 0 0 (GetLocation since).

Definition GetCommitsForRepoByDay (fuel : nat) (now : Time)
    (gh : GitHub.t) (repoName : string) : IO W (list Commit.t * error) :=
  GetCommitsFromAllBranches fuel gh repoName (sinceByDay now).

End Methods.
End Github.

(* ===================================================================== *)
(** ** Slices and their backing arrays                                   *)
(* ===================================================================== *)

Module GoSlice.

(** A slice header: backing array (0 for none), length and capacity.
    The slices met here all start at the head of their array. *)
Record slice := mkSlice { ptr : nat; len : nat; cap : nat }.

Definition nilSlice : slice := mkSlice 0 0 0.

(** The backing arrays allocated so far; array [p] is entry [p - 1]. *)
Abbreviation Heap A := (list (list A)).

Section Heap.
Context {A : Type}.

Definition array (h : Heap A) (p : nat) : list A :=
  match p with
  | O => []
  | S i => default [] (h !! i)
  end.

(** The elements of a slice. *)
Definition elems (h : Heap A) (s : slice) : list A :=
  take (len s) (array h (ptr s)).

(** [append(s, x)]: in place when the capacity allows, else into a
    new array of capacity [growCap (cap s)], the rest of it zeroed. *)
Definition append (zero : A) (growCap : nat -> nat) (h : Heap A)
    (s : slice) (x : A) : Heap A * slice :=
  if (len s <? cap s)%nat then
    (match ptr s with
     | O => h
     | S i => <[i := <[len s := x]> (array h (ptr s))]> h
     end,
     mkSlice (ptr s) (S (len s)) (cap s))
  else
    let c := growCap (cap s) in
    (h ++ [elems h s ++ x :: replicate (c - S (len s)) zero],
     mkSlice (S (length h)) (S (len s)) c).

(** A slice that lies within its backing array. *)
Definition wfSlice (h : Heap A) (s : slice) : Prop :=
  (len s <= cap s)%nat
  /\ match ptr s with
     | O => cap s = O
     | S i => (i < length h)%nat /\ length (array h (ptr s)) = cap s
     end.

(** A slice whose array, if any, was allocated after the first
    [base] ones. *)
Definition fresh (base : nat) (s : slice) : Prop :=
  ptr s = O \/ (base < ptr s)%nat.
End Heap.
End GoSlice.

(* ===================================================================== *)
(** ** Package main: github.go, llm.go, types.go                         *)
(* ===================================================================== *)

Module Main.
Import GoTime.

Definition githubAPIBaseURL : string := "https://api.github.com".

Definition geminiAPIURL : string :=
  "https://generativelanguage.googleapis.com/v1beta/models/gemini-2.0-flash:generateContent?key=".

Module Repo.
Record t := mk {
  ID : Z; Name : string; Private : bool; HTMLURL : string; URL : string;
  Language : string; CreatedAt : Time; UpdatedAt : Time }.

(** [func (r Repo) String() string] *)
Definition String (r : t) : string :=
  Name r +:+ " (" +:+ Language r +:+ ") - Updated: "
  +:+ FormatDate (UpdatedAt r).
End Repo.

Module Commit.
Record t := mk {
  SHA : string; Message : string; Author : string; Date : Time;
  RepoName : string; HTMLURL : string }.
End Commit.

Module CommitMessage.
Record t := mk { Message : string }.
End CommitMessage.

Module CommitAuthor.
Record t := mk { Name : string; Email : string; Date : string }.
End CommitAuthor.

Module CommitDetails.
Record t := mk { Message : CommitMessage.t; Author : CommitAuthor.t }.
End CommitDetails.

Module Login.
Record t := mk { Login : string }.
End Login.

Module CommitResponse.
Record t := mk {
  SHA : string; Commit : CommitDetails.t; HTMLURL : string;
  Author : option Login.t }.
End CommitResponse.

Module GeminiPart.
Record t := mk { Text : string }.
End GeminiPart.

Module GeminiContent.
Record t := mk { Parts : list GeminiPart.t }.
End GeminiContent.

Module GeminiRequest.
Record t := mk { Contents : list GeminiContent.t }.
End GeminiRequest.

Module GeminiCandidate.
Record t := mk { Content : GeminiContent.t }.
End GeminiCandidate.

Module GeminiResponse.
Record t := mk { Candidates : list GeminiCandidate.t }.
End GeminiResponse.

Record user := mkUser { username : string; apiKey : string }.

Module GitHub.
Record t := mk { user : user; repos : list Repo.t }.
End GitHub.

Module LLMService.
Record t := mk { apiKey : string }.
End LLMService.

(** GET /repos/{username}/{name}/commits?since={since} *)
Record CommitsQuery := mkCommitsQuery {
  cqUsername : string; cqName : string; cqSince : Time; cqToken : string }.

(** POST {url} with the JSON of [body] *)
Record GeminiCall := mkGeminiCall {
  gcURL : string; gcBody : GeminiRequest.t }.

(** The two services and [time.Parse(time.RFC3339, _)]. *)
Class Remote (W : Type) := {
  fetchCommits : CommitsQuery -> W -> Wire (list CommitResponse.t) * W;
  generateContent : GeminiCall -> W -> Wire GeminiResponse.t * W;
  ParseRFC3339 : string -> option Time
}.

(** [strings.Split(s, sep)[0]] for a non-empty [sep]: what precedes the
    first [sep], all of [s] when there is none. *)
Fixpoint SplitHead (s sep : string) : string :=
  match s with
  | EmptyString => EmptyString
  | String c rest =>
      if String.prefix sep s then EmptyString else String c (SplitHead rest sep)
  end.

Section Methods.
Context {W : Type} `{Remote W} `{GoRuntime W}.

Definition GetRepos (gh : GitHub.t) : list Repo.t := GitHub.repos gh.

(** The [range] loop of [GetRecentlyUpdatedRepos]. *)
Fixpoint recentLoop (cutoffDate : Time) (repos recentRepos : list Repo.t)
  : list Repo.t :=
  match repos with
  | [] => recentRepos
  | repo :: rest =>
      if After (Repo.UpdatedAt repo) cutoffDate
      then recentLoop cutoffDate rest (recentRepos ++ [repo])
      else recentLoop cutoffDate rest recentRepos
  end.

(** [now] is what [time.Now()] gave. *)
Definition GetRecentlyUpdatedRepos (now : Time) (gh : GitHub.t)
    (daysBack : Z) : list Repo.t :=
  if daysBack <=? 0 then GitHub.repos gh
  else
    let cutoffDate := AddDate now 0 0 (- daysBack) in
    recentLoop cutoffDate (GitHub.repos gh) [].

Definition GetReposChoices (gh : GitHub.t) : list string :=
  fold_left (fun choices r => choices ++ [Repo.String r]) (GetRepos gh) [].

Definition GetRecentlyUpdatedReposChoices (now : Time) (gh : GitHub.t)
    (daysBack : Z) : list string :=
  fold_left (fun choices r => choices ++ [Repo.String r])
    (GetRecentlyUpdatedRepos now gh daysBack) [].

(** The loop over one decoded response in [GetLatestCommits]. *)
Fixpoint convertLoop (name : string) (commits : list CommitResponse.t)
    (allCommits : list Commit.t) : IO W (list Commit.t) :=
  match commits with
  | [] => ret allCommits
  | c :: rest =>
      let date :=
        default zeroTime
          (ParseRFC3339
             (CommitAuthor.Date (CommitDetails.Author
                                   (CommitResponse.Commit c)))) in
      let author :=
        match CommitResponse.Author c with
        | Some a => Login.Login a
        | None =>
            CommitAuthor.Name (CommitDetails.Author
                                 (CommitResponse.Commit c))
        end in
      match slicePrefix (CommitResponse.SHA c) 8 with
      | None => panic "slice bounds out of range"
      | Some sha =>
          let commit :=
            Commit.mk sha
              (CommitMessage.Message
                 (CommitDetails.Message (CommitResponse.Commit c)))
              author date name (CommitResponse.HTMLURL c) in
          convertLoop name rest (allCommits ++ [commit])
      end
  end.

(** The loop over [repoNames] in [GetLatestCommits]. *)
Fixpoint latestLoop (gh : GitHub.t) (since : Time)
    (repoNames : list string) (allCommits : list Commit.t)
  : IO W (list Commit.t) :=
  match repoNames with
  | [] => ret allCommits
  | repoName :: rest =>
      let name := SplitHead repoName " (" in
      let q := mkCommitsQuery (username (GitHub.user gh)) name since
                 (apiKey (GitHub.user gh)) in
      let* r := perform (fetchCommits q) in
      match r with
      | Decoded commits =>
          let* allCommits' := convertLoop name commits allCommits in
          latestLoop gh since rest allCommits'
      | _ => latestLoop gh since rest allCommits
      end
  end.

Definition GetLatestCommits (now : Time) (gh : GitHub.t)
    (repoNames : list string) (daysBack : Z)
  : IO W (list Commit.t * error) :=
  let since := AddDate now 0 0 (- daysBack) in
  let* allCommits := latestLoop gh since repoNames [] in
  ret (allCommits, None).

(** "Group by repository": [repoCommits[k] = append(repoCommits[k], c)]. *)
Definition groupByRepo (commits : list Commit.t)
  : gmap string (list Commit.t) :=
  fold_left
    (fun repoCommits commit =>
       <[Commit.RepoName commit :=
           default [] (repoCommits !! Commit.RepoName commit)
           ++ [commit]]> repoCommits)
    commits ∅.

Definition commitLine (commit : Commit.t) : string :=
  "- " +:+ Commit.SHA commit +:+ ": " +:+ Commit.Message commit
  +:+ " (by " +:+ Commit.Author commit +:+ " on "
  +:+ FormatDateMinute (Commit.Date commit) +:+ ")" +:+ LF.

(** What one iteration of the [range] over the map writes. *)
Definition repoSection (repoName : string) (repoCommits : list Commit.t)
  : string :=
  "Repository: " +:+ repoName +:+ LF
  +:+ fold_left (fun b commit => b +:+ commitLine commit) repoCommits ""
  +:+ LF.

(** The contents of the builder [commitDetails] when the map was
    ranged over in [order]. *)
Definition commitDetails (order : list string)
    (repoCommits : gmap string (list Commit.t)) : string :=
  fold_left
    (fun b repoName =>
       b +:+ repoSection repoName (default [] (repoCommits !! repoName)))
    order ("Recent commits summary:" +:+ LF +:+ LF).

Definition promptFor (details : string) : string :=
  "Please provide a concise summary of the following recent commits for a daily standup or meeting. "
  +:+ LF
  +:+ "Focus on the most important changes, new features, bug fixes, and any breaking changes. "
  +:+ LF
  +:+ "Group by repository and highlight key achievements:" +:+ LF
  +:+ LF +:+ details +:+ LF +:+ LF
  +:+ "Please format the response as a professional summary suitable for a team meeting.".

(** The prompt built by [GenerateSummary] for a non-empty list. *)
Definition buildPrompt (commits : list Commit.t) : IO W string :=
  let repoCommits := groupByRepo commits in
  let* order := perform (rangeOrder (keys repoCommits)) in
  ret (promptFor (commitDetails order repoCommits)).

(** [json.Marshal] of a [GeminiRequest], a struct of strings, has no
    failing case; the four later checks of [err] are the cases of
    [Wire]. *)
Definition GenerateSummary (llm : LLMService.t) (commits : list Commit.t)
  : IO W (string * error) :=
  if (length commits =? 0)%nat
  then ret ("No commits found in the specified time period.", None)
  else
    let* prompt := buildPrompt commits in
    let requestBody :=
      GeminiRequest.mk [GeminiContent.mk [GeminiPart.mk prompt]] in
    let url := geminiAPIURL +:+ LLMService.apiKey llm in
    let* r := perform (generateContent (mkGeminiCall url requestBody)) in
    match r with
    | NewRequestFailed e => ret ("", Some e)
    | DoFailed e => ret ("", Some e)
    | ReadFailed e => ret ("", Some e)
    | UnmarshalFailed e => ret ("", Some e)
    | Decoded geminiResp =>
        match GeminiResponse.Candidates geminiResp with
        | candidate :: _ =>
            match GeminiContent.Parts
                    (GeminiCandidate.Content candidate) with
            | part :: _ => ret (GeminiPart.Text part, None)
            | [] => ret ("Unable to generate summary at this time.", None)
            end
        | [] => ret ("Unable to generate summary at this time.", None)
        end
    end.

End Methods.
End Main.

(* ===================================================================== *)
(** ** Package main on backing arrays: what the filter writes            *)
(* ===================================================================== *)

Module MainMem.
Import GoTime Main GoSlice.

(** The zero value of [Repo]. *)
Definition zeroRepo : Repo.t :=
  Repo.mk 0 "" false "" "" "" zeroTime zeroTime.

Module GitHub.
Record t := mk { user : Main.user; repos : slice }.
End GitHub.

(** The [range] loop of [GetRecentlyUpdatedRepos] over the indices
    still to visit; [src] is the header of [gh.repos] read once at
    the start of the loop. *)
Fixpoint recentLoop (growCap : nat -> nat) (cutoffDate : Time)
    (src : slice) (indices : list nat) (h : Heap Repo.t)
    (recentRepos : slice) : Heap Repo.t * slice :=
  match indices with
  | [] => (h, recentRepos)
  | i :: rest =>
      match array h (ptr src) !! i with
      | None => (h, recentRepos)
      | Some repo =>
          if After (Repo.UpdatedAt repo) cutoffDate
          then
            let (h', recentRepos') :=
              append zeroRepo growCap h recentRepos repo in
            recentLoop growCap cutoffDate src rest h' recentRepos'
          else recentLoop growCap cutoffDate src rest h recentRepos
      end
  end.

(** [growCap] is the growth policy of the runtime's [append]. *)
Definition GetRecentlyUpdatedRepos (growCap : nat -> nat) (now : Time)
    (gh : GitHub.t) (daysBack : Z) (h : Heap Repo.t)
  : Heap Repo.t * slice :=
  if daysBack <=? 0 then (h, GitHub.repos gh)
  else
    let cutoffDate := AddDate now 0 0 (- daysBack) in
    recentLoop growCap cutoffDate (GitHub.repos gh)
      (seq 0 (len (GitHub.repos gh))) h nilSlice.
End MainMem.

(* ===================================================================== *)
(** ** Package github, go-github variant: repositories with recent commits *)
(* ===================================================================== *)

Module GithubClient.
Import GoTime.

Module RepositoryInfo.
Record t := mk {
  Name : string; FullName : string; Description : string; URL : string;
  LastPush : Time; Language : string }.
End RepositoryInfo.

Module CommitInfo.
Record t := mk {
  SHA : string; Message : string; Author : string; Date : Time;
  Files : list string; Additions : Z; Deletions : Z }.
End CommitInfo.

(** The go-github values: every field is a pointer, the getters give
    the zero value for nil. *)
Module Repository.
Record t := mk {
  Name : option string; FullName : option string;
  Description : option string; HTMLURL : option string;
  PushedAt : option Time; Language : option string;
  UpdatedAt : option Time }.
Definition GetName (r : t) : string := default "" (Name r).
Definition GetFullName (r : t) : string := default "" (FullName r).
Definition GetDescription (r : t) : string := default "" (Description r).
Definition GetHTMLURL (r : t) : string := default "" (HTMLURL r).
Definition GetPushedAt (r : t) : Time := default zeroTime (PushedAt r).
Definition GetLanguage (r : t) : string := default "" (Language r).
End Repository.

Module Organization.
Record t := mk { Login : option string }.
Definition GetLogin (o : t) : string := default "" (Login o).
End Organization.

Module Branch.
Record t := mk { Name : option string }.
Definition GetName (b : t) : string := default "" (Name b).
End Branch.

Module CommitAuthor.
Record t := mk { Name : option string; Date : option Time }.
Definition GetName (a : t) : string := default "" (Name a).
Definition GetDate (a : t) : Time := default zeroTime (Date a).
End CommitAuthor.

Module Commit.
Record t := mk { Message : option string; Author : option CommitAuthor.t }.
Definition GetMessage (c : t) : string := default "" (Message c).
Definition GetAuthor (c : t) : CommitAuthor.t :=
  default (CommitAuthor.mk None None) (Author c).
End Commit.

Module CommitFile.
Record t := mk { Filename : option string }.
Definition GetFilename (f : t) : string := default "" (Filename f).
End CommitFile.

Module CommitStats.
Record t := mk { Additions : option Z; Deletions : option Z }.
Definition GetAdditions (s : t) : Z := default 0 (Additions s).
Definition GetDeletions (s : t) : Z := default 0 (Deletions s).
End CommitStats.

Module RepositoryCommit.
Record t := mk {
  SHA : option string; Commit : option Commit.t;
  Files : list CommitFile.t; Stats : option CommitStats.t }.
Definition GetSHA (c : t) : string := default "" (SHA c).
Definition GetCommit (c : t) : Commit.t :=
  default (Commit.mk None None) (Commit c).
Definition GetStats (c : t) : CommitStats.t :=
  default (CommitStats.mk None None) (Stats c).
End RepositoryCommit.

Module Response.
Record t := mk { NextPage : Z }.
End Response.

Module ListOptions.
Record t := mk { Page : Z; PerPage : Z }.
End ListOptions.

Module RepositoryListOptions.
Record t := mk {
  Type_ : string; Sort : string; Direction : string;
  ListOptions : ListOptions.t }.
Definition withPage (o : t) (page : Z) : t :=
  mk (Type_ o) (Sort o) (Direction o)
     (ListOptions.mk page (ListOptions.PerPage (ListOptions o))).
End RepositoryListOptions.

Module CommitsListOptions.
Record t := mk { SHA : string; Since : Time; ListOptions : ListOptions.t }.
Definition withPage (o : t) (page : Z) : t :=
  mk (SHA o) (Since o)
     (ListOptions.mk page (ListOptions.PerPage (ListOptions o))).
End CommitsListOptions.

(** The go-github services the client calls, and the logger. *)
Class Remote (W : Type) := {
  ListByUser : string -> RepositoryListOptions.t -> W ->
               (list Repository.t * Response.t * error) * W;
  OrganizationsList : string -> ListOptions.t -> W ->
               (list Organization.t * Response.t * error) * W;
  ListByOrg : string -> RepositoryListOptions.t -> W ->
               (list Repository.t * Response.t * error) * W;
  ListCommits : string -> string -> CommitsListOptions.t -> W ->
               (list RepositoryCommit.t * Response.t * error) * W;
  ListBranches : string -> string -> ListOptions.t -> W ->
               (list Branch.t * Response.t * error) * W;
  GetCommit : string -> string -> string -> ListOptions.t -> W ->
               (RepositoryCommit.t * Response.t * error) * W;
  logPrintf : string -> W -> unit * W
}.

(** [fullName[:i], fullName[i+1:]] at the first ['/']. *)
Fixpoint splitSlash (s : string) : option (string * string) :=
  match s with
  | EmptyString => None
  | String c rest =>
      if Ascii.eqb c "/"%char then Some (EmptyString, rest)
      else match splitSlash rest with
           | Some (owner, repo) => Some (String c owner, repo)
           | None => None
           end
  end.

Definition parseRepoName (fullName : string) : string * string :=
  match splitSlash fullName with
  | Some (owner, repo) => (owner, repo)
  | None => ("", fullName)
  end.

(** [repo.UpdatedAt != nil && repo.UpdatedAt.After(since)] *)
Definition updatedAfter (repo : Repository.t) (since : Time) : bool :=
  match Repository.UpdatedAt repo with
  | Some u => After u since
  | None => false
  end.

Definition toRepositoryInfo (repo : Repository.t) : RepositoryInfo.t :=
  RepositoryInfo.mk (Repository.GetName repo) (Repository.GetFullName repo)
    (Repository.GetDescription repo) (Repository.GetHTMLURL repo)
    (Repository.GetPushedAt repo) (Repository.GetLanguage repo).

(** The loop over one page of repositories. *)
Fixpoint keepUpdated (page : list Repository.t) (since : Time)
    (repos : list RepositoryInfo.t) : list RepositoryInfo.t :=
  match page with
  | [] => repos
  | repo :: rest =>
      if updatedAfter repo since
      then keepUpdated rest since (repos ++ [toRepositoryInfo repo])
      else keepUpdated rest since repos
  end.

(** [reposMap[repo.FullName] = repo] for each element. *)
Definition insertAll (repos : list RepositoryInfo.t)
    (reposMap : gmap string RepositoryInfo.t)
  : gmap string RepositoryInfo.t :=
  fold_left (fun m repo => <[RepositoryInfo.FullName repo := repo]> m)
    repos reposMap.

(** [commitExists] *)
Fixpoint commitExists (commits : list CommitInfo.t) (sha : string) : bool :=
  match commits with
  | [] => false
  | commit :: rest =>
      if String.eqb (CommitInfo.SHA commit) sha then true
      else commitExists rest sha
  end.

Section Methods.
Context {W : Type} `{Remote W} `{GoRuntime W}.

Definition ownerOptions : RepositoryListOptions.t :=
  RepositoryListOptions.mk "owner" "updated" "desc"
    (ListOptions.mk 0 100).

Definition orgOptions : RepositoryListOptions.t :=
  RepositoryListOptions.mk "all" "updated" "desc" (ListOptions.mk 0 100).

(** The [for] loop of [getUserRepositories]. *)
Fixpoint userPages (fuel : nat) (username : string) (since : Time)
    (opt : RepositoryListOptions.t) (repos : list RepositoryInfo.t)
  : IO W (list RepositoryInfo.t * error) :=
  match fuel with
  | O => diverge
  | S fuel' =>
      let* (userRepos, resp, err) := perform (ListByUser username opt) in
      match err with
      | Some e =>
          ret ([], Some ("error listing user repositories: " +:+ e))
      | None =>
          let repos' := keepUpdated userRepos since repos in
          if Response.NextPage resp =? 0 then ret (repos', None)
          else userPages fuel' username since
                 (RepositoryListOptions.withPage opt
                    (Response.NextPage resp)) repos'
      end
  end.

Definition getUserRepositories (fuel : nat) (username : string)
    (since : Time) : IO W (list RepositoryInfo.t * error) :=
  userPages fuel username since ownerOptions [].

(** Modelled from the spec: the method [repo] that
    [GetRepositoriesWithRecentCommits] calls for the repositories
    owned by the user has no definition in the sources; the listing
    of "repositories owned by user" is [getUserRepositories]. *)
Definition repo (fuel : nat) (username : string) (since : Time)
  : IO W (list RepositoryInfo.t * error) :=
  getUserRepositories fuel username since.

(** The inner [for] loop of [getOrganizationRepositories]: the pages
    of one organization; a failure is logged and ends the loop. *)
Fixpoint orgPages (fuel : nat) (login : string) (since : Time)
    (opt : RepositoryListOptions.t) (repos : list RepositoryInfo.t)
  : IO W (list RepositoryInfo.t) :=
  match fuel with
  | O => diverge
  | S fuel' =>
      let* (orgRepos, resp, err) := perform (ListByOrg login opt) in
      match err with
      | Some e =>
          let* _ := perform (logPrintf
            ("Warning: Could not list repositories for org "
             +:+ login +:+ ": " +:+ e)) in
          ret repos
      | None =>
          let repos' := keepUpdated orgRepos since repos in
          if Response.NextPage resp =? 0 then ret repos'
          else orgPages fuel' login since
                 (RepositoryListOptions.withPage opt
                    (Response.NextPage resp)) repos'
      end
  end.

Fixpoint orgLoop (fuel : nat) (since : Time) (orgs : list Organization.t)
    (repos : list RepositoryInfo.t) : IO W (list RepositoryInfo.t) :=
  match orgs with
  | [] => ret repos
  | org :: rest =>
      let* repos' :=
        orgPages fuel (Organization.GetLogin org) since orgOptions repos in
      orgLoop fuel since rest repos'
  end.

Definition getOrganizationRepositories (fuel : nat) (username : string)
    (since : Time) : IO W (list RepositoryInfo.t * error) :=
  let* (orgs, _, err) :=
    perform (OrganizationsList username (ListOptions.mk 0 100)) in
  match err with
  | Some e => ret ([], Some ("error listing organizations: " +:+ e))
  | None =>
      let* repos := orgLoop fuel since orgs [] in
      ret (repos, None)
  end.

Definition hasCommitsSince (fullRepoName : string) (since : Time)
  : IO W (bool * error) :=
  let (owner, repo) := parseRepoName fullRepoName in
  let opt := CommitsListOptions.mk "" since (ListOptions.mk 0 1) in
  let* (commits, _, err) := perform (ListCommits owner repo opt) in
  match err with
  | Some e => ret (false, Some e)
  | None => ret ((0 <? length commits)%nat, None)
  end.

(** The loop "Convert map to slice and filter by actual commits",
    the map being ranged over in [order]. *)
Fixpoint checkLoop (since : Time) (order : list string)
    (reposMap : gmap string RepositoryInfo.t)
    (repos : list RepositoryInfo.t) : IO W (list RepositoryInfo.t) :=
  match order with
  | [] => ret repos
  | key :: rest =>
      match reposMap !! key with
      | None => checkLoop since rest reposMap repos
      | Some repoInfo =>
          let* (hasRecentCommits, err) :=
            hasCommitsSince (RepositoryInfo.FullName repoInfo) since in
          match err with
          | Some e =>
              let* _ := perform (logPrintf
                ("Warning: Could not check commits for "
                 +:+ RepositoryInfo.FullName repoInfo +:+ ": " +:+ e)) in
              checkLoop since rest reposMap repos
          | None =>
              if hasRecentCommits
              then checkLoop since rest reposMap (repos ++ [repoInfo])
              else checkLoop since rest reposMap repos
          end
      end
  end.

Definition GetRepositoriesWithRecentCommits (fuel : nat)
    (username : string) (since : Time)
  : IO W (list RepositoryInfo.t * error) :=
  let* (userRepos, err) := repo fuel username since in
  match err with
  | Some e => ret ([], Some e)
  | None =>
      let reposMap := insertAll userRepos ∅ in
      let* (orgRepos, err) :=
        getOrganizationRepositories fuel username since in
      let* reposMap :=
        match err with
        | Some e =>
            let* _ := perform (logPrintf
              ("Warning: Could not fetch organization repositories: "
               +:+ e)) in
            ret reposMap
        | None => ret (insertAll orgRepos reposMap)
        end in
      let* order := perform (rangeOrder (keys reposMap)) in
      let* repos := checkLoop since order reposMap [] in
      ret (repos, None)
  end.

(** The loop over one page of commits in [GetRepositoryCommits]. *)
Fixpoint detailLoop (owner repo : string)
    (ghCommits : list RepositoryCommit.t) (commits : list CommitInfo.t)
  : IO W (list CommitInfo.t) :=
  match ghCommits with
  | [] => ret commits
  | commit :: rest =>
      if commitExists commits (RepositoryCommit.GetSHA commit)
      then detailLoop owner repo rest commits
      else
        let* (detailedCommit, _, err) :=
          perform (GetCommit owner repo (RepositoryCommit.GetSHA commit)
                     (ListOptions.mk 0 0)) in
        match err with
        | Some e =>
            let* _ := perform (logPrintf
              ("Warning: Could not get detailed commit info for "
               +:+ RepositoryCommit.GetSHA commit +:+ ": " +:+ e)) in
            detailLoop owner repo rest commits
        | None =>
            let files :=
              fold_left
                (fun files file => files ++ [CommitFile.GetFilename file])
                (RepositoryCommit.Files detailedCommit) [] in
            let commitInfo :=
              CommitInfo.mk (RepositoryCommit.GetSHA commit)
                (Commit.GetMessage (RepositoryCommit.GetCommit commit))
                (CommitAuthor.GetName
                   (Commit.GetAuthor (RepositoryCommit.GetCommit commit)))
                (CommitAuthor.GetDate
                   (Commit.GetAuthor (RepositoryCommit.GetCommit commit)))
                files
                (CommitStats.GetAdditions
                   (RepositoryCommit.GetStats detailedCommit))
                (CommitStats.GetDeletions
                   (RepositoryCommit.GetStats detailedCommit)) in
            detailLoop owner repo rest (commits ++ [commitInfo])
        end
  end.

(** The pages of one branch in [GetRepositoryCommits]. *)
Fixpoint branchCommitPages (fuel : nat) (owner repo branchName : string)
    (opt : CommitsListOptions.t) (commits : list CommitInfo.t)
  : IO W (list CommitInfo.t) :=
  match fuel with
  | O => diverge
  | S fuel' =>
      let* (ghCommits, resp, err) := perform (ListCommits owner repo opt) in
      match err with
      | Some e =>
          let* _ := perform (logPrintf
            ("Warning: Could not list commits for branch "
             +:+ branchName +:+ ": " +:+ e)) in
          ret commits
      | None =>
          let* commits' := detailLoop owner repo ghCommits commits in
          if Response.NextPage resp =? 0 then ret commits'
          else branchCommitPages fuel' owner repo branchName
                 (CommitsListOptions.withPage opt (Response.NextPage resp))
                 commits'
      end
  end.

Fixpoint allBranchesLoop (fuel : nat) (owner repo : string) (since : Time)
    (branches : list Branch.t) (commits : list CommitInfo.t)
  : IO W (list CommitInfo.t) :=
  match branches with
  | [] => ret commits
  | branch :: rest =>
      let opt := CommitsListOptions.mk (Branch.GetName branch) since
                   (ListOptions.mk 0 100) in
      let* commits' :=
        branchCommitPages fuel owner repo (Branch.GetName branch) opt
          commits in
      allBranchesLoop fuel owner repo since rest commits'
  end.

Definition GetRepositoryCommits (fuel : nat) (fullRepoName : string)
    (since : Time) : IO W (list CommitInfo.t * error) :=
  let (owner, repo) := parseRepoName fullRepoName in
  let* (branches, _, err) :=
    perform (ListBranches owner repo (ListOptions.mk 0 100)) in
  match err with
  | Some e => ret ([], Some ("error listing branches: " +:+ e))
  | None =>
      let* commits := allBranchesLoop fuel owner repo since branches [] in
      ret (commits, None)
  end.

End Methods.
End GithubClient.

(* ===================================================================== *)
(** ** A model of the hosting platform, to run the clients against       *)
(* ===================================================================== *)

Module Platform.
Import GoTime.

Record HostedCommit := mkHostedCommit {
  hcSHA : string; hcMessage : string; hcAuthor : string; hcDate : Time }.

(** A hosted repository: its branches, each with the commits reachable
    from its head, newest first. *)
Record HostedRepo := mkHostedRepo {
  hrOwner : string; hrName : string; hrUpdatedAt : Time;
  hrDefaultBranch : string;
  hrBranches : list (string * list HostedCommit) }.

(** What is hosted, and the branches whose commit listing fails. *)
Record Hosting := mkHosting {
  hosted : list HostedRepo;
  failing : list string }.

(** The world the clients change: the lines printed and logged. *)
Record Console := mkConsole { printed : list string }.

Definition hrFullName (r : HostedRepo) : string :=
  hrOwner r +:+ "/" +:+ hrName r.

Definition say (line : string) (w : Console) : unit * Console :=
  (tt, mkConsole (printed w ++ [line])).

Fixpoint lookupRepo (repos : list HostedRepo) (fullName : string)
  : option HostedRepo :=
  match repos with
  | [] => None
  | r :: rest =>
      if String.eqb (hrFullName r) fullName then Some r
      else lookupRepo rest fullName
  end.

Fixpoint lookupBranch (branches : list (string * list HostedCommit))
    (name : string) : option (list HostedCommit) :=
  match branches with
  | [] => None
  | (n, cs) :: rest =>
      if String.eqb n name then Some cs else lookupBranch rest name
  end.

(** Page [page] (from 1; 0 means 1) of [perPage] items. *)
Definition pageOf {A} (page perPage : Z) (items : list A) : list A :=
  let p := if page <=? 0 then 1 else page in
  take (Z.to_nat perPage) (drop (Z.to_nat ((p - 1) * perPage)) items).

Definition nextPage {A} (page perPage : Z) (items : list A) : Z :=
  let p := if page <=? 0 then 1 else page in
  if p * perPage <? Z.of_nat (length items) then p + 1 else 0.

(** The commits a listing shows: those reachable from [sha], or from
    the default branch when no [sha] is given, not older than [since]. *)
Definition commitsShown (r : HostedRepo) (sha : option string)
    (since : option Time) : option (list HostedCommit) :=
  let branch := default (hrDefaultBranch r) sha in
  match lookupBranch (hrBranches r) branch with
  | None => None
  | Some cs =>
      Some (match since with
            | None => cs
            | Some t => List.filter (fun c => negb (After t (hcDate c))) cs
            end)
  end.

(** *** The REST variant *)

Definition toCommit (c : HostedCommit) : Github.Commit.t :=
  let u := Github.CommitUser.mk (hcAuthor c) "" (hcDate c) in
  Github.Commit.mk (hcSHA c) (Github.CommitInfo.mk u u (hcMessage c)).

Definition toBranch (b : string * list HostedCommit) : Github.Branch.t :=
  Github.Branch.mk (fst b)
    (match snd b with
     | c :: _ => toCommit c
     | [] => toCommit (mkHostedCommit "" "" "" zeroTime)
     end)
    false.

Definition branchesReply (p : Hosting) (q : Github.BranchesQuery)
  : Wire (list Github.Branch.t) :=
  match lookupRepo (hosted p) (Github.bqFullName q) with
  | None => UnmarshalFailed "cannot unmarshal object"
  | Some r =>
      Decoded (pageOf (Github.bqPage q) (Github.bqPerPage q)
                 (toBranch <$> hrBranches r))
  end.

Definition commitsReply (p : Hosting) (q : Github.CommitsQuery)
  : Wire (list Github.Commit.t) :=
  match lookupRepo (hosted p) (Github.cqFullName q) with
  | None => UnmarshalFailed "cannot unmarshal object"
  | Some r =>
      if bool_decide (default "" (Github.cqSha q) ∈ failing p)
      then DoFailed "timeout"
      else
        match commitsShown r (Github.cqSha q) (Github.cqSince q) with
        | None => UnmarshalFailed "cannot unmarshal object"
        | Some cs =>
            Decoded (pageOf (Github.cqPage q) (Github.cqPerPage q)
                       (toCommit <$> cs))
        end
  end.

Definition restBranches (p : Hosting) (q : Github.BranchesQuery)
    (w : Console) : Wire (list Github.Branch.t) * Console :=
  (branchesReply p q, w).

Definition restCommits (p : Hosting) (q : Github.CommitsQuery)
    (w : Console) : Wire (list Github.Commit.t) * Console :=
  (commitsReply p q, w).

Definition rest (p : Hosting) : Github.Remote Console := {|
  Github.fetchBranches := restBranches p;
  Github.fetchCommits := restCommits p;
  Github.Printf := say
|}.

(** *** The go-github variant *)

Definition toRepository (r : HostedRepo) : GithubClient.Repository.t :=
  GithubClient.Repository.mk (Some (hrName r)) (Some (hrFullName r)) None
    None (Some (hrUpdatedAt r)) None (Some (hrUpdatedAt r)).

Definition toRepositoryCommit (c : HostedCommit)
  : GithubClient.RepositoryCommit.t :=
  GithubClient.RepositoryCommit.mk (Some (hcSHA c))
    (Some (GithubClient.Commit.mk (Some (hcMessage c))
             (Some (GithubClient.CommitAuthor.mk (Some (hcAuthor c))
                      (Some (hcDate c))))))
    [] None.

Definition paged {A} (o : GithubClient.ListOptions.t) (items : list A)
  : list A * GithubClient.Response.t * error :=
  (pageOf (GithubClient.ListOptions.Page o)
     (GithubClient.ListOptions.PerPage o) items,
   GithubClient.Response.mk
     (nextPage (GithubClient.ListOptions.Page o)
        (GithubClient.ListOptions.PerPage o) items),
   None).

Definition notFound {A} : list A * GithubClient.Response.t * error :=
  ([], GithubClient.Response.mk 0, Some "404 Not Found").

Definition apiListByUser (p : Hosting) (username : string)
    (o : GithubClient.RepositoryListOptions.t) (w : Console) :=
  (paged (GithubClient.RepositoryListOptions.ListOptions o)
     (toRepository <$>
        List.filter (fun r => String.eqb (hrOwner r) username) (hosted p)),
   w).

Definition apiOrganizationsList (p : Hosting) (username : string)
    (o : GithubClient.ListOptions.t) (w : Console) :=
  (paged o ([] : list GithubClient.Organization.t), w).

Definition apiListByOrg (p : Hosting) (org : string)
    (o : GithubClient.RepositoryListOptions.t) (w : Console) :=
  (paged (GithubClient.RepositoryListOptions.ListOptions o)
     (toRepository <$>
        List.filter (fun r => String.eqb (hrOwner r) org) (hosted p)),
   w).

Definition apiListCommits (p : Hosting) (owner repo : string)
    (o : GithubClient.CommitsListOptions.t) (w : Console) :=
  (match lookupRepo (hosted p) (owner +:+ "/" +:+ repo) with
   | None => notFound
   | Some r =>
       let sha := GithubClient.CommitsListOptions.SHA o in
       match commitsShown r
               (if String.eqb sha "" then None else Some sha)
               (Some (GithubClient.CommitsListOptions.Since o)) with
       | None => notFound
       | Some cs =>
           paged (GithubClient.CommitsListOptions.ListOptions o)
             (toRepositoryCommit <$> cs)
       end
   end, w).

Definition apiListBranches (p : Hosting) (owner repo : string)
    (o : GithubClient.ListOptions.t) (w : Console) :=
  (match lookupRepo (hosted p) (owner +:+ "/" +:+ repo) with
   | None => notFound
   | Some r =>
       paged o ((fun b => GithubClient.Branch.mk (Some (fst b)))
                  <$> hrBranches r)
   end, w).

Definition apiGetCommit (p : Hosting) (owner repo sha : string)
    (o : GithubClient.ListOptions.t) (w : Console)
  : (GithubClient.RepositoryCommit.t * GithubClient.Response.t * error)
    * Console :=
  let missing :=
    (GithubClient.RepositoryCommit.mk None None [] None,
     GithubClient.Response.mk 0, Some "404 Not Found") in
  (match lookupRepo (hosted p) (owner +:+ "/" +:+ repo) with
   | None => missing
   | Some r =>
       match List.find (fun c => String.eqb (hcSHA c) sha)
               (concat (snd <$> hrBranches r)) with
       | None => missing
       | Some c => (toRepositoryCommit c, GithubClient.Response.mk 0, None)
       end
   end, w).

Definition api (p : Hosting) : GithubClient.Remote Console := {|
  GithubClient.ListByUser := apiListByUser p;
  GithubClient.OrganizationsList := apiOrganizationsList p;
  GithubClient.ListByOrg := apiListByOrg p;
  GithubClient.ListCommits := apiListCommits p;
  GithubClient.ListBranches := apiListBranches p;
  GithubClient.GetCommit := apiGetCommit p;
  GithubClient.logPrintf := say
|}.

(** Maps are ranged over in the order of [keys]. *)
#[global] Instance runtime : GoRuntime Console := {|
  rangeOrder := fun keys w => (keys, w);
  rangeOrder_perm := fun keys w => Permutation_refl keys
|}.

(** *** Sample data *)

Definition at_ (unix : Z) : Time := mkTime unix 0 UTC.

(** Monday 2024-06-10 06:13:20 UTC. *)
Definition monday : Time := at_ 1718000000.

Definition root : HostedCommit :=
  mkHostedCommit "abc123d4e5f6a7b8" "fix bug" "ann" (at_ 1717900000).
Definition onMain : HostedCommit :=
  mkHostedCommit "1111111122222222" "release" "ann" (at_ 1717950000).
Definition onDev : HostedCommit :=
  mkHostedCommit "3333333344444444" "wip" "bob" (at_ 1717960000).
Definition old : HostedCommit :=
  mkHostedCommit "9999999900000000" "init" "ann" (at_ 1700000000).

(** [main] and [dev] share the commit [root]. *)
Definition app : HostedRepo :=
  mkHostedRepo "me" "app" (at_ 1717960000) "main"
    [("main", [onMain; root; old]); ("dev", [onDev; root; old])].

(** No branch at all. *)
Definition bare : HostedRepo :=
  mkHostedRepo "me" "bare" (at_ 1717960000) "main" [].

(** Recent work on [dev] only; the default branch is old. *)
Definition side : HostedRepo :=
  mkHostedRepo "me" "side" (at_ 1717960000) "main"
    [("main", [old]); ("dev", [onDev; old])].

Definition hosting0 : Hosting := mkHosting [app; bare; side] [].

Definition console0 : Console := mkConsole [].

#[global] Instance rest0 : Github.Remote Console := rest hosting0.

#[global] Instance api0 : GithubClient.Remote Console := api hosting0.

Definition restRepo (r : HostedRepo) : Github.Repo.t :=
  Github.Repo.mk 1 (hrName r) (hrFullName r) false "" "" "" "Go"
    (at_ 1600000000) (hrUpdatedAt r).

Definition gh0 : Github.GitHub.t :=
  Github.GitHub.mk (Github.mkUser "me" "token")
    [restRepo app; restRepo bare; restRepo side].

End Platform.

(* ===================================================================== *)
(** ** A scripted world for package main                                 *)
(* ===================================================================== *)

Module Desk.
Import GoTime Main.

(** The replies are scripted; [flipped] makes every map [range] run
    in the reverse of the order of [keys]; [calls] records the
    requests sent to the generative endpoint. *)
Record World := mkWorld {
  flipped : bool;
  commitsReply : Wire (list CommitResponse.t);
  geminiReply : Wire GeminiResponse.t;
  calls : list GeminiCall }.

Definition parseStamp (s : string) : option Time :=
  if String.eqb s "2024-06-09T10:00:00Z" then Some (mkTime 1717927200 0 UTC)
  else if String.eqb s "2024-06-08T09:30:00Z"
       then Some (mkTime 1717839000 0 UTC)
       else None.

#[global] Instance remote : Main.Remote World := {|
  Main.fetchCommits := fun _ w => (commitsReply w, w);
  Main.generateContent := fun call w =>
    (geminiReply w,
     mkWorld (flipped w) (commitsReply w) (geminiReply w) (calls w ++ [call]));
  Main.ParseRFC3339 := parseStamp
|}.

#[global] Instance runtime : GoRuntime World := {|
  rangeOrder := fun keys w => (if flipped w then rev keys else keys, w);
  rangeOrder_perm := fun keys w =>
    match flipped w as b
      return Permutation (fst (if b then rev keys else keys, w)) keys with
    | true => Permutation_sym (Permutation_rev keys)
    | false => Permutation_refl keys
    end
|}.

Definition response (sha : string) : CommitResponse.t :=
  CommitResponse.mk sha
    (CommitDetails.mk (CommitMessage.mk "fix bug")
       (CommitAuthor.mk "Ann" "ann@example.org" "2024-06-09T10:00:00Z"))
    "https://example.org/c" (Some (Login.mk "ann")).

Definition commitIn (repoName sha : string) : Commit.t :=
  Commit.mk sha "fix bug" "ann" (mkTime 1717927200 0 UTC) repoName "".

(** One commit in [api], then one in [web]. *)
Definition twoRepos : list Commit.t :=
  [commitIn "api" "abc123d4"; commitIn "web" "0f0f0f0f"].

Definition textReply (parts : list GeminiPart.t) : Wire GeminiResponse.t :=
  Decoded (GeminiResponse.mk
             [GeminiCandidate.mk (GeminiContent.mk parts)]).

Definition noCandidates : Wire GeminiResponse.t :=
  Decoded (GeminiResponse.mk []).

Definition quiet (reply : Wire GeminiResponse.t) (flip : bool) : World :=
  mkWorld flip (Decoded []) reply [].

Definition serving (commits : list CommitResponse.t) : World :=
  mkWorld false (Decoded commits) noCandidates [].

Definition llm0 : LLMService.t := LLMService.mk "key".

Definition user0 : Main.user := Main.mkUser "me" "token".

Definition repoAt (name : string) (updated : Z) : Repo.t :=
  Repo.mk 1 name false "" "" "Go" (mkTime 1600000000 0 UTC)
    (mkTime updated 0 UTC).

(** Now is 2024-06-10 06:13:20 UTC; [a] was updated two days and [b]
    ten days before. *)
Definition now0 : Time := mkTime 1718000000 0 UTC.

Definition gh0 : GitHub.t :=
  GitHub.mk user0
    [repoAt "a" (1718000000 - 2 * 86400);
     repoAt "b" (1718000000 - 10 * 86400)].

End Desk.

(* ===================================================================== *)
(** ** Vocabulary of the statements                                      *)
(* ===================================================================== *)

(** A [Time] as the library builds them. *)
Definition validTime (t : GoTime.Time) : Prop :=
  0 <= GoTime.nsec t < 1000000000.

(** Midnight, on the wall clock of [l], at the start of local day [day]. *)
Definition midnight (l : GoTime.Location) (day : Z) : GoTime.Time :=
  GoTime.mkTime (day * GoTime.secondsPerDay - GoTime.locOffset l) 0 l.

(** The identifiers of a sequence of commits. *)
Definition shas (cs : list Github.Commit.t) : list string :=
  Github.Commit.SHA <$> cs.

(** The state of the merge: no identifier twice, and the map marks
    exactly the identifiers gathered. *)
Definition tracked (st : list Github.Commit.t * gmap string bool) : Prop :=
  NoDup (shas st.1) /\ forall sha, Github.seen st.2 sha = true <-> sha ∈ shas st.1.

(** Two runs that end alike, whatever they did to the world. *)
Definition sameResult {W A} (r1 r2 : Run W A) : Prop :=
  match r1, r2 with
  | Done a _, Done b _ => a = b
  | Panicked m1 _, Panicked m2 _ => m1 = m2
  | Diverged, Diverged => True
  | _, _ => False
  end.

(** The platform answers a commit query the same way each time. *)
Definition stableCommits {W} `{Github.Remote W} : Prop :=
  forall q w1 w2, (Github.fetchCommits q w1).1 = (Github.fetchCommits q w2).1.

(** From page [N] on, every listing answers with less than a full page. *)
Definition boundedPages {W} `{Github.Remote W} (N : Z) : Prop :=
  (forall q w,
      Github.bqPerPage q = Github.perPage -> N <= Github.bqPage q ->
      match (Github.fetchBranches q w).1 with
      | Decoded bs => Z.of_nat (length bs) < Github.perPage
      | _ => True
      end)
  /\ (forall q w,
         Github.cqPerPage q = Github.perPage -> N <= Github.cqPage q ->
         match (Github.fetchCommits q w).1 with
         | Decoded cs => Z.of_nat (length cs) < Github.perPage
         | _ => True
         end).

(** No repository has a full page of branches, no branch a full page of
    commits. *)
Definition smallHosting (p : Platform.Hosting) : bool :=
  forallb
    (fun r =>
       (length (Platform.hrBranches r) <=? 99)%nat
       && forallb (fun b => (length (snd b) <=? 99)%nat)
            (Platform.hrBranches r))
    (Platform.hosted p).

(** [repo.UpdatedAt.After(c)] *)
Definition updatedSince (c : GoTime.Time) (r : Main.Repo.t) : bool :=
  GoTime.After (Main.Repo.UpdatedAt r) c.

(** Every identifier of a decoded response has at least 8 characters. *)
Definition longSHAs (cs : list Main.CommitResponse.t) : Prop :=
  Forall (fun c => (8 <= String.length (Main.CommitResponse.SHA c))%nat) cs.

(** Some identifier of a decoded response has fewer than 8 characters. *)
Definition shortSHA (cs : list Main.CommitResponse.t) : Prop :=
  Exists (fun c => (String.length (Main.CommitResponse.SHA c) < 8)%nat) cs.

(** The repository names of a commit list in the order of their first
    appearance. *)
Fixpoint firstSeenFrom (names : list string) (commits : list Main.Commit.t)
  : list string :=
  match commits with
  | [] => names
  | c :: rest =>
      if bool_decide (Main.Commit.RepoName c ∈ names)
      then firstSeenFrom names rest
      else firstSeenFrom (names ++ [Main.Commit.RepoName c]) rest
  end.

Definition firstSeen (commits : list Main.Commit.t) : list string :=
  firstSeenFrom [] commits.

(** The commits of one repository, in the order of the list. *)
Definition byRepo (name : string) (commits : list Main.Commit.t)
  : list Main.Commit.t :=
  List.filter (fun c => String.eqb (Main.Commit.RepoName c) name) commits.

(** One step of "Group by repository". *)
Definition groupStep (repoCommits : gmap string (list Main.Commit.t))
    (commit : Main.Commit.t) : gmap string (list Main.Commit.t) :=
  <[Main.Commit.RepoName commit :=
      default [] (repoCommits !! Main.Commit.RepoName commit) ++ [commit]]>
    repoCommits.

(** The text of the first candidate: that of its first part, empty when
    there is none. *)
Definition firstText (resp : Main.GeminiResponse.t) : string :=
  match Main.GeminiResponse.Candidates resp with
  | c :: _ =>
      match Main.GeminiContent.Parts (Main.GeminiCandidate.Content c) with
      | p :: _ => Main.GeminiPart.Text p
      | [] => ""
      end
  | [] => ""
  end.

Definition fallback : string := "Unable to generate summary at this time.".

(** The request [GenerateSummary] sends for a prompt. *)
Definition summaryCall (llm : Main.LLMService.t) (prompt : string)
  : Main.GeminiCall :=
  Main.mkGeminiCall (Main.geminiAPIURL +:+ Main.LLMService.apiKey llm)
    (Main.GeminiRequest.mk
       [Main.GeminiContent.mk [Main.GeminiPart.mk prompt]]).

(** *** Sample inputs *)

(** Friday 2024-06-07 00:00:00 UTC. *)
Definition friday0 : GoTime.Time := GoTime.mkTime 1717718400 0 GoTime.UTC.

(** What the fan-out gathers for [app] since [friday0]. *)
Definition appCommits : list Github.Commit.t :=
  [Platform.toCommit Platform.onMain; Platform.toCommit Platform.root;
   Platform.toCommit Platform.onDev].

Definition appBranches : list Github.Branch.t :=
  Platform.toBranch <$> Platform.hrBranches Platform.app.

Definition sideBranches : list Github.Branch.t :=
  Platform.toBranch <$> Platform.hrBranches Platform.side.

(** Doubling, from one element on. *)
Definition growDouble (c : nat) : nat := if (c =? 0)%nat then 1%nat else (2 * c)%nat.

(** [gh0.repos] held in one array filled to its capacity. *)
Definition heap0 : GoSlice.Heap Main.Repo.t := [Main.GitHub.repos Desk.gh0].

Definition src0 : GoSlice.slice := GoSlice.mkSlice 1 2 2.
(* ===================================================================== *)
(** ** Package time with zones that change their offset                  *)
(* ===================================================================== *)

Module GoZone.
Import GoTime.

(** A location as the zone database gives it: the offset east of UTC
    in force before the first change, and the changes, each the
    instant from which an offset is in force, in ascending order. *)
Record Location := mkLocation {
  locName : string; firstOffset : Z; changes : list (Z * Z) }.

(** The ends of time of package time. *)
Definition alpha : Z := - 2 ^ 63.
Definition omega : Z := 2 ^ 63 - 1.

(** [l.lookup(sec)]: the offset in force at [sec] and the instants
    [start] and [end] between which it is in force: that of the last
    change at or before [sec]. The changes are read in order; the
    rule of a zone for the years after its listed changes is not
    modelled. *)
Fixpoint lookupFrom (offset start : Z) (tx : list (Z * Z)) (sec : Z)
  : Z * Z * Z :=
  match tx with
  | [] => (offset, start, omega)
  | (when, offset') :: rest =>
      if sec <? when then (offset, start, when)
      else lookupFrom offset' when rest sec
  end.

Definition lookup (l : Location) (sec : Z) : Z * Z * Z :=
  lookupFrom (firstOffset l) alpha (changes l) sec.

(** An instant shown in a location. *)
Record Time := mkTime { unixSec : Z; nsec : Z; loc : Location }.

(** The offset in force at [t]. *)
Definition offsetAt (t : Time) : Z := (lookup (loc t) (unixSec t)).1.1.

(** Seconds since the epoch on the wall clock of the location. *)
Definition localSec (t : Time) : Z := unixSec t + offsetAt t.
Definition localDay (t : Time) : Z := localSec t / secondsPerDay.
Definition secOfDay (t : Time) : Z := localSec t mod secondsPerDay.

Definition Year (t : Time) : Z := fst (fst (civil_from_days (localDay t))).
Definition Month (t : Time) : Z := snd (fst (civil_from_days (localDay t))).
Definition Day (t : Time) : Z := snd (civil_from_days (localDay t)).
Definition Hour (t : Time) : Z := secOfDay t / 3600.
Definition Minute (t : Time) : Z := (secOfDay t mod 3600) / 60.
Definition Second (t : Time) : Z := secOfDay t mod 60.
Definition Nanosecond (t : Time) : Z := nsec t.
Definition GetLocation (t : Time) : Location := loc t.

(** [t.Weekday()] *)
Definition Weekday_of (t : Time) : Weekday :=
  match (localDay t + 4) mod 7 with
  | 0 => Sunday
  | 1 => Monday
  | 2 => Tuesday
  | 3 => Wednesday
  | 4 => Thursday
  | 5 => Friday
  | _ => Saturday
  end.

(** [time.Date(year, month, day, hour, min, sec, nsec, loc)]: the
    wall clock is read as if in UTC, the offset in force there is
    looked up, and looked up again at the instant it leads to when
    that instant is outside the span of the first offset. *)
Definition Date (year month day hour min sec ns : Z) (l : Location) : Time :=
  let m0 := month - 1 in
  let year' := year + m0 / 12 in
  let month' := m0 mod 12 + 1 in
  let days := days_from_civil year' month' 1 + (day - 1) in
  let unix := days * secondsPerDay + hour * 3600 + min * 60 + sec
              + ns / 1000000000 in
  let '(offset, start, end_) := lookup l unix in
  let unix :=
    if negb (offset =? 0)
    then
      let utc := unix - offset in
      let offset :=
        if (utc <? start) || (end_ <=? utc) then (lookup l utc).1.1
        else offset in
      unix - offset
    else unix in
  mkTime unix (ns mod 1000000000) l.

(** [t.AddDate(years, months, days)] *)
Definition AddDate (t : Time) (years months days : Z) : Time :=
  Date (Year t + years) (Month t + months) (Day t + days)
       (Hour t) (Minute t) (Second t) (Nanosecond t) (GetLocation t).

(** The value of [since] that [GetCommitsForRepoByDay] hands to
    [GetCommitsFromAllBranches], [now] being what [time.Now()] gave
    in the zone of the machine. *)
Definition sinceByDay (now : Time) : Time :=
  let weekday := Weekday_of now in
  let since :=
    match weekday with
    | Monday => AddDate now 0 0 (-3)
    | Tuesday => AddDate now 0 0 (-1)
    | Wednesday => AddDate now 0 0 (-1)
    | Thursday => AddDate now 0 0 (-1)
    | Friday => AddDate now 0 0 (-1)
    | Saturday => AddDate now 0 0 (-1)
    | Sunday => AddDate now 0 0 (-1)
    end in
  Date (Year since) (Month since) (Day since) 0 0 0 0 (GetLocation since).

End GoZone.

(** A location of fixed offset, as a location without changes. *)
Definition fixed (l : GoTime.Location) : GoZone.Location :=
  GoZone.mkLocation (GoTime.locName l) (GoTime.locOffset l) [].

(** An instant shown in a location of fixed offset. *)
Definition zoned (t : GoTime.Time) : GoZone.Time :=
  GoZone.mkTime (GoTime.unixSec t) (GoTime.nsec t) (fixed (GoTime.loc t)).

(** [t] shows 00:00:00 of the local day [day]. *)
Definition localMidnight (t : GoZone.Time) (day : Z) : Prop :=
  GoZone.localDay t = day /\ GoZone.secOfDay t = 0 /\ GoZone.nsec t = 0.

(** Africa/Cairo in 2024: two hours east of UTC, three from Friday
    26 April 00:00 (2024-04-25 22:00 UTC) to Thursday 31 October 24:00
    (2024-10-31 21:00 UTC). *)
Definition cairo : GoZone.Location :=
  GoZone.mkLocation "Africa/Cairo" 7200
    [(1714082400, 10800); (1730408400, 7200)].

(** Saturday 27 April 2024, 12:00 in Cairo. *)
Definition saturdayCairo : GoZone.Time := GoZone.mkTime 1714208400 0 cairo.

(** The identifier of a decoded commit, cut to its first 8 characters. *)
Definition cutSHA (c : Main.CommitResponse.t) : string :=
  substring 0 8 (Main.CommitResponse.SHA c).

(** The commits decoded along the requests that [GetLatestCommits]
    sends from [w] on, repository by repository; a failed exchange
    gives none. *)
Fixpoint decodedAlong {W} `{Main.Remote W} (gh : Main.GitHub.t)
    (since : GoTime.Time) (repoNames : list string) (w : W)
  : list Main.CommitResponse.t :=
  match repoNames with
  | [] => []
  | repoName :: rest =>
      let q :=
        Main.mkCommitsQuery (Main.username (Main.GitHub.user gh))
          (Main.SplitHead repoName " (") since
          (Main.apiKey (Main.GitHub.user gh)) in
      match Main.fetchCommits q w with
      | (Decoded commits, w1) => commits ++ decodedAlong gh since rest w1
      | (_, w1) => decodedAlong gh since rest w1
      end
  end.

(** The changes of a zone come in ascending order, after [start]. *)
Fixpoint ascending (start : Z) (tx : list (Z * Z)) : bool :=
  match tx with
  | [] => true
  | (when, _) :: rest => (start <? when) && ascending when rest
  end.

(** An instant of package time in a location of the zone database. *)
Definition zoneTime (t : GoZone.Time) : Prop :=
  ascending GoZone.alpha (GoZone.changes (GoZone.loc t)) = true
  /\ GoZone.unixSec t < GoZone.omega
  /\ 0 <= GoZone.nsec t < 1000000000.

(** The offset in force at [t] is of a day at most and has been in
    force since before 00:00 of the local day [day], on the wall clock
    and in UTC. *)
Definition steadySince (t : GoZone.Time) (day : Z) : Prop :=
  let '(offset, start, _) := GoZone.lookup (GoZone.loc t) (GoZone.unixSec t) in
  offset <= GoTime.secondsPerDay
  /\ start <= day * GoTime.secondsPerDay - offset
  /\ start <= day * GoTime.secondsPerDay.

(** Monday 6 May 2024, 12:00 in Cairo. *)
Definition mondayCairo : GoZone.Time := GoZone.mkTime 1714986000 0 cairo.

(* ===================================================================== *)
(** ** Package strconv and the environment (what config.go relies on)    *)
(* ===================================================================== *)

Module Strconv.

Definition maxInt : Z := 9223372036854775807.
Definition minInt : Z := -9223372036854775808.

Definition isDigit (c : ascii) : bool :=
  (48 <=? nat_of_ascii c)%nat && (nat_of_ascii c <=? 57)%nat.

(** The value of a run of decimal digits, [n] being the value so far. *)
Fixpoint digitsValue (s : string) (n : Z) : option Z :=
  match s with
  | EmptyString => Some n
  | String c rest =>
      if isDigit c
      then digitsValue rest (n * 10 + (Z.of_nat (nat_of_ascii c) - 48))
      else None
  end.

(** [strconv.Atoi] on 64-bit [int]: an optional sign, then one or more
    decimal digits, the value within range; [None] is its error. *)
Definition Atoi (s : string) : option Z :=
  match s with
  | EmptyString => None
  | String c rest =>
      let neg := Ascii.eqb c "-"%char in
      let ds := if neg || Ascii.eqb c "+"%char then rest else s in
      match ds with
      | EmptyString => None
      | _ =>
          match digitsValue ds 0 with
          | None => None
          | Some n =>
              let v := if neg then - n else n in
              if (minInt <=? v) && (v <=? maxInt) then Some v else None
          end
      end
  end.

End Strconv.

(** [os.Getenv]: the value of a variable, empty when it is not set. *)
Abbreviation Env := (string -> string).

(** What a function that may call [log.Fatal] ends in. *)
Inductive Exit (A : Type) : Type :=
| Fatal (msg : string)
| Returned (a : A).

Arguments Fatal {A} msg.
Arguments Returned {A} a.

(* ===================================================================== *)
(** ** Package main: config.go                                           *)
(* ===================================================================== *)

Module Config.

Record t := mk {
  GitHubToken : string; GeminiKey : string; Username : string;
  DaysBack : Z; PerPage : Z }.

Definition withDaysBack (c : t) (days : Z) : t :=
  mk (GitHubToken c) (GeminiKey c) (Username c) days (PerPage c).

Definition withPerPage (c : t) (perPage : Z) : t :=
  mk (GitHubToken c) (GeminiKey c) (Username c) (DaysBack c) perPage.

Definition LoadConfig (env : Env) : t :=
  let config :=
    mk (env "GITHUB_ACCESS_TOKEN") (env "GEMINI_API_KEY")
       (env "GITHUB_USERNAME") 7 10 in
  let config :=
    let daysStr := env "DAYS_BACK" in
    if negb (String.eqb daysStr "") then
      match Strconv.Atoi daysStr with
      | Some days => if 0 <? days then withDaysBack config days else config
      | None => config
      end
    else config in
  let config :=
    let perPageStr := env "PER_PAGE" in
    if negb (String.eqb perPageStr "") then
      match Strconv.Atoi perPageStr with
      | Some perPage =>
          if 0 <? perPage then withPerPage config perPage else config
      | None => config
      end
    else config in
  config.

Definition Validate (c : t) : error :=
  if String.eqb (GitHubToken c) "" then
    Some "GITHUB_ACCESS_TOKEN environment variable is required"
  else if String.eqb (GeminiKey c) "" then
    Some "GEMINI_API_KEY environment variable is required"
  else if String.eqb (Username c) "" then
    Some "GITHUB_USERNAME environment variable is required"
  else None.

End Config.

(* ===================================================================== *)
(** ** Package main: building the client (github.go, llm.go)             *)
(* ===================================================================== *)

Module MainSetup.
Import GoTime Main.

Record GitHubOptions := mkGitHubOptions { APIKey : string; Username : string }.

(** GET /users/{username}/repos *)
Record ReposQuery := mkReposQuery { rqUsername : string; rqToken : string }.

Class ReposRemote (W : Type) := {
  fetchRepos : ReposQuery -> W -> Wire (list Repo.t) * W
}.

Definition NewLLMService (apiKey : string) : LLMService.t :=
  LLMService.mk apiKey.

Section Methods.
Context {W : Type} `{ReposRemote W}.

(** Every failure is a [log.Fatal]; on success the decoded
    repositories are appended to [gh.repos]. *)
Definition LoadReposFromUser (gh : GitHub.t) : IO W (Exit GitHub.t) :=
  let q := mkReposQuery (Main.username (GitHub.user gh))
             (Main.apiKey (GitHub.user gh)) in
  let* r := perform (fetchRepos q) in
  match r with
  | NewRequestFailed _ => ret (Fatal "failed to create request")
  | DoFailed _ => ret (Fatal "failed to do request")
  | ReadFailed _ => ret (Fatal "failed to read data")
  | UnmarshalFailed _ => ret (Fatal "failed to unmarshal data")
  | Decoded Repos =>
      ret (Returned (GitHub.mk (GitHub.user gh) (GitHub.repos gh ++ Repos)))
  end.

Definition NewGithub (opts : GitHubOptions) : IO W (Exit GitHub.t) :=
  if String.eqb (APIKey opts) "" then
    ret (Fatal "authorization token should not be empty")
  else if String.eqb (Username opts) "" then
    ret (Fatal "user should not be empty")
  else
    let gh := GitHub.mk (Main.mkUser (Username opts) (APIKey opts)) [] in
    LoadReposFromUser gh.

End Methods.
End MainSetup.

(* ===================================================================== *)
(** ** Package main: the day menu (main.go)                              *)
(* ===================================================================== *)

Module MainMenu.
Import GoTime.

Module DayOption.
Record t := mk { label : string; date : Time; daysBack : Z }.
End DayOption.

Definition getDaySuffix (day : Z) : string :=
  match day with
  | 1 | 21 | 31 => "st"
  | 2 | 22 => "nd"
  | 3 | 23 => "rd"
  | _ => "th"
  end.

(** [t.Format("January")] *)
Definition FormatMonthName (t : Time) : string :=
  match Month t with
  | 1 => "January"
  | 2 => "February"
  | 3 => "March"
  | 4 => "April"
  | 5 => "May"
  | 6 => "June"
  | 7 => "July"
  | 8 => "August"
  | 9 => "September"
  | 10 => "October"
  | 11 => "November"
  | _ => "December"
  end.

(** The body of the loop of [getLast7Days] at index [i]. *)
Definition optionAt (today : Time) (i : Z) : DayOption.t :=
  let date := AddDate today 0 0 (- i) in
  let daysBack := i in
  let daysBack := if i =? 0 then 1 else i + 1 in
  let daySuffix := getDaySuffix (Day date) in
  let label :=
    FormatMonthName date +:+ ", " +:+ appendInt (Day date) 0 +:+ daySuffix in
  DayOption.mk label date daysBack.

(** [today] is what [time.Now()] gave. *)
Definition getLast7Days (today : Time) : list DayOption.t :=
  fold_left (fun options i => options ++ [optionAt today i])
    [0; 1; 2; 3; 4; 5; 6] [].

End MainMenu.

(* ===================================================================== *)
(** ** Package github: loading the repositories of the user              *)
(* ===================================================================== *)

Module GithubLoad.
Import GoTime Github.

(** GET /user/repos?page=&per_page= *)
Record ReposQuery := mkReposQuery {
  rqPage : Z; rqPerPage : Z; rqToken : string }.

Class ReposRemote (W : Type) := {
  fetchUserRepos : ReposQuery -> W -> Wire (list Repo.t) * W
}.

(** "Filter repos to only include those owned by the user". *)
Fixpoint keepOwned (username : string) (repos allRepos : list Repo.t)
  : list Repo.t :=
  match repos with
  | [] => allRepos
  | repo :: rest =>
      let owner := Main.SplitHead (Repo.FullName repo) "/" in
      if String.eqb owner username
      then keepOwned username rest (allRepos ++ [repo])
      else keepOwned username rest allRepos
  end.

Section Methods.
Context {W : Type} `{ReposRemote W}.

(** The [for] loop of [LoadReposFromUser]. *)
Fixpoint repoPages (fuel : nat) (gh : GitHub.t) (page : Z)
    (allRepos : list Repo.t) : IO W (Exit (list Repo.t)) :=
  match fuel with
  | O => diverge
  | S fuel' =>
      let q := mkReposQuery page perPage (apiKey (GitHub.user gh)) in
      let* r := perform (fetchUserRepos q) in
      match r with
      | NewRequestFailed _ => ret (Fatal "failed to create request")
      | DoFailed _ => ret (Fatal "failed to do request")
      | ReadFailed _ => ret (Fatal "failed to read data")
      | UnmarshalFailed _ => ret (Fatal "failed to unmarshal data")
      | Decoded repos =>
          if Z.of_nat (length repos) =? 0 then ret (Returned allRepos)
          else
            let allRepos' :=
              keepOwned (username (GitHub.user gh)) repos allRepos in
            if Z.of_nat (length repos) <? perPage
            then ret (Returned allRepos')
            else repoPages fuel' gh (page + 1) allRepos'
      end
  end.

(** [gh.repos = allRepos] once the loop is left. *)
Definition LoadReposFromUser (fuel : nat) (gh : GitHub.t)
  : IO W (Exit GitHub.t) :=
  let* r := repoPages fuel gh 1 [] in
  match r with
  | Fatal msg => ret (Fatal msg)
  | Returned allRepos => ret (Returned (GitHub.mk (GitHub.user gh) allRepos))
  end.

Definition GetRepos (gh : GitHub.t) : list Repo.t := GitHub.repos gh.

End Methods.
End GithubLoad.
(* ===================================================================== *)
(** ** Package main: the terminal program (main.go)                      *)
(* ===================================================================== *)

Module MainTUI.
Import GoTime Main MainMenu.

(** Go's [int] on a 64-bit platform: arithmetic wraps around. *)
Definition wrapInt (z : Z) : Z := (z + 2 ^ 63) mod 2 ^ 64 - 2 ^ 63.
Definition addInt (a b : Z) : Z := wrapInt (a + b).
Definition subInt (a b : Z) : Z := wrapInt (a - b).
Definition mulInt (a b : Z) : Z := wrapInt (a * b).

(** [len(s)] *)
Definition len {A} (s : list A) : Z := Z.of_nat (length s).

Inductive Action :=
| ACTION__SELECT_DAYS
| ACTION__SHOW_ALL_REPOS
| ACTION__SHOW_SELECTED_REPOS
| ACTION__LOADING_COMMITS
| ACTION__SHOW_COMMITS
| ACTION__GENERATING_SUMMARY
| ACTION__SHOW_SUMMARY.

(** [a == b] on actions. *)
Definition Action_eqb (a b : Action) : bool :=
  match a, b with
  | ACTION__SELECT_DAYS, ACTION__SELECT_DAYS
  | ACTION__SHOW_ALL_REPOS, ACTION__SHOW_ALL_REPOS
  | ACTION__SHOW_SELECTED_REPOS, ACTION__SHOW_SELECTED_REPOS
  | ACTION__LOADING_COMMITS, ACTION__LOADING_COMMITS
  | ACTION__SHOW_COMMITS, ACTION__SHOW_COMMITS
  | ACTION__GENERATING_SUMMARY, ACTION__GENERATING_SUMMARY
  | ACTION__SHOW_SUMMARY, ACTION__SHOW_SUMMARY => true
  | _, _ => false
  end.

(** The fields of [paginator.Model] and [spinner.Model] the program
    reads. *)
Module Paginator.
Record t := mk { Page : Z; PerPage : Z; TotalPages : Z }.
Definition withPerPage (p : t) (perPage : Z) : t :=
  mk (Page p) perPage (TotalPages p).
End Paginator.

Module Spinner.
Record t := mk { frame : Z }.
End Spinner.

(** The messages [Update] tells apart; [KeyMsg] carries [msg.String()]. *)
Inductive Msg :=
| KeyMsg (key : string)
| repoSelectionMsg (repos : list string) (err : error)
| commitsLoadedMsg (commits : list Commit.t) (err : error)
| summaryGeneratedMsg (summary : string) (err : error)
| TickMsg
| otherMsg.

(** The commands [Update] returns: [nil], [tea.Quit], the closures of
    [LoadCommits] and [GenerateSummary], and that of the spinner. *)
Inductive Cmd :=
| nilCmd
| Quit
| LoadCommits (gh : GitHub.t) (repos : list string) (daysBack : Z)
| GenerateSummary (llm : LLMService.t) (commits : list Commit.t)
| spinnerTick.

Record model := mkModel {
  choices : list string;
  cursor : Z;
  selected : gset Z;
  paginator : Paginator.t;
  repoSelected : list string;
  action : Action;
  spinner : Spinner.t;
  commits : list Commit.t;
  summary : string;
  gh : GitHub.t;
  llm : LLMService.t;
  daysBack : Z;
  dayOptions : list DayOption.t;
  selectedDay : Z }.

Definition withChoices (m : model) (v : list string) : model :=
  mkModel v (cursor m) (selected m) (paginator m) (repoSelected m)
    (action m) (spinner m) (commits m) (summary m) (gh m) (llm m)
    (daysBack m) (dayOptions m) (selectedDay m).
Definition withCursor (m : model) (v : Z) : model :=
  mkModel (choices m) v (selected m) (paginator m) (repoSelected m)
    (action m) (spinner m) (commits m) (summary m) (gh m) (llm m)
    (daysBack m) (dayOptions m) (selectedDay m).
Definition withSelected (m : model) (v : gset Z) : model :=
  mkModel (choices m) (cursor m) v (paginator m) (repoSelected m)
    (action m) (spinner m) (commits m) (summary m) (gh m) (llm m)
    (daysBack m) (dayOptions m) (selectedDay m).
Definition withPaginator (m : model) (v : Paginator.t) : model :=
  mkModel (choices m) (cursor m) (selected m) v (repoSelected m)
    (action m) (spinner m) (commits m) (summary m) (gh m) (llm m)
    (daysBack m) (dayOptions m) (selectedDay m).
Definition withRepoSelected (m : model) (v : list string) : model :=
  mkModel (choices m) (cursor m) (selected m) (paginator m) v
    (action m) (spinner m) (commits m) (summary m) (gh m) (llm m)
    (daysBack m) (dayOptions m) (selectedDay m).
Definition withAction (m : model) (v : Action) : model :=
  mkModel (choices m) (cursor m) (selected m) (paginator m) (repoSelected m)
    v (spinner m) (commits m) (summary m) (gh m) (llm m)
    (daysBack m) (dayOptions m) (selectedDay m).
Definition withSpinner (m : model) (v : Spinner.t) : model :=
  mkModel (choices m) (cursor m) (selected m) (paginator m) (repoSelected m)
    (action m) v (commits m) (summary m) (gh m) (llm m)
    (daysBack m) (dayOptions m) (selectedDay m).
Definition withCommits (m : model) (v : list Commit.t) : model :=
  mkModel (choices m) (cursor m) (selected m) (paginator m) (repoSelected m)
    (action m) (spinner m) v (summary m) (gh m) (llm m)
    (daysBack m) (dayOptions m) (selectedDay m).
Definition withSummary (m : model) (v : string) : model :=
  mkModel (choices m) (cursor m) (selected m) (paginator m) (repoSelected m)
    (action m) (spinner m) (commits m) v (gh m) (llm m)
    (daysBack m) (dayOptions m) (selectedDay m).
Definition withDaysBack (m : model) (v : Z) : model :=
  mkModel (choices m) (cursor m) (selected m) (paginator m) (repoSelected m)
    (action m) (spinner m) (commits m) (summary m) (gh m) (llm m)
    v (dayOptions m) (selectedDay m).
Definition withSelectedDay (m : model) (v : Z) : model :=
  mkModel (choices m) (cursor m) (selected m) (paginator m) (repoSelected m)
    (action m) (spinner m) (commits m) (summary m) (gh m) (llm m)
    (daysBack m) (dayOptions m) v.

(** What the program calls of the bubbles library; the flag of
    [spinnerUpdate] tells whether the command it returns is not [nil];
    the end that [GetSliceBounds] gives is at most the length it is
    given. *)
Class Bubbles := {
  paginatorNew : Paginator.t;
  PrevPage : Paginator.t -> Paginator.t;
  NextPage : Paginator.t -> Paginator.t;
  SetTotalPages : Paginator.t -> Z -> Paginator.t;
  GetSliceBounds : Paginator.t -> Z -> Z * Z;
  GetSliceBounds_end : forall p length, snd (GetSliceBounds p length) <= length;
  paginatorView : Paginator.t -> string;
  spinnerNew : Spinner.t;
  spinnerUpdate : Spinner.t -> Spinner.t * bool;
  spinnerView : Spinner.t -> string
}.

(** The order in which a [range] visits a map with [int] keys. *)
Class RangeInts (W : Type) := {
  rangeInts : list Z -> W -> list Z * W;
  rangeInts_perm : forall keys w, Permutation (fst (rangeInts keys w)) keys
}.

(** [s[i]]: [None] is the run-time panic of an index out of range. *)
Definition index {A} (s : list A) (i : Z) : option A :=
  if i <? 0 then None else s !! Z.to_nat i.

(** [s[low:high]] for [high] up to [len(s)]: [None] is the run-time
    panic of slice bounds out of range. *)
Definition sliceRange {A} (s : list A) (low high : Z) : option (list A) :=
  if (0 <=? low) && (low <=? high) && (high <=? len s)
  then Some (take (Z.to_nat (high - low)) (drop (Z.to_nat low) s))
  else None.

Section Methods.
Context {W : Type} `{Bubbles} `{RangeInts W} `{Main.Remote W}
  `{GoRuntime W}.

(** [for s := range m.selected { selected = append(selected,
    m.choices[s]) }], the keys visited in [order]. *)
Fixpoint pickLoop (order : list Z) (choices selected : list string)
  : IO W (list string) :=
  match order with
  | [] => ret selected
  | s :: rest =>
      match index choices s with
      | None => panic "runtime error: index out of range"
      | Some choice => pickLoop rest choices (selected ++ [choice])
      end
  end.

(** The case [tea.KeyMsg] of [Update]; [now] is what [time.Now()]
    gives inside [GetRecentlyUpdatedReposChoices]. *)
Definition updateKey (now : Time) (m : model) (key : string)
  : IO W (model * Cmd) :=
  if String.eqb key "ctrl+c" || String.eqb key "q" then ret (m, Quit)
  else if String.eqb key "b" then
    if Action_eqb (action m) ACTION__SHOW_ALL_REPOS
    then
      let m := withAction m ACTION__SELECT_DAYS in
      let m := withCursor m 0 in
      let m := withSelected m ∅ in
      ret (m, nilCmd)
    else ret (m, nilCmd)
  else if String.eqb key "up" || String.eqb key "k" then
    if Action_eqb (action m) ACTION__SELECT_DAYS
    then
      if 0 <? selectedDay m
      then ret (withSelectedDay m (subInt (selectedDay m) 1), nilCmd)
      else ret (m, nilCmd)
    else
      if 0 <? cursor m
      then ret (withCursor m (subInt (cursor m) 1), nilCmd)
      else if 0 <? Paginator.Page (paginator m)
      then
        let m := withPaginator m (PrevPage (paginator m)) in
        let m :=
          withCursor m (subInt (Paginator.PerPage (paginator m)) 1) in
        ret (m, nilCmd)
      else ret (m, nilCmd)
  else if String.eqb key "down" || String.eqb key "j" then
    if Action_eqb (action m) ACTION__SELECT_DAYS
    then
      if selectedDay m <? subInt (len (dayOptions m)) 1
      then ret (withSelectedDay m (addInt (selectedDay m) 1), nilCmd)
      else ret (m, nilCmd)
    else
      if (cursor m <? subInt (Paginator.PerPage (paginator m)) 1)
         && (addInt (cursor m)
               (mulInt (Paginator.Page (paginator m))
                  (Paginator.PerPage (paginator m)))
             <? subInt (len (choices m)) 1)
      then ret (withCursor m (addInt (cursor m) 1), nilCmd)
      else if Paginator.Page (paginator m)
              <? subInt (Paginator.TotalPages (paginator m)) 1
      then
        let m := withPaginator m (NextPage (paginator m)) in
        let m := withCursor m 0 in
        ret (m, nilCmd)
      else ret (m, nilCmd)
  else if String.eqb key "left" || String.eqb key "h" then
    if negb (Action_eqb (action m) ACTION__SELECT_DAYS)
       && (0 <? Paginator.Page (paginator m))
    then ret (withPaginator m (PrevPage (paginator m)), nilCmd)
    else ret (m, nilCmd)
  else if String.eqb key "right" || String.eqb key "l" then
    if negb (Action_eqb (action m) ACTION__SELECT_DAYS)
       && (Paginator.Page (paginator m)
           <? subInt (Paginator.TotalPages (paginator m)) 1)
    then ret (withPaginator m (NextPage (paginator m)), nilCmd)
    else ret (m, nilCmd)
  else if String.eqb key " " then
    if Action_eqb (action m) ACTION__SELECT_DAYS
    then ret (withSelectedDay m (selectedDay m), nilCmd)
    else
      let offset :=
        mulInt (Paginator.Page (paginator m))
          (Paginator.PerPage (paginator m)) in
      let ok := bool_decide (addInt offset (cursor m) ∈ selected m) in
      if ok
      then ret (withSelected m
                  (selected m ∖ {[addInt offset (cursor m)]}), nilCmd)
      else ret (withSelected m
                  ({[addInt offset (cursor m)]} ∪ selected m), nilCmd)
  else if String.eqb key "enter" then
    match action m with
    | ACTION__SELECT_DAYS =>
        match index (dayOptions m) (selectedDay m) with
        | None => panic "runtime error: index out of range"
        | Some selectedOption =>
            let m := withDaysBack m (DayOption.daysBack selectedOption) in
            let m :=
              withChoices m
                (GetRecentlyUpdatedReposChoices now (gh m) (daysBack m)) in
            if len (choices m) =? 0
            then ret (withAction m ACTION__SHOW_ALL_REPOS, nilCmd)
            else
              let m :=
                withPaginator m
                  (SetTotalPages (paginator m) (len (choices m))) in
              let m := withCursor m 0 in
              let m := withSelected m ∅ in
              let m := withAction m ACTION__SHOW_ALL_REPOS in
              ret (m, nilCmd)
        end
    | ACTION__SHOW_ALL_REPOS =>
        if len (choices m) =? 0
        then ret (withAction m ACTION__SELECT_DAYS, nilCmd)
        else
          let* order := perform (rangeInts (elements (selected m))) in
          let* selected := pickLoop order (choices m) [] in
          if 0 <? len selected
          then
            let m := withRepoSelected m selected in
            let m := withAction m ACTION__LOADING_COMMITS in
            ret (m, LoadCommits (gh m) selected (daysBack m))
          else ret (m, nilCmd)
    | ACTION__SHOW_SELECTED_REPOS =>
        let m := withAction m ACTION__LOADING_COMMITS in
        ret (m, LoadCommits (gh m) (repoSelected m) (daysBack m))
    | ACTION__SHOW_COMMITS =>
        let m := withAction m ACTION__GENERATING_SUMMARY in
        ret (m, GenerateSummary (llm m) (commits m))
    | ACTION__SHOW_SUMMARY => ret (m, Quit)
    | _ => ret (m, nilCmd)
    end
  else ret (m, nilCmd).

Definition Update (now : Time) (m : model) (msg : Msg)
  : IO W (model * Cmd) :=
  match msg with
  | KeyMsg key => updateKey now m key
  | repoSelectionMsg repos _ =>
      let m := withAction m ACTION__SHOW_SELECTED_REPOS in
      let m := withRepoSelected m repos in
      ret (m, nilCmd)
  | commitsLoadedMsg commits err =>
      match err with
      | Some _ => ret (withAction m ACTION__SHOW_SELECTED_REPOS, nilCmd)
      | None =>
          let m := withCommits m commits in
          let m := withAction m ACTION__SHOW_COMMITS in
          ret (m, nilCmd)
      end
  | summaryGeneratedMsg summary err =>
      match err with
      | Some _ => ret (withAction m ACTION__SHOW_COMMITS, nilCmd)
      | None =>
          let m := withSummary m summary in
          let m := withAction m ACTION__SHOW_SUMMARY in
          ret (m, nilCmd)
      end
  | TickMsg =>
      let (spinner, cmd) := spinnerUpdate (spinner m) in
      ret (withSpinner m spinner, if cmd then spinnerTick else nilCmd)
  | otherMsg => ret (m, nilCmd)
  end.

(** The loop over [m.dayOptions] in [View], at index [i]. *)
Fixpoint dayLines (m : model) (i : Z) (options : list DayOption.t)
    (viewText : string) : string :=
  match options with
  | [] => viewText
  | option :: rest =>
      let cursor := if selectedDay m =? i then ">" else " " in
      dayLines m (i + 1) rest
        (viewText +:+ cursor +:+ " " +:+ DayOption.label option +:+ LF)
  end.

(** The loop over [pageChoices] in [View], at index [i]. *)
Fixpoint choiceLines (m : model) (i : Z) (pageChoices : list string)
    (viewText : string) : string :=
  match pageChoices with
  | [] => viewText
  | choice :: rest =>
      let cursor := if cursor m =? i then ">" else " " in
      let offset :=
        mulInt (Paginator.Page (paginator m))
          (Paginator.PerPage (paginator m)) in
      let checked :=
        if bool_decide (addInt offset i ∈ selected m) then "x" else " " in
      choiceLines m (i + 1) rest
        (viewText +:+ cursor +:+ " [" +:+ checked +:+ "] " +:+ choice
         +:+ LF)
  end.

(** The loop over [m.repoSelected] in [View]. *)
Definition selectedLines (repos : list string) (viewText : string)
  : string :=
  fold_left (fun viewText repo => viewText +:+ "• " +:+ repo +:+ LF)
    repos viewText.

(** The loop over the commits of one repository in [View], at index
    [i]: five are shown, the others are counted. *)
Fixpoint commitLines (total : Z) (i : Z) (commits : list Commit.t)
    (viewText : string) : string :=
  match commits with
  | [] => viewText
  | commit :: rest =>
      if 5 <=? i
      then viewText +:+ "   ... and " +:+ appendInt (subInt total 5) 0
           +:+ " more commits" +:+ LF
      else commitLines total (i + 1) rest
             (viewText +:+ "   • " +:+ Commit.SHA commit +:+ ": "
              +:+ Commit.Message commit +:+ LF)
  end.

(** The loop over the map [repoCommits] in [View], ranged over in
    [order]. *)
Definition repoLines (order : list string)
    (repoCommits : gmap string (list Commit.t)) (viewText : string)
  : string :=
  fold_left
    (fun viewText repoName =>
       let commits := default [] (repoCommits !! repoName) in
       let viewText :=
         viewText +:+ "📁 " +:+ repoName +:+ " ("
         +:+ appendInt (len commits) 0 +:+ " commits):" +:+ LF in
       commitLines (len commits) 0 commits viewText +:+ LF)
    order viewText.

Definition View (m : model) : IO W string :=
  match action m with
  | ACTION__SELECT_DAYS =>
      let viewText :=
        "Select a time period to view repositories:" +:+ LF +:+ LF in
      let viewText := dayLines m 0 (dayOptions m) viewText in
      ret (viewText +:+ LF +:+ "Press enter to continue or q to quit."
           +:+ LF)
  | ACTION__SHOW_ALL_REPOS =>
      if len (choices m) =? 0
      then ret ("No repositories found for the selected time period."
                +:+ LF
                +:+ "Press q to quit or any other key to go back to day selection."
                +:+ LF)
      else
        let viewText :=
          "Repositories updated in the last "
          +:+ appendInt (daysBack m) 0 +:+ " days:" +:+ LF +:+ LF in
        let (start, end_) :=
          GetSliceBounds (paginator m) (len (choices m)) in
        match sliceRange (choices m) start end_ with
        | None => panic "runtime error: slice bounds out of range"
        | Some pageChoices =>
            let viewText := choiceLines m 0 pageChoices viewText in
            let viewText := viewText +:+ paginatorView (paginator m) in
            let viewText :=
              viewText +:+ LF +:+ "Showing "
              +:+ appendInt (len (choices m)) 0
              +:+ " repositories updated in the last "
              +:+ appendInt (daysBack m) 0 +:+ " days" +:+ LF in
            ret (viewText
                 +:+ "Press space to select, enter to continue, b to go back, q to quit."
                 +:+ LF)
        end
  | ACTION__SHOW_SELECTED_REPOS =>
      let viewText := "Selected repositories:" +:+ LF +:+ LF in
      let viewText := selectedLines (repoSelected m) viewText in
      let viewText :=
        viewText +:+ LF +:+ "Analyzing commits from the last "
        +:+ appendInt (daysBack m) 0 +:+ " days..." +:+ LF in
      ret (viewText +:+ "Press enter to continue or q to quit." +:+ LF)
  | ACTION__LOADING_COMMITS =>
      ret (spinnerView (spinner m)
           +:+ " Loading commits from selected repositories..." +:+ LF
           +:+ "This may take a moment..." +:+ LF)
  | ACTION__SHOW_COMMITS =>
      let viewText := "Recent commits found:" +:+ LF +:+ LF in
      let* viewText :=
        if len (commits m) =? 0
        then ret (viewText
                  +:+ "No commits found in the specified time period."
                  +:+ LF)
        else
          let repoCommits := groupByRepo (commits m) in
          let* order := perform (rangeOrder (keys repoCommits)) in
          ret (repoLines order repoCommits viewText) in
      ret (viewText +:+ "Press enter to generate summary or q to quit."
           +:+ LF)
  | ACTION__GENERATING_SUMMARY =>
      ret (spinnerView (spinner m) +:+ " Generating AI summary..." +:+ LF
           +:+ "This may take a moment..." +:+ LF)
  | ACTION__SHOW_SUMMARY =>
      ret ("🤖 AI Generated Summary:" +:+ LF +:+ LF +:+ summary m
           +:+ LF +:+ LF +:+ "Press enter to exit." +:+ LF)
  end.

(** What the closure of a command does when the runtime runs it;
    [now] is what [time.Now()] gives inside [GetLatestCommits]. *)
Definition runCmd (now : Time) (cmd : Cmd) : IO W (option Msg) :=
  match cmd with
  | LoadCommits gh repos daysBack =>
      let* (commits, err) := GetLatestCommits now gh repos daysBack in
      ret (Some (commitsLoadedMsg commits err))
  | GenerateSummary llm commits =>
      let* (summary, err) := Main.GenerateSummary llm commits in
      ret (Some (summaryGeneratedMsg summary err))
  | spinnerTick => ret (Some TickMsg)
  | Quit => ret None
  | nilCmd => ret None
  end.

(** The model [main] hands to [tea.NewProgram]; [today] is what
    [time.Now()] gives inside [getLast7Days]. *)
Definition initialModel (config : Config.t) (gh : GitHub.t)
    (llm : LLMService.t) (today : Time) : model :=
  let p := Paginator.withPerPage paginatorNew (Config.PerPage config) in
  mkModel [] 0 ∅ p [] ACTION__SELECT_DAYS spinnerNew [] "" gh llm
    (Config.DaysBack config) (getLast7Days today) 0.

End Methods.
End MainTUI.
(* ===================================================================== *)
(** ** The go-github client at the terminal                              *)
(* ===================================================================== *)

Module GithubCLI.
Import GoTime GithubClient.

(** [t.Format("2006-01-02 15:04:05")] *)
Definition FormatDateSecond (t : Time) : string :=
  FormatDateMinute t +:+ ":" +:+ appendInt (Second t) 2.

(** Standard output and standard input; [ScanInt] is
    [fmt.Scanf("%d", &selection)] on [var selection int], which leaves
    0 when no number is read. *)
Class Terminal (W : Type) := {
  Print : string -> W -> unit * W;
  ScanInt : W -> Z * W
}.

Section Methods.
Context {W : Type} `{Remote W} `{GoRuntime W} `{Terminal W}.

(** The loop over [commit.Files]. *)
Fixpoint fileLoop (files : list string) : IO W unit :=
  match files with
  | [] => ret tt
  | file :: rest =>
      let* _ := perform (Print ("    - " +:+ file +:+ LF)) in
      fileLoop rest
  end.

(** The loop of [DisplayCommits], at index [i]. *)
Fixpoint commitBlocks (i : Z) (commits : list CommitInfo.t) : IO W unit :=
  match commits with
  | [] => ret tt
  | commit :: rest =>
      let* _ := perform (Print
        ("Commit " +:+ appendInt (i + 1) 0 +:+ ":" +:+ LF)) in
      match slicePrefix (CommitInfo.SHA commit) 8 with
      | None => panic "slice bounds out of range"
      | Some short =>
          let* _ := perform (Print ("  SHA: " +:+ short +:+ LF)) in
          let* _ := perform (Print
            ("  Message: " +:+ CommitInfo.Message commit +:+ LF)) in
          let* _ := perform (Print
            ("  Author: " +:+ CommitInfo.Author commit +:+ LF)) in
          let* _ := perform (Print
            ("  Date: " +:+ FormatDateSecond (CommitInfo.Date commit)
             +:+ LF)) in
          let* _ := perform (Print
            ("  Changes: +" +:+ appendInt (CommitInfo.Additions commit) 0
             +:+ " -" +:+ appendInt (CommitInfo.Deletions commit) 0
             +:+ " lines" +:+ LF)) in
          let* _ :=
            if (0 <? length (CommitInfo.Files commit))%nat
            then
              let* _ := perform (Print ("  Files changed:" +:+ LF)) in
              fileLoop (CommitInfo.Files commit)
            else ret tt in
          let* _ := perform (Print LF) in
          commitBlocks (i + 1) rest
      end
  end.

Definition DisplayCommits (commits : list CommitInfo.t)
    (repoName : string) : IO W unit :=
  if (length commits =? 0)%nat
  then perform (Print
         ("No commits found for " +:+ repoName +:+ " in the last 7 days."
          +:+ LF))
  else
    let* _ := perform (Print
      ("=== Commits for " +:+ repoName +:+ " (Last 7 days) ===" +:+ LF
       +:+ LF)) in
    commitBlocks 0 commits.

(** The loop "Display repositories for selection", at index [i]. *)
Fixpoint repoBlocks (i : Z) (repos : list RepositoryInfo.t) : IO W unit :=
  match repos with
  | [] => ret tt
  | repo :: rest =>
      let* _ := perform (Print
        (appendInt (i + 1) 0 +:+ ". " +:+ RepositoryInfo.FullName repo
         +:+ LF)) in
      let* _ :=
        if negb (String.eqb (RepositoryInfo.Description repo) "")
        then perform (Print
               ("   Description: " +:+ RepositoryInfo.Description repo
                +:+ LF))
        else ret tt in
      let* _ := perform (Print
        ("   Language: " +:+ RepositoryInfo.Language repo +:+ LF)) in
      let* _ := perform (Print
        ("   Last Push: "
         +:+ FormatDateSecond (RepositoryInfo.LastPush repo) +:+ LF)) in
      let* _ := perform (Print
        ("   URL: " +:+ RepositoryInfo.URL repo +:+ LF)) in
      let* _ := perform (Print LF) in
      repoBlocks (i + 1) rest
  end.

Definition InteractiveRepositorySelector (fuel : nat) (username : string)
    (since : Time) : IO W error :=
  let* (repos, err) :=
    GetRepositoriesWithRecentCommits fuel username since in
  match err with
  | Some e => ret (Some ("error fetching repositories: " +:+ e))
  | None =>
      if (length repos =? 0)%nat
      then
        let* _ := perform (Print
          ("No repositories found with commits in the last 7 days."
           +:+ LF)) in
        ret None
      else
        let* _ := perform (Print
          ("Found " +:+ appendInt (Z.of_nat (length repos)) 0
           +:+ " repositories with commits in the last 7 days:"
           +:+ LF +:+ LF)) in
        let* _ := repoBlocks 0 repos in
        let* _ := perform (Print
          "Enter the number of the repository to view commits (or 0 to exit): ") in
        let* selection := perform ScanInt in
        if (selection <=? 0) || (Z.of_nat (length repos) <? selection)
        then
          let* _ := perform (Print
            ("Invalid selection or exit requested." +:+ LF)) in
          ret None
        else
          match repos !! Z.to_nat (selection - 1) with
          | None => panic "runtime error: index out of range"
          | Some selectedRepo =>
              let* _ := perform (Print
                (LF +:+ "Fetching commits for "
                 +:+ RepositoryInfo.FullName selectedRepo +:+ "..."
                 +:+ LF +:+ LF)) in
              let* (commits, err) :=
                GetRepositoryCommits fuel
                  (RepositoryInfo.FullName selectedRepo) since in
              match err with
              | Some e => ret (Some ("error fetching commits: " +:+ e))
              | None =>
                  let* _ :=
                    DisplayCommits commits
                      (RepositoryInfo.FullName selectedRepo) in
                  ret None
              end
          end
  end.

End Methods.
End GithubCLI.
(* ===================================================================== *)
(** ** Further vocabulary: configuration, names, listings, sessions       *)
(* ===================================================================== *)

(** [sep] occurs in [s]. *)
Fixpoint occurs (sep s : string) : bool :=
  match s with
  | EmptyString => String.prefix sep EmptyString
  | String c rest => String.prefix sep s || occurs sep rest
  end.

(** ['/'] occurs in [s]. *)
Fixpoint hasSlash (s : string) : bool :=
  match s with
  | EmptyString => false
  | String c rest => Ascii.eqb c "/"%char || hasSlash rest
  end.

(** The options [main] builds from a configuration. *)
Definition optionsOf (c : Config.t) : MainSetup.GitHubOptions :=
  MainSetup.mkGitHubOptions (Config.GitHubToken c) (Config.Username c).

(** The English ordinal suffix of a number. *)
Definition ordinalSuffix (n : Z) : string :=
  if (n mod 100 =? 11) || (n mod 100 =? 12) || (n mod 100 =? 13) then "th"
  else match n mod 10 with
       | 1 => "st"
       | 2 => "nd"
       | 3 => "rd"
       | _ => "th"
       end.

(** The weekday before, Friday standing before Monday. *)
Definition dayBefore (d : GoTime.Weekday) : GoTime.Weekday :=
  match d with
  | GoTime.Monday => GoTime.Friday
  | GoTime.Tuesday => GoTime.Monday
  | GoTime.Wednesday => GoTime.Tuesday
  | GoTime.Thursday => GoTime.Wednesday
  | GoTime.Friday => GoTime.Thursday
  | GoTime.Saturday => GoTime.Friday
  | GoTime.Sunday => GoTime.Saturday
  end.

(** A commit with an identifier of 8 characters, of one of [names]. *)
Definition cut (names : list string) (c : Main.Commit.t) : Prop :=
  String.length (Main.Commit.SHA c) = 8%nat /\ Main.Commit.RepoName c ∈ names.

(** The platform lists [items] for these parameters, a page at a time. *)
Definition servesCommits {W} `{Github.Remote W} (fullName : string)
    (since : option GoTime.Time) (sha : option string)
    (items : list Github.Commit.t) : Prop :=
  forall q w,
    Github.cqFullName q = fullName -> Github.cqSince q = since ->
    Github.cqSha q = sha -> Github.cqPerPage q = Github.perPage ->
    (Github.fetchCommits q w).1
    = Decoded (Platform.pageOf (Github.cqPage q) Github.perPage items).

Definition servesBranches {W} `{Github.Remote W} (fullName : string)
    (items : list Github.Branch.t) : Prop :=
  forall q w,
    Github.bqFullName q = fullName -> Github.bqPerPage q = Github.perPage ->
    (Github.fetchBranches q w).1
    = Decoded (Platform.pageOf (Github.bqPage q) Github.perPage items).

(** The platform lists [items] as the repositories the token can see. *)
Definition servesRepos {W} `{GithubLoad.ReposRemote W}
    (items : list Github.Repo.t) : Prop :=
  forall q w,
    GithubLoad.rqPerPage q = Github.perPage ->
    (GithubLoad.fetchUserRepos q w).1
    = Decoded (Platform.pageOf (GithubLoad.rqPage q) Github.perPage items).

(** [strings.Split(repo.FullName, "/")[0] == username] *)
Definition ownedBy (username : string) (r : Github.Repo.t) : bool :=
  String.eqb (Main.SplitHead (Github.Repo.FullName r) "/") username.

(** [acc] with [c] at its end, unless a commit of [acc] has its identifier. *)
Definition keepFirst (acc : list Github.Commit.t) (c : Github.Commit.t)
  : list Github.Commit.t :=
  if bool_decide (Github.Commit.SHA c ∈ shas acc) then acc else acc ++ [c].

(** The commits of [cs], each identifier at its first occurrence only. *)
Definition firstBySHA (cs : list Github.Commit.t) : list Github.Commit.t :=
  fold_left keepFirst cs [].

(** What a branch contributes: its listing, nothing when it failed. *)
Definition listed (listing : string -> list Github.Commit.t * error)
    (b : Github.Branch.t) : list Github.Commit.t :=
  match listing (Github.Branch.Name b) with
  | (cs, None) => cs
  | (_, Some _) => []
  end.

(** The commit date of a record. *)
Definition authored (c : Github.Commit.t) : GoTime.Time :=
  Github.CommitUser.Date (Github.CommitInfo.Author (Github.Commit.Commit c)).

(** The identifiers of a sequence of commit records. *)
Definition infoSHAs (cs : list GithubClient.CommitInfo.t) : list string :=
  GithubClient.CommitInfo.SHA <$> cs.

(** The full names of a sequence of repository records. *)
Definition fullNames (rs : list GithubClient.RepositoryInfo.t) : list string :=
  GithubClient.RepositoryInfo.FullName <$> rs.

(** A response names no next page, or a later one that is at most [N]. *)
Definition endsBy (N page : Z) (resp : GithubClient.Response.t) : Prop :=
  GithubClient.Response.NextPage resp = 0
  \/ page < GithubClient.Response.NextPage resp <= N.

(** The listings of 100 items a page end by page [N]. *)
Definition pagesEnd {W} `{GithubClient.Remote W} (N : Z) : Prop :=
  (forall username o w,
      GithubClient.ListOptions.PerPage
        (GithubClient.RepositoryListOptions.ListOptions o) = 100 ->
      endsBy N (GithubClient.ListOptions.Page
                  (GithubClient.RepositoryListOptions.ListOptions o))
        (GithubClient.ListByUser username o w).1.1.2)
  /\ (forall org o w,
         GithubClient.ListOptions.PerPage
           (GithubClient.RepositoryListOptions.ListOptions o) = 100 ->
         endsBy N (GithubClient.ListOptions.Page
                     (GithubClient.RepositoryListOptions.ListOptions o))
           (GithubClient.ListByOrg org o w).1.1.2)
  /\ (forall owner repo o w,
         GithubClient.ListOptions.PerPage
           (GithubClient.CommitsListOptions.ListOptions o) = 100 ->
         endsBy N (GithubClient.ListOptions.Page
                     (GithubClient.CommitsListOptions.ListOptions o))
           (GithubClient.ListCommits owner repo o w).1.1.2).

(** Every commit the platform lists has an identifier of 8 characters
    or more. *)
Definition listsLongSHAs {W} `{GithubClient.Remote W} : Prop :=
  forall owner repo o w,
    Forall (fun c =>
              (8 <= String.length (GithubClient.RepositoryCommit.GetSHA c))%nat)
      (GithubClient.ListCommits owner repo o w).1.1.1.

(** An identifier that some listing of commits of the platform shows. *)
Definition listedSHA {W} `{GithubClient.Remote W} (sha : string) : Prop :=
  exists owner repo o w,
    sha ∈ (GithubClient.RepositoryCommit.GetSHA
             <$> (GithubClient.ListCommits owner repo o w).1.1.1).

(** Every repository is filed under its full name. *)
Definition filedByName (m : gmap string GithubClient.RepositoryInfo.t) : Prop :=
  forall key r, m !! key = Some r -> GithubClient.RepositoryInfo.FullName r = key.

(** A record made from a listed repository updated after [since]. *)
Definition updatedRecord (since : GoTime.Time)
    (r : GithubClient.RepositoryInfo.t) : Prop :=
  exists repo,
    r = GithubClient.toRepositoryInfo repo
    /\ GithubClient.updatedAfter repo since = true.

(** A session: the messages the runtime hands to [Update], each with
    what the clock shows during the call; the commands are dropped. *)
Fixpoint feed {W} `{MainTUI.Bubbles} `{MainTUI.RangeInts W}
    `{Main.Remote W} `{GoRuntime W}
    (msgs : list (GoTime.Time * MainTUI.Msg)) (m : MainTUI.model)
  : IO W MainTUI.model :=
  match msgs with
  | [] => ret m
  | (now, msg) :: rest =>
      let* (m', _) := MainTUI.Update now m msg in feed rest m'
  end.

(** The day menu is the one of [today], a day of it is selected, and
    the window is positive. *)
Definition menuReady (today : GoTime.Time) (m : MainTUI.model) : Prop :=
  MainTUI.dayOptions m = MainMenu.getLast7Days today
  /\ 0 <= MainTUI.selectedDay m < 7
  /\ 0 < MainTUI.daysBack m.

(** Some selected index is outside [choices]. *)
Definition straySelection (m : MainTUI.model) : Prop :=
  exists i, i ∈ MainTUI.selected m
            /\ MainTUI.index (MainTUI.choices m) i = None.

(** Every identifier has 8 characters or more. *)
Definition longInfoSHAs (cs : list GithubClient.CommitInfo.t) : Prop :=
  Forall (fun c => (8 <= String.length (GithubClient.CommitInfo.SHA c))%nat)
    cs.

(** *** Sample data *)

(** Every variable set, two repositories a page, a window of 3 days. *)
Definition env0 : Env := fun name =>
  if String.eqb name "GITHUB_ACCESS_TOKEN" then "token"
  else if String.eqb name "GEMINI_API_KEY" then "key"
  else if String.eqb name "GITHUB_USERNAME" then "me"
  else if String.eqb name "PER_PAGE" then "2"
  else if String.eqb name "DAYS_BACK" then "3"
  else "".

(** Three repositories updated an hour before [Desk.now0]. *)
Definition gh3 : Main.GitHub.t :=
  Main.GitHub.mk Desk.user0
    [Desk.repoAt "a" (1718000000 - 3600);
     Desk.repoAt "b" (1718000000 - 3600);
     Desk.repoAt "c" (1718000000 - 3600)].

(** The listing of repositories answers with those of [gh3]. *)
#[global] Instance repos0 : MainSetup.ReposRemote Desk.World := {|
  MainSetup.fetchRepos := fun _ w => (Decoded (Main.GitHub.repos gh3), w)
|}.

(** The paginator and the spinner as the bubbles library has them:
    [New] starts at page 0 of 1 with one item a page, [PrevPage] and
    [NextPage] stop at the first and the last page, [SetTotalPages]
    rounds up and leaves the page alone, [GetSliceBounds] gives the
    bounds of the page, the end cut at the length; the two views are
    plain stand-ins for the rendered widgets. *)
#[global] Instance bubbles0 : MainTUI.Bubbles := {|
  MainTUI.paginatorNew := MainTUI.Paginator.mk 0 1 1;
  MainTUI.PrevPage := fun p =>
    if 0 <? MainTUI.Paginator.Page p
    then MainTUI.Paginator.mk (MainTUI.Paginator.Page p - 1)
           (MainTUI.Paginator.PerPage p) (MainTUI.Paginator.TotalPages p)
    else p;
  MainTUI.NextPage := fun p =>
    if MainTUI.Paginator.Page p =? MainTUI.Paginator.TotalPages p - 1
    then p
    else MainTUI.Paginator.mk (MainTUI.Paginator.Page p + 1)
           (MainTUI.Paginator.PerPage p) (MainTUI.Paginator.TotalPages p);
  MainTUI.SetTotalPages := fun p items =>
    if items <? 1 then p
    else
      let n := Z.quot items (MainTUI.Paginator.PerPage p) in
      let n := if 0 <? Z.rem items (MainTUI.Paginator.PerPage p)
               then n + 1 else n in
      MainTUI.Paginator.mk (MainTUI.Paginator.Page p)
        (MainTUI.Paginator.PerPage p) n;
  MainTUI.GetSliceBounds := fun p length =>
    (MainTUI.mulInt (MainTUI.Paginator.Page p) (MainTUI.Paginator.PerPage p),
     Z.min
       (MainTUI.addInt
          (MainTUI.mulInt (MainTUI.Paginator.Page p)
             (MainTUI.Paginator.PerPage p))
          (MainTUI.Paginator.PerPage p))
       length);
  MainTUI.GetSliceBounds_end := fun p length => Z.le_min_r _ length;
  MainTUI.paginatorView := fun p =>
    GoTime.appendInt (MainTUI.Paginator.Page p + 1) 0 +:+ "/"
    +:+ GoTime.appendInt (MainTUI.Paginator.TotalPages p) 0;
  MainTUI.spinnerNew := MainTUI.Spinner.mk 0;
  MainTUI.spinnerUpdate := fun s =>
    (MainTUI.Spinner.mk (MainTUI.Spinner.frame s + 1), true);
  MainTUI.spinnerView := fun _ => "."
|}.

#[global] Instance rangeInts0 : MainTUI.RangeInts Desk.World := {|
  MainTUI.rangeInts := fun keys w =>
    (if Desk.flipped w then rev keys else keys, w);
  MainTUI.rangeInts_perm := fun keys w =>
    match Desk.flipped w as b
      return Permutation (fst (if b then rev keys else keys, w)) keys with
    | true => Permutation_sym (Permutation_rev keys)
    | false => Permutation_refl keys
    end
|}.

Definition model0 : MainTUI.model :=
  MainTUI.initialModel (Config.LoadConfig env0) gh3 Desk.llm0 Desk.now0.

(** Three repositories updated three days before [Desk.now0], one
    updated an hour before. *)
Definition gh4 : Main.GitHub.t :=
  Main.GitHub.mk Desk.user0
    [Desk.repoAt "a" (1718000000 - 3 * 86400);
     Desk.repoAt "b" (1718000000 - 3 * 86400);
     Desk.repoAt "c" (1718000000 - 3 * 86400);
     Desk.repoAt "d" (1718000000 - 3600)].

Definition model4 : MainTUI.model :=
  MainTUI.initialModel (Config.LoadConfig env0) gh4 Desk.llm0 Desk.now0.

(** The bounds of the page of the choices are no bounds of a slice. *)
Definition stalePage `{MainTUI.Bubbles} (m : MainTUI.model) : Prop :=
  (MainTUI.GetSliceBounds (MainTUI.paginator m)
     (MainTUI.len (MainTUI.choices m))).1 < 0
  \/ (MainTUI.GetSliceBounds (MainTUI.paginator m)
        (MainTUI.len (MainTUI.choices m))).2
     < (MainTUI.GetSliceBounds (MainTUI.paginator m)
          (MainTUI.len (MainTUI.choices m))).1.

(** The keys [keys], pressed at [Desk.now0]. *)
Definition pressed (keys : list string)
  : list (GoTime.Time * MainTUI.Msg) :=
  (fun key => (Desk.now0, MainTUI.KeyMsg key)) <$> keys.

(** A branch of 150 commits. *)
Definition longBranch : list Platform.HostedCommit :=
  (fun i =>
     Platform.mkHostedCommit (GoTime.appendInt (Z.of_nat i) 16) "step" "ann"
       (Platform.at_ (1717900000 - Z.of_nat i)))
    <$> seq 0 150.

Definition big : Platform.HostedRepo :=
  Platform.mkHostedRepo "me" "big" (Platform.at_ 1717960000) "main"
    [("main", longBranch)].

Definition hostingBig : Platform.Hosting := Platform.mkHosting [big] [].

Definition ghBig : Github.GitHub.t :=
  Github.GitHub.mk (Github.mkUser "me" "token") [Platform.restRepo big].

(** What [app] lists for each of its branches. *)
Definition appListing (name : string) : list Github.Commit.t * error :=
  (Platform.toCommit
     <$> default [] (Platform.lookupBranch
                       (Platform.hrBranches Platform.app) name),
   None).

(** A listing that also shows a repository of somebody else. *)
Definition visible : list Github.Repo.t :=
  [Platform.restRepo Platform.app;
   Platform.restRepo
     (Platform.mkHostedRepo "team" "tool" (Platform.at_ 1717960000) "main" []);
   Platform.restRepo Platform.side].

#[global] Instance loader0 : GithubLoad.ReposRemote Platform.Console := {|
  GithubLoad.fetchUserRepos := fun q w =>
    (Decoded (Platform.pageOf (GithubLoad.rqPage q) (GithubLoad.rqPerPage q)
                visible), w)
|}.

(** The listing of the commits of [dev] fails. *)
Definition hostingDown : Platform.Hosting :=
  Platform.mkHosting [Platform.app] ["dev"].

(** A terminal at which the number [typed] is entered. *)
Definition terminal (typed : Z) : GithubCLI.Terminal Platform.Console := {|
  GithubCLI.Print := Platform.say;
  GithubCLI.ScanInt := fun w => (typed, w)
|}.

(** Every hosted commit has an identifier of 8 characters or more. *)
Definition longHosting (p : Platform.Hosting) : bool :=
  forallb
    (fun r =>
       forallb
         (fun b =>
            forallb (fun c => (8 <=? String.length (Platform.hcSHA c))%nat)
              (snd b))
         (Platform.hrBranches r))
    (Platform.hosted p).

(* ===================================================================== *)
(** ** The calendar                                                      *)
(* ===================================================================== *)

Section Calendar.
Import GoTime.

Ltac split_tests :=
  repeat match goal with
         | |- context [ ?a <? ?b ] => destruct (Z.ltb_spec a b)
         | |- context [ ?a <=? ?b ] => destruct (Z.leb_spec a b)
         end.

(** Reading a day number as a date and back gives the day number. *)
Lemma days_from_civil_from_days z :
  days_from_civil (fst (fst (civil_from_days z)))
    (snd (fst (civil_from_days z))) (snd (civil_from_days z)) = z.
Proof.
  unfold civil_from_days, days_from_civil; cbn [fst snd]; cbv zeta.
  split_tests; Z.div_mod_to_equations; lia.
Qed.

Lemma civil_month_range z : 1 <= snd (fst (civil_from_days z)) <= 12.
Proof.
  unfold civil_from_days; cbn [fst snd]; cbv zeta.
  split_tests; Z.div_mod_to_equations; lia.
Qed.

Lemma civil_day_range z : 1 <= snd (civil_from_days z) <= 31.
Proof.
  unfold civil_from_days; cbn [fst snd]; cbv zeta.
  split_tests; Z.div_mod_to_equations; lia.
Qed.

Lemma days_from_civil_day y m d :
  days_from_civil y m d = days_from_civil y m 1 + (d - 1).
Proof. unfold days_from_civil; cbv zeta. lia. Qed.

(** [Date] on the year and month of [t], any day and clock. *)
Lemma Date_civil t d h mi s ns :
  Date (Year t) (Month t) d h mi s ns (loc t)
  = mkTime ((localDay t + (d - Day t)) * secondsPerDay + h * 3600
            + mi * 60 + s + ns / 1000000000 - locOffset (loc t))
      (ns mod 1000000000) (loc t).
Proof.
  unfold Date, Year, Month, Day.
  pose proof (civil_month_range (localDay t)) as Hm.
  pose proof (days_from_civil_from_days (localDay t)) as Hr.
  set (c := civil_from_days (localDay t)) in *.
  replace ((snd (fst c) - 1) / 12) with 0 by (Z.div_mod_to_equations; lia).
  replace ((snd (fst c) - 1) mod 12 + 1) with (snd (fst c))
    by (Z.div_mod_to_equations; lia).
  rewrite Z.add_0_r.
  rewrite (days_from_civil_day _ _ (snd c)) in Hr.
  f_equal. lia.
Qed.

(** Adding days moves the instant by whole days. *)
Lemma AddDate_days t k :
  validTime t ->
  AddDate t 0 0 k = mkTime (unixSec t + k * secondsPerDay) (nsec t) (loc t).
Proof.
  intros Hv. unfold AddDate, GetLocation, Nanosecond.
  rewrite !Z.add_0_r. rewrite Date_civil.
  unfold validTime in Hv.
  f_equal.
  - unfold Hour, Minute, Second, secOfDay, localDay, localSec, secondsPerDay.
    Z.div_mod_to_equations; lia.
  - Z.div_mod_to_equations; lia.
Qed.

Lemma startOfDay t :
  Date (Year t) (Month t) (Day t) 0 0 0 0 (GetLocation t)
  = midnight (loc t) (localDay t).
Proof.
  unfold GetLocation. rewrite Date_civil. unfold midnight. f_equal.
  change (0 / 1000000000) with 0. lia.
Qed.

Lemma localDay_shift t k :
  localDay (mkTime (unixSec t + k * secondsPerDay) (nsec t) (loc t))
  = localDay t + k.
Proof.
  unfold localDay, localSec, secondsPerDay; cbn.
  Z.div_mod_to_equations; lia.
Qed.

(** [midnight l day] is hour 0, minute 0, second 0 of local day [day]. *)
Lemma midnight_clock l day :
  localDay (midnight l day) = day
  /\ Hour (midnight l day) = 0 /\ Minute (midnight l day) = 0
  /\ Second (midnight l day) = 0 /\ Nanosecond (midnight l day) = 0.
Proof.
  unfold Hour, Minute, Second, Nanosecond, secOfDay, localDay, localSec,
    midnight, secondsPerDay; cbn [unixSec nsec loc].
  repeat split; try (Z.div_mod_to_equations; lia).
Qed.

Lemma sinceByDay_midnight now k :
  validTime now ->
  Date (Year (AddDate now 0 0 k)) (Month (AddDate now 0 0 k))
    (Day (AddDate now 0 0 k)) 0 0 0 0 (GetLocation (AddDate now 0 0 k))
  = midnight (loc now) (localDay now + k).
Proof.
  intros Hv. rewrite startOfDay, AddDate_days by assumption.
  cbn [loc]. now rewrite localDay_shift.
Qed.

Lemma fixed_Date year month day hour min sec ns l :
  GoZone.Date year month day hour min sec ns (fixed l)
  = zoned (Date year month day hour min sec ns l).
Proof.
  unfold GoZone.Date, Date, zoned, GoZone.lookup. cbn.
  destruct (Z.eqb_spec (locOffset l) 0) as [Hz|Hnz]; cbn [negb].
  - rewrite Hz. f_equal. lia.
  - by destruct (_ || _).
Qed.

Lemma fixed_AddDate t years months days :
  GoZone.AddDate (zoned t) years months days
  = zoned (AddDate t years months days).
Proof. unfold GoZone.AddDate, AddDate. by rewrite <- fixed_Date. Qed.

Lemma fixed_startOfDay t :
  GoZone.Date (GoZone.Year (zoned t)) (GoZone.Month (zoned t))
    (GoZone.Day (zoned t)) 0 0 0 0 (GoZone.GetLocation (zoned t))
  = zoned (Date (Year t) (Month t) (Day t) 0 0 0 0 (GetLocation t)).
Proof. by rewrite <- fixed_Date. Qed.

(** In a location without changes the zone lookups of [time.Date]
    find the one offset: the cutoff is that of the calendar of fixed
    offset. *)
Lemma fixed_sinceByDay now :
  GoZone.sinceByDay (zoned now) = zoned (Github.sinceByDay now).
Proof.
  unfold GoZone.sinceByDay, Github.sinceByDay.
  change (GoZone.Weekday_of (zoned now)) with (Weekday_of now).
  destruct (Weekday_of now); rewrite fixed_AddDate; apply fixed_startOfDay.
Qed.

Lemma midnight_local l day : localMidnight (zoned (midnight l day)) day.
Proof.
  unfold localMidnight, GoZone.localDay, GoZone.secOfDay, GoZone.localSec,
    GoZone.offsetAt, midnight, zoned, secondsPerDay. cbn.
  split; [|split; [|done]].
  - replace (day * 86400 - locOffset l + locOffset l) with (day * 86400)
      by lia.
    by apply Z.div_mul.
  - replace (day * 86400 - locOffset l + locOffset l) with (day * 86400)
      by lia.
    by apply Z.mod_mul.
Qed.

Lemma lookupFrom_steady tx :
  forall offset start sec o s e,
    ascending start tx = true ->
    GoZone.lookupFrom offset start tx sec = (o, s, e) ->
    start <= s
    /\ forall u, s <= u < e -> GoZone.lookupFrom offset start tx u = (o, s, e).
Proof.
  induction tx as [|[when offset'] rest IH]; intros offset start sec o s e;
    cbn [ascending GoZone.lookupFrom].
  - intros _ [= <- <- <-]. split; [lia|done].
  - intros [Hlt Hasc]%andb_prop. apply Z.ltb_lt in Hlt.
    destruct (Z.ltb_spec sec when) as [Hsec|Hsec].
    + intros [= <- <- <-]. split; [lia|]. intros u Hu.
      by destruct (Z.ltb_spec u when); [|lia].
    + intros Hl. destruct (IH _ _ _ _ _ _ Hasc Hl) as [Hs Hst].
      split; [lia|]. intros u Hu.
      destruct (Z.ltb_spec u when); [lia|]. by apply Hst.
Qed.

Lemma lookupFrom_end tx :
  forall offset start sec o s e,
    sec < GoZone.omega ->
    GoZone.lookupFrom offset start tx sec = (o, s, e) -> sec < e.
Proof.
  induction tx as [|[when offset'] rest IH]; intros offset start sec o s e Hsec;
    cbn [GoZone.lookupFrom].
  - by intros [= <- <- <-].
  - destruct (Z.ltb_spec sec when); [by intros [= <- <- <-]|].
    by apply IH.
Qed.

(** [Date] at a wall clock that the span of one offset holds, read
    as UTC and as local time. *)
Lemma Date_steady l y m d h mi s ns o st e :
  1 <= m <= 12 ->
  (forall u, st <= u < e -> GoZone.lookup l u = (o, st, e)) ->
  let wall := (days_from_civil y m 1 + (d - 1)) * secondsPerDay + h * 3600
              + mi * 60 + s + ns / 1000000000 in
  st <= wall < e -> st <= wall - o < e ->
  GoZone.Date y m d h mi s ns l
  = GoZone.mkTime (wall - o) (ns mod 1000000000) l.
Proof.
  intros Hm Hst wall Hwall Hutc. unfold GoZone.Date.
  replace ((m - 1) / 12) with 0 by (Z.div_mod_to_equations; lia).
  replace ((m - 1) mod 12 + 1) with m by (Z.div_mod_to_equations; lia).
  rewrite Z.add_0_r. fold wall. rewrite (Hst wall Hwall).
  destruct (Z.eqb_spec o 0) as [->|Hnz]; cbn [negb].
  - f_equal. lia.
  - destruct (Z.ltb_spec (wall - o) st); [lia|].
    destruct (Z.leb_spec e (wall - o)); [lia|]. done.
Qed.

(** The wall clock of an instant in the span of the offset [o]. *)
Lemma wall_steady l o st e u ns :
  (forall u, st <= u < e -> GoZone.lookup l u = (o, st, e)) ->
  st <= u < e ->
  GoZone.localSec (GoZone.mkTime u ns l) = u + o.
Proof.
  intros Hst Hu. unfold GoZone.localSec, GoZone.offsetAt. cbn.
  by rewrite (Hst u Hu).
Qed.

Lemma zone_Date_civil t d h mi s ns o st e :
  (forall u, st <= u < e -> GoZone.lookup (GoZone.loc t) u = (o, st, e)) ->
  let wall := (GoZone.localDay t + (d - GoZone.Day t)) * secondsPerDay
              + h * 3600 + mi * 60 + s + ns / 1000000000 in
  st <= wall < e -> st <= wall - o < e ->
  GoZone.Date (GoZone.Year t) (GoZone.Month t) d h mi s ns (GoZone.loc t)
  = GoZone.mkTime (wall - o) (ns mod 1000000000) (GoZone.loc t).
Proof.
  intros Hst wall Hwall Hutc.
  pose proof (civil_month_range (GoZone.localDay t)) as Hm.
  pose proof (days_from_civil_from_days (GoZone.localDay t)) as Hr.
  rewrite (days_from_civil_day _ _ (snd _)) in Hr.
  assert (wall = (days_from_civil (GoZone.Year t) (GoZone.Month t) 1 + (d - 1))
                 * secondsPerDay + h * 3600 + mi * 60 + s + ns / 1000000000)
    as Hw by (unfold wall, GoZone.Year, GoZone.Month, GoZone.Day; lia).
  pose proof (Date_steady (GoZone.loc t) (GoZone.Year t) (GoZone.Month t) d h mi s ns o st e Hm Hst) as HD.
  cbv zeta in HD. rewrite <- Hw in HD.
  by apply HD.
Qed.

Lemma zone_sinceByDay_steady now k :
  zoneTime now -> 1 <= k ->
  steadySince now (GoZone.localDay now - k) ->
  GoZone.Date (GoZone.Year (GoZone.AddDate now 0 0 (- k)))
    (GoZone.Month (GoZone.AddDate now 0 0 (- k)))
    (GoZone.Day (GoZone.AddDate now 0 0 (- k))) 0 0 0 0
    (GoZone.GetLocation (GoZone.AddDate now 0 0 (- k)))
  = GoZone.mkTime ((GoZone.localDay now - k) * secondsPerDay
                   - GoZone.offsetAt now) 0 (GoZone.loc now)
  /\ localMidnight
       (GoZone.mkTime ((GoZone.localDay now - k) * secondsPerDay
                       - GoZone.offsetAt now) 0 (GoZone.loc now))
       (GoZone.localDay now - k).
Proof.
  intros (Hasc & Hmax & Hns) Hk. unfold steadySince, GoZone.offsetAt at 1 2.
  destruct (GoZone.lookup _ _) as [[o st] e] eqn:Hl. cbn [fst].
  intros (Ho & Hutc & Hwall).
  pose proof (lookupFrom_end _ _ _ _ _ _ _ Hmax Hl) as He.
  destruct (lookupFrom_steady _ _ _ _ _ _ _ Hasc Hl) as [_ Hst].
  change (forall u, st <= u < e -> GoZone.lookup (GoZone.loc now) u = (o, st, e))
    in Hst.
  assert (GoZone.localSec now = GoZone.unixSec now + o) as Hsec
    by (unfold GoZone.localSec, GoZone.offsetAt; by rewrite Hl).
  assert (GoZone.AddDate now 0 0 (- k)
          = GoZone.mkTime (GoZone.unixSec now - k * secondsPerDay)
              (GoZone.nsec now) (GoZone.loc now)) as Hadd.
  { unfold GoZone.AddDate, GoZone.GetLocation, GoZone.Nanosecond.
    rewrite !Z.add_0_r.
    rewrite (zone_Date_civil _ _ _ _ _ _ o st e Hst).
    - f_equal.
      + unfold GoZone.Hour, GoZone.Minute, GoZone.Second, GoZone.secOfDay,
          GoZone.localDay. rewrite Hsec. unfold secondsPerDay.
        Z.div_mod_to_equations; lia.
      + Z.div_mod_to_equations; lia.
    - unfold GoZone.Hour, GoZone.Minute, GoZone.Second, GoZone.secOfDay,
        GoZone.localDay in *. rewrite Hsec in *. unfold secondsPerDay in *.
      Z.div_mod_to_equations; lia.
    - unfold GoZone.Hour, GoZone.Minute, GoZone.Second, GoZone.secOfDay,
        GoZone.localDay in *. rewrite Hsec in *. unfold secondsPerDay in *.
      Z.div_mod_to_equations; lia. }
  rewrite Hadd. unfold GoZone.GetLocation. cbn [GoZone.loc].
  set (since := GoZone.mkTime _ _ _).
  assert (st <= GoZone.unixSec since < e) as Hin.
  { unfold since; cbn [GoZone.unixSec].
    unfold GoZone.localDay in *. rewrite Hsec in *. unfold secondsPerDay in *.
    Z.div_mod_to_equations; lia. }
  assert (GoZone.localDay since = GoZone.localDay now - k) as Hday.
  { unfold GoZone.localDay. unfold since at 1.
    rewrite (wall_steady _ o st e) by done.
    rewrite Hsec. unfold secondsPerDay. Z.div_mod_to_equations; lia. }
  assert (st <= (GoZone.localDay now - k) * secondsPerDay - o < e) as Hcut.
  { unfold GoZone.localDay in *. rewrite Hsec in *. unfold secondsPerDay in *.
    Z.div_mod_to_equations; lia. }
  split; cycle 1.
  { unfold localMidnight, GoZone.localDay, GoZone.secOfDay.
    rewrite (wall_steady _ o st e) by done. cbn [GoZone.nsec].
    replace ((GoZone.localSec now / secondsPerDay - k) * secondsPerDay - o + o)
      with ((GoZone.localSec now / secondsPerDay - k) * secondsPerDay) by lia.
    unfold secondsPerDay.
    split; [by apply Z.div_mul|]. split; [by apply Z.mod_mul|done]. }
  change (GoZone.loc now) with (GoZone.loc since) at 1.
  rewrite (zone_Date_civil since _ _ _ _ _ o st e Hst).
  - f_equal. rewrite Hday. change (0 / 1000000000) with 0. lia.
  - rewrite Hday. change (0 / 1000000000) with 0.
    unfold GoZone.localDay in *. rewrite Hsec in *. unfold secondsPerDay in *.
    Z.div_mod_to_equations; lia.
  - rewrite Hday. change (0 / 1000000000) with 0.
    unfold GoZone.localDay in *. rewrite Hsec in *. unfold secondsPerDay in *.
    Z.div_mod_to_equations; lia.
Qed.




End Calendar.

(* ===================================================================== *)
(** ** The merge across branches                                         *)
(* ===================================================================== *)

Section Merge.
Import Github.

Lemma tracked_init : tracked ([], (∅ : gmap string bool)).
Proof.
  split; [constructor|]. intros sha. unfold seen; cbn [fst snd].
  rewrite lookup_empty. cbn.
  split; [discriminate|]. intros Hin. inversion Hin.
Qed.

Lemma seen_insert m k sha :
  seen (<[k := true]> m) sha = true <-> sha = k \/ seen m sha = true.
Proof.
  unfold seen. destruct (decide (k = sha)) as [->|Hne].
  - rewrite lookup_insert_eq. cbn. tauto.
  - rewrite lookup_insert_ne by done. split; [tauto|].
    intros [->|Hs]; [done|exact Hs].
Qed.

Lemma addUnique_tracked commits st :
  tracked st -> tracked (addUnique commits st).
Proof.
  revert st. induction commits as [|c rest IH]; intros [all m] Hst; [done|].
  cbn [addUnique]. destruct (seen m (Commit.SHA c)) eqn:Hseen; cbn [negb].
  - by apply IH.
  - apply IH. destruct Hst as [Hnd Hm]; cbn [fst snd] in *.
    split; cbn [fst snd].
    + unfold shas in *. rewrite fmap_app. cbn.
      apply NoDup_app. split; [done|].
      split; [|apply NoDup_singleton].
      intros x Hx Hx'. apply list_elem_of_singleton in Hx'. subst x.
      apply Hm in Hx. congruence.
    + intros sha. rewrite seen_insert. unfold shas in *.
      rewrite fmap_app. cbn.
      rewrite elem_of_app, list_elem_of_singleton, Hm. tauto.
Qed.

Lemma addUnique_keeps commits st sha :
  sha ∈ shas st.1 -> sha ∈ shas (addUnique commits st).1.
Proof.
  revert st. induction commits as [|c rest IH]; intros [all m] Hin; [done|].
  cbn [addUnique]. destruct (negb _); apply IH; [|done].
  cbn [fst] in *. unfold shas in *. rewrite fmap_app.
  apply elem_of_app. by left.
Qed.

Lemma addUnique_adds commits st c :
  tracked st -> c ∈ commits ->
  Commit.SHA c ∈ shas (addUnique commits st).1.
Proof.
  revert st. induction commits as [|c' rest IH]; intros [all m] Hst Hin.
  - inversion Hin.
  - cbn [addUnique]. apply elem_of_cons in Hin as [->|Hin].
    + destruct (seen m (Commit.SHA c')) eqn:Hseen; cbn [negb].
      * apply addUnique_keeps. by apply Hst.
      * apply addUnique_keeps. cbn [fst]. unfold shas. rewrite fmap_app.
        apply elem_of_app. right. cbn. by apply list_elem_of_singleton.
    + pose proof (addUnique_tracked [c'] (all, m) Hst) as Hst'.
      cbn [addUnique] in Hst'.
      destruct (negb (seen m (Commit.SHA c'))); by apply IH.
Qed.

Lemma NoDup_count_once (l : list string) x :
  NoDup l -> x ∈ l -> count_occ string_dec l x = 1%nat.
Proof.
  intros Hnd Hin. apply list_elem_of_In in Hin.
  apply NoDup_ListNoDup in Hnd.
  apply (proj1 (NoDup_count_occ string_dec l)) with (x := x) in Hnd.
  apply (count_occ_In string_dec) in Hin. lia.
Qed.

Context {W : Type} `{Remote W}.

Lemma commitPages_stable fuel gh targetRepo since branchName :
  stableCommits ->
  forall page allCommits w1 w2,
    sameResult
      (commitPages fuel gh targetRepo since branchName page allCommits w1)
      (commitPages fuel gh targetRepo since branchName page allCommits w2).
Proof.
  intros Hst. induction fuel as [|fuel IH]; intros page acc w1 w2; [done|].
  cbn [commitPages]. unfold bind, perform.
  match goal with
  | |- context [fetchCommits ?q w1] => specialize (Hst q w1 w2)
  end.
  destruct (fetchCommits _ w1) as [r1 w1'], (fetchCommits _ w2) as [r2 w2'].
  cbn in Hst. subst r2. destruct r1; try done.
  destruct (_ =? 0); [done|]. destruct (_ <? perPage); [done|]. apply IH.
Qed.

Lemma fetch_stable fuel gh repoName since branchName :
  stableCommits ->
  forall w1 w2,
    sameResult
      (GetCommitsForRepoSinceFromBranch fuel gh repoName since branchName w1)
      (GetCommitsForRepoSinceFromBranch fuel gh repoName since branchName w2).
Proof.
  intros Hst w1 w2. unfold GetCommitsForRepoSinceFromBranch.
  destruct (findRepo _ _); [by apply commitPages_stable|done].
Qed.

Lemma branchLoop_tracked fuel gh repoName since branches :
  forall st w st' w',
    tracked st ->
    branchLoop fuel gh repoName since branches st w = Done st' w' ->
    tracked st'.
Proof.
  induction branches as [|b rest IH]; intros st w st' w' Hst Hrun.
  - cbn in Hrun. unfold ret in Hrun. by simplify_eq.
  - cbn [branchLoop] in Hrun. unfold bind in Hrun.
    destruct (GetCommitsForRepoSinceFromBranch _ _ _ _ _ w)
      as [[cs [e|]] w1|?|]; try done.
    + unfold perform in Hrun. destruct (Printf _ w1) as [[] w2]. eauto.
    + eapply IH; [|done]. by apply addUnique_tracked.
Qed.

Lemma branchLoop_merges fuel gh repoName since branches :
  stableCommits ->
  forall st w st' w',
    tracked st ->
    branchLoop fuel gh repoName since branches st w = Done st' w' ->
    (forall sha, sha ∈ shas st.1 -> sha ∈ shas st'.1)
    /\ forall branch w2 w3 cs c,
        branch ∈ branches ->
        GetCommitsForRepoSinceFromBranch fuel gh repoName since
          (Branch.Name branch) w2 = Done (cs, None) w3 ->
        c ∈ cs -> Commit.SHA c ∈ shas st'.1.
Proof.
  intros Hstable.
  induction branches as [|b rest IH]; intros st w st' w' Hst Hrun.
  - cbn in Hrun. unfold ret in Hrun. simplify_eq. split; [done|].
    intros ? ? ? ? ? Hin. inversion Hin.
  - cbn [branchLoop] in Hrun. unfold bind in Hrun.
    pose proof (fetch_stable fuel gh repoName since (Branch.Name b)
                  Hstable w) as Hsame.
    destruct (GetCommitsForRepoSinceFromBranch _ _ _ _ _ w)
      as [[cs1 [e|]] w1|?|]; try done.
    + unfold perform in Hrun. destruct (Printf _ w1) as [[] wp].
      destruct (IH _ _ _ _ Hst Hrun) as [Hkeep Hadd]. split; [done|].
      intros branch w2 w3 cs c Hin Hfetch Hc.
      apply elem_of_cons in Hin as [->|Hin]; [|by eapply Hadd].
      specialize (Hsame w2). rewrite Hfetch in Hsame. cbn in Hsame.
      congruence.
    + pose proof (addUnique_tracked cs1 st Hst) as Hst1.
      destruct (IH _ _ _ _ Hst1 Hrun) as [Hkeep Hadd]. split.
      * intros sha Hsha. apply Hkeep. by apply addUnique_keeps.
      * intros branch w2 w3 cs c Hin Hfetch Hc.
        apply elem_of_cons in Hin as [->|Hin]; [|by eapply Hadd].
        specialize (Hsame w2). rewrite Hfetch in Hsame. cbn in Hsame.
        injection Hsame as <-. apply Hkeep. by apply addUnique_adds.
Qed.

Lemma commitPages_returns N fuel gh targetRepo since branchName :
  boundedPages N ->
  forall page allCommits w,
    (Z.to_nat (N - page) < fuel)%nat ->
    exists r w',
      commitPages fuel gh targetRepo since branchName page allCommits w
      = Done r w'.
Proof.
  intros [_ Hb].
  induction fuel as [|fuel IH]; intros page acc w Hfuel; [lia|].
  cbn [commitPages]. unfold bind, perform.
  match goal with
  | |- context [fetchCommits ?q w] => specialize (Hb q w eq_refl)
  end.
  cbn [cqPage] in Hb.
  destruct (fetchCommits _ w) as [r w1]. cbn [fst] in Hb.
  destruct r; try by (do 2 eexists).
  destruct (_ =? 0); [by do 2 eexists|].
  destruct (Z.ltb_spec (Z.of_nat (length v)) perPage); [by do 2 eexists|].
  apply IH.
  destruct (Z.le_gt_cases N page) as [Hle|Hgt]; [specialize (Hb Hle); lia|lia].
Qed.

Lemma branchPages_returns N fuel gh targetRepo :
  boundedPages N ->
  forall page allBranches w,
    (Z.to_nat (N - page) < fuel)%nat ->
    exists r w',
      branchPages fuel gh targetRepo page allBranches w = Done r w'.
Proof.
  intros [Hb _].
  induction fuel as [|fuel IH]; intros page acc w Hfuel; [lia|].
  cbn [branchPages]. unfold bind, perform.
  match goal with
  | |- context [fetchBranches ?q w] => specialize (Hb q w eq_refl)
  end.
  cbn [bqPage] in Hb.
  destruct (fetchBranches _ w) as [r w1]. cbn [fst] in Hb.
  destruct r; try by (do 2 eexists).
  destruct (_ =? 0); [by do 2 eexists|].
  destruct (Z.ltb_spec (Z.of_nat (length v)) perPage); [by do 2 eexists|].
  apply IH.
  destruct (Z.le_gt_cases N page) as [Hle|Hgt]; [specialize (Hb Hle); lia|lia].
Qed.

Lemma fetch_returns N fuel gh repoName since branchName w :
  boundedPages N -> (Z.to_nat N <= fuel)%nat -> (0 < fuel)%nat ->
  exists r w',
    GetCommitsForRepoSinceFromBranch fuel gh repoName since branchName w
    = Done r w'.
Proof.
  intros Hb Hfuel Hpos. unfold GetCommitsForRepoSinceFromBranch.
  destruct (findRepo _ _); [|by do 2 eexists].
  apply (commitPages_returns N); [done|lia].
Qed.

Lemma branchLoop_returns N fuel gh repoName since branches :
  boundedPages N -> (Z.to_nat N <= fuel)%nat -> (0 < fuel)%nat ->
  forall st w,
    exists st' w',
      branchLoop fuel gh repoName since branches st w = Done st' w'.
Proof.
  intros Hb Hfuel Hpos. induction branches as [|b rest IH]; intros st w.
  - by do 2 eexists.
  - cbn [branchLoop]. unfold bind.
    destruct (fetch_returns N fuel gh repoName since (Branch.Name b) w
                Hb Hfuel Hpos) as ([cs [e|]] & w1 & ->).
    + unfold perform. destruct (Printf _ w1) as [[] w2]. apply IH.
    + apply IH.
Qed.

(** With enough fuel for the pages of the platform, the fan-out
    returns. *)
Lemma all_branches_returns N fuel gh repoName since w :
  boundedPages N -> (Z.to_nat N <= fuel)%nat -> (0 < fuel)%nat ->
  exists commits err w',
    GetCommitsFromAllBranches fuel gh repoName since w
    = Done (commits, err) w'.
Proof.
  intros Hb Hfuel Hpos.
  unfold GetCommitsFromAllBranches, bind, GetBranchesForRepo.
  destruct (findRepo _ _) as [r|]; [|by do 3 eexists].
  destruct (branchPages_returns N fuel gh r Hb 1 [] w ltac:(lia))
    as ([bs [e|]] & w1 & ->).
  - by do 3 eexists.
  - destruct (branchLoop_returns N fuel gh repoName since bs Hb Hfuel Hpos
                ([], ∅) w1) as ([all m] & w2 & ->).
    by do 3 eexists.
Qed.

(** Claim C1. [GetCommitsFromAllBranches] returns once the fuel covers
    the pages of the platform; whatever it returns, no two of the
    returned records have the same identifier; and, the platform
    answering each query the same way during the run, a commit listed
    for a branch (for several branches, if it is a shared ancestor)
    has its identifier exactly once in the result. *)
Theorem all_branches_each_commit_once fuel gh repoName since w :
  (forall N,
      boundedPages N -> (Z.to_nat N <= fuel)%nat -> (0 < fuel)%nat ->
      exists commits err w',
        GetCommitsFromAllBranches fuel gh repoName since w
        = Done (commits, err) w')
  /\ forall commits err w',
      GetCommitsFromAllBranches fuel gh repoName since w
      = Done (commits, err) w' ->
      NoDup (shas commits)
      /\ (stableCommits ->
          forall branches w1 branch w2 w3 cs c,
            GetBranchesForRepo fuel gh repoName w
            = Done (branches, None) w1 ->
            branch ∈ branches ->
            GetCommitsForRepoSinceFromBranch fuel gh repoName since
              (Branch.Name branch) w2 = Done (cs, None) w3 ->
            c ∈ cs ->
            count_occ string_dec (shas commits) (Commit.SHA c) = 1%nat).
Proof.
  split; [intros N; apply all_branches_returns|].
  unfold GetCommitsFromAllBranches, bind. intros commits err w' Hrun.
  destruct (GetBranchesForRepo _ _ _ w) as [[bs [e|]] w1|?|]; try done.
  - unfold ret in Hrun. simplify_eq. split; [constructor|].
    intros _ ? ? ? ? ? ? ? Hb. discriminate.
  - destruct (branchLoop _ _ _ _ _ _ w1) as [[all m] w2|?|] eqn:Hloop;
      try done.
    unfold ret in Hrun. simplify_eq.
    pose proof (branchLoop_tracked _ _ _ _ _ _ _ _ _ tracked_init Hloop)
      as [Hnd _].
    split; [done|].
    intros Hstable branches w1' branch w2' w3 cs c Hbs Hin Hfetch Hc.
    simplify_eq. apply NoDup_count_once; [done|].
    destruct (branchLoop_merges _ _ _ _ _ Hstable _ _ _ _
                tracked_init Hloop) as [_ Hadd].
    by eapply Hadd.
Qed.

(** Claim C7. When the listing of branches returns no branch, and
    when every branch lists no commit since the cutoff,
    [GetCommitsFromAllBranches] returns the empty sequence and a nil
    error. *)
Theorem no_branches_no_commits fuel gh repoName since w :
  (forall w1,
      GetBranchesForRepo fuel gh repoName w = Done ([], None) w1 ->
      GetCommitsFromAllBranches fuel gh repoName since w
      = Done ([], None) w1)
  /\ (forall branches w1,
         GetBranchesForRepo fuel gh repoName w
         = Done (branches, None) w1 ->
         (forall branch w2, branch ∈ branches ->
            exists w3,
              GetCommitsForRepoSinceFromBranch fuel gh repoName since
                (Branch.Name branch) w2 = Done ([], None) w3) ->
         exists w', GetCommitsFromAllBranches fuel gh repoName since w
                    = Done ([], None) w').
Proof.
  split.
  - intros w1 Hbs. unfold GetCommitsFromAllBranches, bind. by rewrite Hbs.
  - intros branches w1 Hbs Hempty. unfold GetCommitsFromAllBranches, bind.
    rewrite Hbs.
    assert (Hloop : forall st w0, exists w',
               branchLoop fuel gh repoName since branches st w0
               = Done st w').
    { clear Hbs. induction branches as [|b rest IH]; intros st w0.
      - by exists w0.
      - cbn [branchLoop]. unfold bind.
        destruct (Hempty b w0) as [w3 ->]; [by left|]. cbn [addUnique].
        apply IH. intros branch w2 Hin. apply Hempty. by right. }
    destruct (Hloop ([], ∅) w1) as [w' ->]. by exists w'.
Qed.

End Merge.

Section PlatformFacts.
Import Platform.

Lemma pageOf_beyond {A} page perPage (items : list A) :
  Z.of_nat (length items) <= perPage -> 2 <= page ->
  pageOf page perPage items = [].
Proof.
  intros Hlen Hpage. unfold pageOf.
  destruct (Z.leb_spec page 0); [lia|].
  rewrite drop_ge; [by rewrite take_nil|]. nia.
Qed.

Lemma lookupRepo_In repos fullName r :
  lookupRepo repos fullName = Some r -> In r repos.
Proof.
  induction repos as [|r0 rest IH]; cbn; [done|].
  destruct (String.eqb _ _); [intros [= ->]; by left|].
  intros Hr. right. by apply IH.
Qed.

Lemma lookupBranch_In branches name cs :
  lookupBranch branches name = Some cs -> In (name, cs) branches.
Proof.
  induction branches as [|[n c] rest IH]; cbn; [done|].
  destruct (String.eqb_spec n name) as [->|Hne]; [intros [= ->]; by left|].
  intros Hr. right. by apply IH.
Qed.

Lemma commitsShown_length r sha since cs n :
  forallb (fun b => (length (snd b) <=? n)%nat) (hrBranches r) = true ->
  commitsShown r sha since = Some cs -> (length cs <= n)%nat.
Proof.
  intros Hall. unfold commitsShown.
  destruct (lookupBranch _ _) as [all|] eqn:Hb; [|done].
  apply lookupBranch_In in Hb. rewrite forallb_forall in Hall.
  specialize (Hall _ Hb). cbn in Hall. apply Nat.leb_le in Hall.
  intros [= <-]. destruct since; [|done].
  etransitivity; [apply List.filter_length_le|done].
Qed.

(** A small hosting has nothing to list from the second page on. *)
Lemma small_bounded p :
  smallHosting p = true -> boundedPages (H := rest p) 2.
Proof.
  intros Hsmall. unfold smallHosting in Hsmall.
  rewrite forallb_forall in Hsmall.
  split; intros q w Hper Hpage;
    cbn [Github.fetchBranches Github.fetchCommits rest fst restBranches
           restCommits].
  - unfold branchesReply. destruct (lookupRepo _ _) as [r|] eqn:Hr; [|done].
    apply lookupRepo_In, Hsmall, andb_prop in Hr as [Hn _].
    apply Nat.leb_le in Hn.
    rewrite pageOf_beyond; [done| |done].
    rewrite length_fmap, Hper. unfold Github.perPage. lia.
  - unfold commitsReply. destruct (lookupRepo _ _) as [r|] eqn:Hr; [|done].
    apply lookupRepo_In, Hsmall, andb_prop in Hr as [_ Hbs].
    case_bool_decide; [done|].
    destruct (commitsShown _ _ _) as [cs|] eqn:Hcs; [|done].
    pose proof (commitsShown_length _ _ _ _ _ Hbs Hcs) as Hlen.
    rewrite pageOf_beyond; [done| |done].
    rewrite length_fmap, Hper. unfold Github.perPage. lia.
Qed.
End PlatformFacts.

Lemma all_branches_each_commit_once_witness :
  (exists commits err w',
      Github.GetCommitsFromAllBranches 3 Platform.gh0 "app" friday0
        Platform.console0 = Done (commits, err) w')
  /\ Github.GetCommitsFromAllBranches 3 Platform.gh0 "app" friday0
       Platform.console0 = Done (appCommits, None) Platform.console0
  /\ NoDup (shas appCommits)
  /\ count_occ string_dec (shas appCommits)
       (Github.Commit.SHA (Platform.toCommit Platform.root)) = 1%nat.
Proof.
  destruct (all_branches_each_commit_once 3 Platform.gh0 "app" friday0
              Platform.console0) as [Hreturns Hunique].
  assert (Hrun : Github.GetCommitsFromAllBranches 3 Platform.gh0 "app"
                   friday0 Platform.console0
                 = Done (appCommits, None) Platform.console0)
    by (vm_compute; reflexivity).
  destruct (Hunique appCommits None Platform.console0 Hrun) as [Hnd Honce].
  split.
  { apply (Hreturns 2); [|cbn; lia|lia].
    apply small_bounded. vm_compute; reflexivity. }
  split; [exact Hrun|]. split; [exact Hnd|].
  apply (Honce (fun q w1 w2 => eq_refl) appBranches Platform.console0
           (Platform.toBranch ("dev", [Platform.onDev; Platform.root;
                                       Platform.old]))
           Platform.console0 Platform.console0
           [Platform.toCommit Platform.onDev; Platform.toCommit Platform.root]
           (Platform.toCommit Platform.root)).
  - vm_compute; reflexivity.
  - right. left.
  - vm_compute; reflexivity.
  - right. left.
Defined.

Lemma no_branches_no_commits_witness :
  Github.GetCommitsFromAllBranches 3 Platform.gh0 "bare" friday0
    Platform.console0 = Done ([], None) Platform.console0
  /\ exists w',
      Github.GetCommitsFromAllBranches 3 Platform.gh0 "side" Platform.monday
        Platform.console0 = Done ([], None) w'.
Proof.
  destruct (no_branches_no_commits 3 Platform.gh0 "bare" friday0
              Platform.console0) as [Hbare _].
  destruct (no_branches_no_commits 3 Platform.gh0 "side" Platform.monday
              Platform.console0) as [_ Hside].
  split.
  - apply Hbare. vm_compute; reflexivity.
  - apply (Hside sideBranches Platform.console0).
    + vm_compute; reflexivity.
    + intros branch w2 Hin. exists w2.
      apply elem_of_cons in Hin as [->|Hin]; [vm_compute; reflexivity|].
      apply elem_of_cons in Hin as [->|Hin]; [vm_compute; reflexivity|].
      inversion Hin.
Defined.

(* ===================================================================== *)
(** ** The activity filter                                               *)
(* ===================================================================== *)

Section Filter.
Import GoTime Main.

Lemma recentLoop_filter c repos acc :
  recentLoop c repos acc = acc ++ List.filter (updatedSince c) repos.
Proof.
  revert acc. induction repos as [|r rest IH]; intros acc; cbn.
  - by rewrite app_nil_r.
  - unfold updatedSince at 1. destruct (After _ _); rewrite IH; [|done].
    by rewrite <- app_assoc.
Qed.

Lemma filter_sublist {A} (f : A -> bool) (l : list A) :
  sublist (List.filter f l) l.
Proof.
  induction l as [|x l IH]; cbn; [constructor|].
  destruct (f x); by constructor.
Qed.

Lemma filter_twice {A} (f : A -> bool) (l : list A) :
  List.filter f (List.filter f l) = List.filter f l.
Proof.
  induction l as [|x l IH]; cbn; [done|].
  destruct (f x) eqn:Hx; cbn; [rewrite Hx; by f_equal|done].
Qed.

Lemma recent_filter now gh daysBack :
  0 < daysBack ->
  GetRecentlyUpdatedRepos now gh daysBack
  = List.filter (updatedSince (AddDate now 0 0 (- daysBack)))
      (GitHub.repos gh).
Proof.
  intros Hpos. unfold GetRecentlyUpdatedRepos.
  destruct (Z.leb_spec daysBack 0); [lia|]. apply recentLoop_filter.
Qed.

End Filter.

Section Arrays.
Import GoTime GoSlice.
Context {A : Type} (zero : A) (growCap : nat -> nat).
Hypothesis grows : forall c, (c < growCap c)%nat.

(** [append] adds the element at the end, writes no array among the
    first [base] when the slice is fresh, and keeps it fresh. *)
Lemma append_spec (h : Heap A) s x base :
  wfSlice h s -> fresh base s -> (base <= length h)%nat ->
  let '(h', s') := append zero growCap h s x in
  wfSlice h' s' /\ fresh base s' /\ (base <= length h')%nat
  /\ elems h' s' = elems h s ++ [x]
  /\ forall p, (p <= base)%nat -> array h' p = array h p.
Proof.
  intros [Hlen Hwf] Hfresh Hbase. unfold append, fresh, wfSlice, elems in *.
  destruct (Nat.ltb_spec (len s) (cap s)) as [Hroom|Hfull];
    cbn [ptr len cap].
  - destruct (ptr s) as [|i] eqn:Hptr; [lia|].
    destruct Hwf as [Hi Harr]. destruct Hfresh as [?|Hfr]; [done|].
    cbn [array] in *.
    destruct (h !! i) as [arr|] eqn:Hh; [|cbn in Harr; lia].
    cbn [default] in *. unfold id in *.
    rewrite length_insert, list_lookup_insert_eq by done.
    cbn [default]. unfold id. rewrite length_insert.
    split_and!; try done; try lia.
    + rewrite take_S_r with (x := x).
      * by rewrite take_insert_ge by lia.
      * apply list_lookup_insert_eq. lia.
    + intros [|p] Hp; [done|]. cbn [array].
      by rewrite list_lookup_insert_ne by lia.
  - assert (Hcap : len s = cap s) by lia.
    pose proof (grows (cap s)) as Hg.
    assert (Hel : length (take (len s) (array h (ptr s))) = len s).
    { rewrite length_take.
      destruct (ptr s) as [|i]; [cbn; lia|].
      destruct Hwf as [_ Harr]. lia. }
    cbn [array]. rewrite length_app, lookup_app_r, Nat.sub_diag by lia.
    cbn [length lookup list_lookup default]. unfold id.
    rewrite length_app. cbn [length]. rewrite length_replicate.
    split_and!; try lia.
    + rewrite take_app_ge by lia. rewrite Hel.
      replace (S (len s) - len s)%nat with 1%nat by lia. done.
    + intros [|p] Hp; [done|]. cbn [array]. by rewrite lookup_app_l by lia.
Qed.

Lemma omap_lookup_seq (l : list A) n :
  (n <= length l)%nat -> omap (fun i => l !! i) (seq 0 n) = take n l.
Proof.
  induction n as [|n IH]; intros Hn; [done|].
  rewrite seq_S, omap_app, IH by lia. cbn [plus omap list_omap].
  destruct (lookup_lt_is_Some_2 l n ltac:(lia)) as [x Hx]. rewrite Hx.
  by rewrite (take_S_r l n x).
Qed.
End Arrays.

Section FilterOnArrays.
Import GoTime GoSlice.
Variable growCap : nat -> nat.
Hypothesis grows : forall c, (c < growCap c)%nat.

(** The loop on arrays gathers what the loop on lists gathers, into a
    fresh array, and writes none of the arrays it started from. *)
Lemma recentLoop_arrays cutoff src base orig :
  forall indices h recent,
    (base <= length h)%nat -> (ptr src <= base)%nat ->
    array h (ptr src) = orig ->
    Forall (fun i => (i < length orig)%nat) indices ->
    wfSlice h recent -> fresh base recent ->
    exists h' out,
      MainMem.recentLoop growCap cutoff src indices h recent = (h', out)
      /\ wfSlice h' out /\ fresh base out /\ (base <= length h')%nat
      /\ elems h' out
         = Main.recentLoop cutoff (omap (fun i => orig !! i) indices)
             (elems h recent)
      /\ forall p, (p <= base)%nat -> array h' p = array h p.
Proof.
  induction indices as [|i rest IH];
    intros h recent Hbase Hsrc Horig Hidx Hwf Hfr.
  - exists h, recent. cbn. done.
  - apply Forall_cons in Hidx as [Hi Hrest].
    cbn [MainMem.recentLoop omap list_omap].
    rewrite Horig. destruct (lookup_lt_is_Some_2 orig i Hi) as [repo Hrepo].
    rewrite Hrepo. cbn [Main.recentLoop].
    destruct (After _ _).
    + pose proof (append_spec MainMem.zeroRepo growCap grows h recent repo
                    base Hwf Hfr Hbase) as Happ.
      destruct (append _ _ h recent repo) as [h1 r1].
      destruct Happ as (Hwf1 & Hfr1 & Hbase1 & Hel1 & Hold1).
      assert (Hsrc1 : array h1 (ptr src) = orig) by (by rewrite Hold1).
      destruct (IH h1 r1 Hbase1 Hsrc Hsrc1 Hrest Hwf1 Hfr1)
        as (h' & out & Hrun & ? & ? & ? & Hel & Hold).
      exists h', out. rewrite Hrun, Hel, Hel1. split_and!; try done.
      intros p Hp. rewrite Hold by done. by apply Hold1.
    + by apply IH.
Qed.

Lemma filter_on_arrays now user src daysBack (h : Heap Main.Repo.t) :
  0 < daysBack -> wfSlice h src ->
  exists h' out,
    MainMem.GetRecentlyUpdatedRepos growCap now
      (MainMem.GitHub.mk user src) daysBack h = (h', out)
    /\ elems h' out
       = Main.GetRecentlyUpdatedRepos now
           (Main.GitHub.mk user (elems h src)) daysBack
    /\ (forall p, (p <= length h)%nat -> array h' p = array h p)
    /\ elems h' src = elems h src
    /\ fresh (length h) out.
Proof.
  intros Hgt Hwf.
  unfold MainMem.GetRecentlyUpdatedRepos, Main.GetRecentlyUpdatedRepos.
  cbn [MainMem.GitHub.repos Main.GitHub.repos].
  destruct (Z.leb_spec daysBack 0) as [Hle|_]; [lia|].
  set (cutoff := AddDate now 0 0 (- daysBack)).
  assert (Hsrc : (ptr src <= length h)%nat).
  { destruct Hwf as [_ Hp]. destruct (ptr src); lia. }
  assert (Hn : (len src <= length (array h (ptr src)))%nat).
  { destruct Hwf as [Hl Hp]. destruct (ptr src); [cbn; lia|]. lia. }
  assert (Hidx : Forall (fun i => (i < length (array h (ptr src)))%nat)
                   (seq 0 (len src))).
  { apply Forall_forall. intros i Hi. apply elem_of_seq in Hi. lia. }
  assert (Hnil : wfSlice h nilSlice) by (split; cbn; lia).
  assert (Hfr0 : fresh (length h) nilSlice) by (by left).
  destruct (recentLoop_arrays cutoff src (length h) (array h (ptr src))
              (seq 0 (len src)) h nilSlice (le_n _) Hsrc eq_refl Hidx
              Hnil Hfr0)
    as (h' & out & Hrun & Hwf' & Hfr & Hb & Hel & Hold).
  exists h', out. rewrite Hrun, Hel, omap_lookup_seq by done.
  split_and!; try done.
  unfold elems. by rewrite Hold.
Qed.
End FilterOnArrays.

(** Claim C2. Whenever [GetRecentlyUpdatedRepos] computes a cutoff
    [c] (it does for a positive number of days), it returns exactly the
    repositories updated strictly after [c], in their order in the
    stored list; applied to its own output it returns that output; and,
    on the backing arrays, it returns them in a fresh array and leaves
    the stored list and all earlier arrays as they were. *)
Theorem recent_repos_filter growCap now gh daysBack c h src :
  0 < daysBack ->
  GoTime.AddDate now 0 0 (- daysBack) = c ->
  (forall n, (n < growCap n)%nat) ->
  GoSlice.wfSlice h src ->
  GoSlice.elems h src = Main.GitHub.repos gh ->
  let out := Main.GetRecentlyUpdatedRepos now gh daysBack in
  out = List.filter (updatedSince c) (Main.GitHub.repos gh)
  /\ sublist out (Main.GitHub.repos gh)
  /\ (forall r, r ∈ out <->
        r ∈ Main.GitHub.repos gh
        /\ GoTime.After (Main.Repo.UpdatedAt r) c = true)
  /\ Main.GetRecentlyUpdatedRepos now
       (Main.GitHub.mk (Main.GitHub.user gh) out) daysBack = out
  /\ exists h' s,
      MainMem.GetRecentlyUpdatedRepos growCap now
        (MainMem.GitHub.mk (Main.GitHub.user gh) src) daysBack h = (h', s)
      /\ GoSlice.elems h' s = out
      /\ GoSlice.elems h' src = Main.GitHub.repos gh
      /\ (forall p, (p <= length h)%nat ->
            GoSlice.array h' p = GoSlice.array h p)
      /\ GoSlice.fresh (length h) s.
Proof.
  intros Hpos Hc Hgrow Hwf Hsrc out.
  assert (Hout : out = List.filter (updatedSince c) (Main.GitHub.repos gh))
    by (subst out c; by apply recent_filter).
  split; [done|]. split; [rewrite Hout; apply filter_sublist|]. split.
  { intros r. rewrite Hout, !list_elem_of_In, filter_In. done. }
  split.
  { rewrite recent_filter by done. cbn [Main.GitHub.repos].
    rewrite Hc, Hout. apply filter_twice. }
  destruct (filter_on_arrays growCap Hgrow now (Main.GitHub.user gh) src
              daysBack h Hpos Hwf) as (h' & s & Hrun & Hel & Hold & Hkeep & Hfr).
  exists h', s. rewrite Hsrc in Hel, Hkeep.
  destruct gh as [u rs]; cbn [Main.GitHub.repos Main.GitHub.user] in *.
  done.
Qed.

Lemma recent_repos_filter_witness :
  Main.GetRecentlyUpdatedRepos Desk.now0 Desk.gh0 7
  = [Desk.repoAt "a" (1718000000 - 2 * 86400)]
  /\ exists h' s,
      MainMem.GetRecentlyUpdatedRepos growDouble Desk.now0
        (MainMem.GitHub.mk Desk.user0 src0) 7 heap0 = (h', s)
      /\ GoSlice.elems h' src0 = Main.GitHub.repos Desk.gh0.
Proof.
  assert (Hgrow : forall n, (n < growDouble n)%nat).
  { intros n. unfold growDouble. destruct (Nat.eqb_spec n 0); lia. }
  assert (Hwf : GoSlice.wfSlice heap0 src0).
  { split; cbn; [lia|]. split; [lia|reflexivity]. }
  destruct (recent_repos_filter growDouble Desk.now0 Desk.gh0 7
              (GoTime.AddDate Desk.now0 0 0 (- 7)) heap0 src0
              ltac:(lia) eq_refl Hgrow Hwf eq_refl)
    as (Hout & _ & _ & _ & h' & s & Hrun & _ & Hkeep & _).
  split; [rewrite Hout; vm_compute; reflexivity|].
  exists h', s. split; [exact Hrun|exact Hkeep].
Defined.

(** Claim C10. With [daysBack <= 0], [GetRecentlyUpdatedRepos] returns
    the whole stored list, whatever the update times; on the backing
    arrays it returns the stored slice itself and writes nothing. *)
Theorem no_days_back_all_repos growCap now gh daysBack h src :
  daysBack <= 0 ->
  Main.GetRecentlyUpdatedRepos now gh daysBack = Main.GitHub.repos gh
  /\ MainMem.GetRecentlyUpdatedRepos growCap now
       (MainMem.GitHub.mk (Main.GitHub.user gh) src) daysBack h = (h, src).
Proof.
  intros Hle.
  unfold Main.GetRecentlyUpdatedRepos, MainMem.GetRecentlyUpdatedRepos.
  destruct (Z.leb_spec daysBack 0); [done|lia].
Qed.

Lemma no_days_back_all_repos_witness :
  Main.GetRecentlyUpdatedRepos Desk.now0 Desk.gh0 0
  = Main.GitHub.repos Desk.gh0
  /\ Main.GetRecentlyUpdatedRepos Desk.now0 Desk.gh0 (- 3)
     = Main.GitHub.repos Desk.gh0.
Proof.
  split.
  - exact (proj1 (no_days_back_all_repos growDouble Desk.now0 Desk.gh0 0
                    heap0 src0 ltac:(lia))).
  - exact (proj1 (no_days_back_all_repos growDouble Desk.now0 Desk.gh0 (- 3)
                    heap0 src0 ltac:(lia))).
Defined.

(* ===================================================================== *)
(** ** Short identifiers                                                 *)
(* ===================================================================== *)

Section ShortIdentifiers.
Import GoTime Main.

Lemma slicePrefix_Some s n :
  (n <= String.length s)%nat -> slicePrefix s n = Some (substring 0 n s).
Proof.
  intros Hn. unfold slicePrefix.
  destruct (Nat.leb_spec n (String.length s)); [done|lia].
Qed.

Lemma slicePrefix_None s n :
  (String.length s < n)%nat -> slicePrefix s n = None.
Proof.
  intros Hn. unfold slicePrefix.
  destruct (Nat.leb_spec n (String.length s)); [lia|done].
Qed.

Context {W : Type} `{Remote W}.

Lemma convertLoop_panics name cs :
  shortSHA cs ->
  forall acc w,
    convertLoop name cs acc w = Panicked "slice bounds out of range" w.
Proof.
  induction cs as [|c cs IH]; intros Hex acc w; [by inversion Hex|].
  cbn [convertLoop].
  destruct (Nat.leb_spec 8 (String.length (CommitResponse.SHA c)))
    as [Hlong|Hshort].
  - rewrite slicePrefix_Some by done. apply IH.
    inversion Hex; subst; [lia|done].
  - by rewrite slicePrefix_None.
Qed.

Lemma convertLoop_cuts name cs :
  longSHAs cs ->
  forall acc w,
    exists out,
      convertLoop name cs acc w = Done (acc ++ out) w
      /\ Commit.SHA <$> out = cutSHA <$> cs.
Proof.
  induction 1 as [|c cs Hc Hcs IH]; intros acc w; cbn [convertLoop].
  - exists []. by rewrite app_nil_r.
  - rewrite slicePrefix_Some by done.
    match goal with
    | |- context [convertLoop name cs (acc ++ [?r]) w] =>
        destruct (IH (acc ++ [r]) w) as (out & -> & Hout); exists (r :: out)
    end.
    split; [by rewrite <- app_assoc|].
    cbn [fmap list_fmap]. by rewrite <- Hout.
Qed.

Lemma latestLoop_cuts (Inv : W -> Prop) gh since repoNames :
  (forall q w, Inv w ->
     Inv (fetchCommits q w).2
     /\ match (fetchCommits q w).1 with
        | Decoded cs => longSHAs cs
        | _ => True
        end) ->
  forall acc w, Inv w ->
    exists out w',
      latestLoop gh since repoNames acc w = Done (acc ++ out) w'
      /\ Commit.SHA <$> out = cutSHA <$> decodedAlong gh since repoNames w.
Proof.
  intros Hlong. induction repoNames as [|rn rest IH]; intros acc w Hw;
    cbn [latestLoop decodedAlong].
  - exists [], w. by rewrite app_nil_r.
  - unfold bind, perform.
    match goal with
    | |- context [fetchCommits ?q w] => destruct (Hlong q w Hw) as [Hw1 Hcs]
    end.
    destruct (fetchCommits _ w) as [r w1]. cbn [fst snd] in *.
    destruct r; try by apply IH.
    destruct (convertLoop_cuts (SplitHead rn " (") v Hcs acc w1)
      as (out1 & -> & Hout1).
    destruct (IH (acc ++ out1) w1 Hw1) as (out2 & w' & -> & Hout2).
    exists (out1 ++ out2), w'. split; [by rewrite <- app_assoc|].
    by rewrite !fmap_app, Hout1, Hout2.
Qed.

(** Claim C9. [GetLatestCommits] cuts each identifier with
    [c.SHA[:8]]: when every decoded identifier has at least 8
    characters it returns, and the identifiers of its records are
    the first 8 characters of the decoded identifiers, in the order
    of the requests; it panics, rather than returning an error, when
    a decoded response holds a shorter one; [Commit.String] cuts the
    same way. *)
Theorem short_sha_panics now gh daysBack :
  (forall (Inv : W -> Prop) repoNames w,
      (forall q w1, Inv w1 ->
         Inv (fetchCommits q w1).2
         /\ match (fetchCommits q w1).1 with
            | Decoded cs => longSHAs cs
            | _ => True
            end) ->
      Inv w ->
      exists commits w',
        GetLatestCommits now gh repoNames daysBack w
        = Done (commits, None) w'
        /\ Commit.SHA <$> commits
           = cutSHA <$> decodedAlong gh (AddDate now 0 0 (- daysBack))
                          repoNames w)
  /\ (forall repoName rest w cs w1,
         fetchCommits
           (mkCommitsQuery (username (GitHub.user gh))
              (SplitHead repoName " (") (AddDate now 0 0 (- daysBack))
              (apiKey (GitHub.user gh))) w
         = (Decoded cs, w1) ->
         shortSHA cs ->
         GetLatestCommits now gh (repoName :: rest) daysBack w
         = Panicked "slice bounds out of range" w1)
  /\ (forall c : Github.Commit.t,
         Github.Commit.String c = None
         <-> (String.length (Github.Commit.SHA c) < 8)%nat).
Proof.
  split; [|split].
  - intros Inv repoNames w Hlong Hw. unfold GetLatestCommits, bind.
    destruct (latestLoop_cuts Inv gh (AddDate now 0 0 (- daysBack))
                repoNames Hlong [] w Hw) as (out & w' & -> & Hout).
    by exists out, w'.
  - intros repoName rest w cs w1 Hq Hex.
    unfold GetLatestCommits, bind. cbn [latestLoop].
    unfold bind, perform. rewrite Hq. by rewrite convertLoop_panics.
  - intros c. unfold Github.Commit.String.
    destruct (Nat.leb_spec 8 (String.length (Github.Commit.SHA c))).
    + rewrite slicePrefix_Some by done. split; [done|lia].
    + by rewrite slicePrefix_None.
Qed.

End ShortIdentifiers.

Lemma short_sha_panics_witness :
  (exists commits w',
      Main.GetLatestCommits Desk.now0 Desk.gh0 ["api (Go) - Updated: 2024-06-09"]
        7 (Desk.serving [Desk.response "abc123d4e5f6a7b8"])
      = Done (commits, None) w'
      /\ Main.Commit.SHA <$> commits = ["abc123d4"])
  /\ Main.GetLatestCommits Desk.now0 Desk.gh0
       ["api (Go) - Updated: 2024-06-09"] 7
       (Desk.serving [Desk.response "abc12"])
     = Panicked "slice bounds out of range"
         (Desk.serving [Desk.response "abc12"]).
Proof.
  destruct (short_sha_panics (W := Desk.World) Desk.now0 Desk.gh0 7)
    as (Hsafe & Hpanic & _).
  split.
  - apply (Hsafe (fun w => Desk.commitsReply w
                           = Decoded [Desk.response "abc123d4e5f6a7b8"])).
    + intros q w1 Hw1. split; [exact Hw1|]. cbn. rewrite Hw1.
      constructor; [cbn; lia|constructor].
    + reflexivity.
  - apply (Hpanic _ _ _ [Desk.response "abc12"]).
    + reflexivity.
    + left. cbn. lia.
Defined.

(* ===================================================================== *)
(** ** The summary                                                       *)
(* ===================================================================== *)

Section Digest.
Import Main.

Lemma firstSeenFrom_spec commits :
  forall names,
    NoDup names ->
    NoDup (firstSeenFrom names commits)
    /\ forall k, k ∈ firstSeenFrom names commits <->
         k ∈ names \/ exists c, c ∈ commits /\ Commit.RepoName c = k.
Proof.
  induction commits as [|c rest IH]; intros names Hnd; cbn [firstSeenFrom].
  - split; [done|]. intros k. split; [by left|].
    intros [?|(c & Hc & _)]; [done|inversion Hc].
  - case_bool_decide as Hin.
    + destruct (IH names Hnd) as [Hnd' Hel]. split; [done|].
      intros k. rewrite Hel. split.
      * intros [?|(c' & Hc' & <-)]; [by left|].
        right. exists c'. split; [by right|done].
      * intros [?|(c' & Hc' & <-)]; [by left|].
        apply elem_of_cons in Hc' as [->|Hc']; [by left|].
        right. by exists c'.
    + assert (Hnd1 : NoDup (names ++ [Commit.RepoName c])).
      { apply NoDup_app. split; [done|]. split; [|apply NoDup_singleton].
        intros x Hx Hx'. apply list_elem_of_singleton in Hx'. by subst. }
      destruct (IH _ Hnd1) as [Hnd' Hel]. split; [done|].
      intros k. rewrite Hel.
      rewrite elem_of_app, list_elem_of_singleton. split.
      * intros [[?| ->]|(c' & Hc' & <-)]; [by left| |].
        -- right. exists c. split; [by left|done].
        -- right. exists c'. split; [by right|done].
      * intros [?|(c' & Hc' & <-)]; [by left; left|].
        apply elem_of_cons in Hc' as [->|Hc']; [by left; right|].
        right. by exists c'.
Qed.

Lemma firstSeen_NoDup commits : NoDup (firstSeen commits).
Proof. apply firstSeenFrom_spec. constructor. Qed.

Lemma firstSeen_elem commits k :
  k ∈ firstSeen commits <-> exists c, c ∈ commits /\ Commit.RepoName c = k.
Proof.
  unfold firstSeen.
  destruct (firstSeenFrom_spec commits [] (NoDup_nil_2)) as [_ Hel].
  rewrite Hel. split; [intros [Hk|?]; [inversion Hk|done]|by right].
Qed.

Lemma group_fold commits :
  forall (m : gmap string (list Commit.t)) k,
    fold_left groupStep commits m !! k
    = match byRepo k commits with
      | [] => m !! k
      | cs => Some (default [] (m !! k) ++ cs)
      end.
Proof.
  induction commits as [|c rest IH]; intros m k; [done|].
  cbn [fold_left]. rewrite IH. unfold byRepo. cbn [List.filter].
  unfold groupStep at 1 2.
  destruct (String.eqb_spec (Commit.RepoName c) k) as [->|Hne].
  - rewrite lookup_insert_eq. cbn [default].
    destruct (List.filter _ rest) as [|c1 l]; [done|].
    unfold id. f_equal. by rewrite <- app_assoc.
  - by rewrite lookup_insert_ne.
Qed.

(** The map holds, for each repository, its commits in list order. *)
Lemma groupByRepo_lookup commits k :
  groupByRepo commits !! k
  = match byRepo k commits with [] => None | cs => Some cs end.
Proof.
  unfold groupByRepo. change (fun repoCommits commit => _) with groupStep.
  rewrite group_fold. rewrite lookup_empty. by destruct (byRepo k commits).
Qed.

Lemma byRepo_nonempty commits k :
  byRepo k commits <> [] <->
  exists c, c ∈ commits /\ Commit.RepoName c = k.
Proof.
  unfold byRepo. split.
  - intros Hne. destruct (List.filter _ commits) as [|c l] eqn:Hf; [done|].
    assert (Hin : In c (List.filter
                          (fun c => String.eqb (Commit.RepoName c) k)
                          commits))
      by (rewrite Hf; by left).
    apply filter_In in Hin as [Hin Heq]. exists c.
    split; [by apply list_elem_of_In|]. by apply String.eqb_eq.
  - intros (c & Hc & Hk) Hnil.
    assert (Hin : In c (List.filter
                          (fun c => String.eqb (Commit.RepoName c) k)
                          commits)).
    { apply filter_In. split; [by apply list_elem_of_In|].
      by apply String.eqb_eq. }
    rewrite Hnil in Hin. done.
Qed.

Lemma keys_elem {V} (m : gmap string V) k : k ∈ keys m <-> is_Some (m !! k).
Proof.
  unfold keys. rewrite list_elem_of_fmap. split.
  - intros ([k' v] & -> & Hin). apply elem_of_map_to_list in Hin.
    by exists v.
  - intros [v Hv]. exists (k, v). split; [done|].
    by apply elem_of_map_to_list.
Qed.

Lemma keys_group_perm commits :
  Permutation (keys (groupByRepo commits)) (firstSeen commits).
Proof.
  apply NoDup_Permutation.
  - apply NoDup_fst_map_to_list.
  - apply firstSeen_NoDup.
  - intros k.
    rewrite keys_elem, firstSeen_elem, <- byRepo_nonempty,
      groupByRepo_lookup.
    destruct (byRepo k commits); split; intros Hx; try done.
Qed.

Context {W : Type} `{Remote W} `{GoRuntime W}.

(** Claim C4. On the empty list [GenerateSummary] returns the fixed
    sentence and a nil error, and leaves the world as it was: no
    request is made. *)
Theorem empty_summary llm w :
  GenerateSummary llm [] w
  = Done ("No commits found in the specified time period.", None) w.
Proof. reflexivity. Qed.

(** Claim C5, amended. For a non-empty list and a response that
    decodes, [GenerateSummary] returns the fallback sentence and a nil
    error when there is no candidate or the first candidate has no
    part; when the first candidate has a part, it returns the text of
    that part as it is, with a nil error. *)
Theorem fallback_without_parts llm commits w order w1 resp w2 :
  commits <> [] ->
  rangeOrder (keys (groupByRepo commits)) w = (order, w1) ->
  generateContent
    (summaryCall llm
       (promptFor (commitDetails order (groupByRepo commits)))) w1
  = (Decoded resp, w2) ->
  ((GeminiResponse.Candidates resp = []
    \/ exists c rest,
        GeminiResponse.Candidates resp = c :: rest
        /\ GeminiContent.Parts (GeminiCandidate.Content c) = []) ->
   GenerateSummary llm commits w = Done (fallback, None) w2)
  /\ (forall c rest part parts,
         GeminiResponse.Candidates resp = c :: rest ->
         GeminiContent.Parts (GeminiCandidate.Content c) = part :: parts ->
         GenerateSummary llm commits w
         = Done (GeminiPart.Text part, None) w2).
Proof.
  intros Hne Horder Hcall. unfold GenerateSummary, summaryCall in *.
  destruct commits as [|c0 cs]; [done|]. cbn [length Nat.eqb].
  unfold buildPrompt, bind, perform, ret. rewrite Horder, Hcall. split.
  - intros [->|(c & rest & -> & ->)]; done.
  - intros c rest part parts -> ->. done.
Qed.


End Digest.

Lemma fallback_without_parts_witness :
  Main.GenerateSummary Desk.llm0 Desk.twoRepos
    (Desk.quiet Desk.noCandidates false)
  = Done (fallback, None)
      (Desk.mkWorld false (Decoded []) Desk.noCandidates
         [summaryCall Desk.llm0
            (Main.promptFor
               (Main.commitDetails ["web"; "api"]
                  (Main.groupByRepo Desk.twoRepos)))]).
Proof.
  refine (proj1 (fallback_without_parts Desk.llm0 Desk.twoRepos
                   (Desk.quiet Desk.noCandidates false) ["web"; "api"]
                   (Desk.quiet Desk.noCandidates false)
                   (Main.GeminiResponse.mk []) _ _ _ _) _).
  - discriminate.
  - vm_compute; reflexivity.
  - reflexivity.
  - left. reflexivity.
Defined.

(** Claim C5 as stated fails: a first candidate whose only part has an
    empty text makes [GenerateSummary] return the empty string. *)
Lemma empty_text_no_fallback :
  ~ (forall (llm : Main.LLMService.t) (commits : list Main.Commit.t)
            (w : Desk.World) resp,
        commits <> [] ->
        Desk.geminiReply w = Decoded resp ->
        Main.GeminiResponse.Candidates resp = [] \/ firstText resp = "" ->
        exists w', Main.GenerateSummary llm commits w
                   = Done (fallback, None) w').
Proof.
  intros Hclaim.
  destruct (Hclaim Desk.llm0 Desk.twoRepos
              (Desk.quiet (Desk.textReply [Main.GeminiPart.mk ""]) false)
              (Main.GeminiResponse.mk
                 [Main.GeminiCandidate.mk
                    (Main.GeminiContent.mk [Main.GeminiPart.mk ""])]))
    as [w' Hrun].
  - discriminate.
  - reflexivity.
  - right. reflexivity.
  - vm_compute in Hrun. discriminate.
Qed.



(* ===================================================================== *)
(** ** Repositories with recent commits                                  *)
(* ===================================================================== *)

(** Claim C6 fails on the code. The repository [me/side] passes the
    update-time filter and has a commit after the cutoff on its branch
    [dev]; [hasCommitsSince] asks for the commits of the default branch
    only, finds none, and the report leaves the repository out, while
    [GetRepositoryCommits], which goes through the branches, finds the
    commit. *)
Theorem recent_branch_commit_missed :
  GithubClient.updatedAfter (Platform.toRepository Platform.side) friday0
  = true
  /\ GoTime.After (Platform.hcDate Platform.onDev) friday0 = true
  /\ Platform.lookupBranch (Platform.hrBranches Platform.side) "dev"
     = Some [Platform.onDev; Platform.old]
  /\ GithubClient.hasCommitsSince "me/side" friday0 Platform.console0
     = Done (false, None) Platform.console0
  /\ (exists repos w',
         GithubClient.GetRepositoriesWithRecentCommits 3 "me" friday0
           Platform.console0 = Done (repos, None) w'
         /\ "me/app" ∈ (GithubClient.RepositoryInfo.FullName <$> repos)
         /\ "me/side" ∉ (GithubClient.RepositoryInfo.FullName <$> repos))
  /\ (exists commits w',
         GithubClient.GetRepositoryCommits 3 "me/side" friday0
           Platform.console0 = Done (commits, None) w'
         /\ GithubClient.CommitInfo.SHA <$> commits
            = [Platform.hcSHA Platform.onDev]).
Proof.
  split; [reflexivity|]. split; [reflexivity|]. split; [reflexivity|].
  split; [vm_compute; reflexivity|]. split.
  - eexists _, _. split; [vm_compute; reflexivity|]. split.
    + cbn. by left.
    + cbn. intros Hin. apply list_elem_of_singleton in Hin. discriminate.
  - eexists _, _. split; [vm_compute; reflexivity|]. reflexivity.
Qed.

(* ===================================================================== *)
(** ** Configuration and start-up                                        *)
(* ===================================================================== *)

Section ConfigFacts.
Import Config MainSetup.
Context {W : Type} `{ReposRemote W}.

Lemma LoadConfig_DaysBack env :
  DaysBack (LoadConfig env)
  = match Strconv.Atoi (env "DAYS_BACK") with
    | Some days => if 0 <? days then days else 7
    | None => 7
    end.
Proof.
  unfold LoadConfig.
  assert (Hp : forall c,
            DaysBack
              (if negb (String.eqb (env "PER_PAGE") "")
               then match Strconv.Atoi (env "PER_PAGE") with
                    | Some perPage =>
                        if 0 <? perPage then withPerPage c perPage else c
                    | None => c
                    end
               else c) = DaysBack c).
  { intros c. destruct (negb _); [|done].
    destruct (Strconv.Atoi _) as [p|]; [|done]. by destruct (0 <? p). }
  rewrite Hp.
  destruct (String.eqb_spec (env "DAYS_BACK") "") as [Heq|_];
    [rewrite Heq; reflexivity|].
  cbn [negb].
  destruct (Strconv.Atoi (env "DAYS_BACK")) as [d|]; [|done].
  by destruct (0 <? d).
Qed.

Lemma LoadConfig_PerPage env :
  PerPage (LoadConfig env)
  = match Strconv.Atoi (env "PER_PAGE") with
    | Some perPage => if 0 <? perPage then perPage else 10
    | None => 10
    end.
Proof.
  unfold LoadConfig.
  set (c := if negb (String.eqb (env "DAYS_BACK") "") then _ else _).
  assert (Hc : PerPage c = 10).
  { subst c. destruct (negb _); [|done].
    destruct (Strconv.Atoi _) as [d|]; [|done]. by destruct (0 <? d). }
  destruct (String.eqb_spec (env "PER_PAGE") "") as [Heq|_];
    [rewrite Heq; exact Hc|].
  cbn [negb].
  destruct (Strconv.Atoi (env "PER_PAGE")) as [p|]; [|done].
  by destruct (0 <? p).
Qed.

Lemma LoadConfig_positive env :
  0 < DaysBack (LoadConfig env) /\ 0 < PerPage (LoadConfig env).
Proof.
  rewrite LoadConfig_DaysBack, LoadConfig_PerPage.
  destruct (Strconv.Atoi (env "DAYS_BACK")) as [d|];
    [destruct (Z.ltb_spec 0 d)|];
    (destruct (Strconv.Atoi (env "PER_PAGE")) as [p|];
     [destruct (Z.ltb_spec 0 p)|]); lia.
Qed.


(** Extra X2. [Validate] accepts a configuration exactly when the
    token, the key and the user name are all set; an accepted
    configuration never makes [NewGithub] stop on an empty option:
    the client sends the one request for the repositories of the user,
    stops with a fatal message on each of its four failures, and holds
    the decoded repositories otherwise. *)
Theorem validated_config_loads (c : Config.t) w :
  (Validate c = None <->
   GitHubToken c <> "" /\ GeminiKey c <> "" /\ Config.Username c <> "")
  /\ (Validate c = None ->
      NewGithub (optionsOf c) w
      = match fetchRepos
                (mkReposQuery (Config.Username c) (GitHubToken c)) w with
        | (Decoded repos, w') =>
            Done (Returned
                    (Main.GitHub.mk
                       (Main.mkUser (Config.Username c) (GitHubToken c))
                       repos)) w'
        | (NewRequestFailed _, w') =>
            Done (Fatal "failed to create request") w'
        | (DoFailed _, w') => Done (Fatal "failed to do request") w'
        | (ReadFailed _, w') => Done (Fatal "failed to read data") w'
        | (UnmarshalFailed _, w') =>
            Done (Fatal "failed to unmarshal data") w'
        end).
Proof.
  assert (Hiff : Validate c = None <->
            GitHubToken c <> "" /\ GeminiKey c <> ""
            /\ Config.Username c <> "").
  { unfold Validate.
    destruct (String.eqb_spec (GitHubToken c) ""); [split; [done|tauto]|].
    destruct (String.eqb_spec (GeminiKey c) ""); [split; [done|tauto]|].
    destruct (String.eqb_spec (Config.Username c) "");
      [split; [done|tauto]|].
    done. }
  split; [done|]. intros Hv. apply Hiff in Hv as (Ht & _ & Hu).
  unfold NewGithub, optionsOf. cbn [APIKey MainSetup.Username].
  apply String.eqb_neq in Ht, Hu. rewrite Ht, Hu.
  unfold LoadReposFromUser, bind, perform. cbn.
  destruct (fetchRepos _ w) as [[] w']; done.
Qed.
End ConfigFacts.

Lemma validated_config_loads_witness :
  Config.Validate (Config.LoadConfig env0) = None
  /\ MainSetup.NewGithub (optionsOf (Config.LoadConfig env0))
       (Desk.quiet Desk.noCandidates false)
     = Done (Returned gh3) (Desk.quiet Desk.noCandidates false).
Proof.
  split; [reflexivity|].
  exact (proj2 (validated_config_loads (Config.LoadConfig env0)
                  (Desk.quiet Desk.noCandidates false)) eq_refl).
Defined.

(* ===================================================================== *)
(** ** The choices of the repository list                                *)
(* ===================================================================== *)

Section Choices.
Import GoTime Main.

Lemma prefix_cons a s1 b s2 :
  String.prefix (String a s1) (String b s2)
  = if ascii_dec a b then String.prefix s1 s2 else false.
Proof. reflexivity. Qed.

Lemma prefix_nil s : String.prefix "" s = true.
Proof. by destruct s. Qed.

Lemma prefix_paren c d x y :
  String.prefix " (" (String c (String d x))
  = String.prefix " (" (String c (String d y)).
Proof. rewrite !prefix_cons, !prefix_nil. done. Qed.

Lemma prefix_paren_short c : String.prefix " (" (String c " (") = false.
Proof.
  rewrite !prefix_cons. destruct (ascii_dec " " c); [|done].
  by destruct (ascii_dec "(" " ").
Qed.

Lemma SplitHead_clean name rest :
  occurs " (" name = false ->
  SplitHead (name +:+ " (" +:+ rest) " (" = name.
Proof.
  induction name as [|c name IH]; intros Hclean.
  - change ("" +:+ " (" +:+ rest) with (String " " (String "(" rest)).
    cbn [SplitHead]. rewrite !prefix_cons, prefix_nil.
    destruct (ascii_dec " " " "); [|done]. by destruct (ascii_dec "(" "(").
  - cbn [occurs] in Hclean. apply orb_false_elim in Hclean as [Hhere Hlater].
    change (String c name +:+ " (" +:+ rest)
      with (String c (name +:+ " (" +:+ rest)).
    cbn [SplitHead].
    assert (Hp : String.prefix " (" (String c (name +:+ " (" +:+ rest))
                 = false).
    { destruct name as [|d name'].
      - change ("" +:+ " (" +:+ rest) with (String " " (String "(" rest)).
        rewrite (prefix_paren c " " _ "("). apply prefix_paren_short.
      - change (String d name' +:+ " (" +:+ rest)
          with (String d (name' +:+ " (" +:+ rest)).
        by rewrite (prefix_paren c d _ name'). }
    rewrite Hp. f_equal. by apply IH.
Qed.

Lemma SplitHead_dirty name rest :
  occurs " (" name = true ->
  (String.length (SplitHead (name +:+ rest) " (") < String.length name)%nat.
Proof.
  induction name as [|c name IH]; intros Hocc; [done|].
  change (String c name +:+ rest) with (String c (name +:+ rest)).
  cbn [SplitHead String.length].
  destruct (String.prefix " (" (String c (name +:+ rest))) eqn:Hp;
    [cbn; lia|].
  cbn [occurs] in Hocc. apply orb_prop in Hocc as [Hhere|Hlater].
  - destruct name as [|d name'].
    { rewrite prefix_cons in Hhere. by destruct (ascii_dec " " c). }
    change (String d name' +:+ rest) with (String d (name' +:+ rest)) in Hp.
    rewrite (prefix_paren c d _ name') in Hp. congruence.
  - cbn [String.length]. specialize (IH Hlater). lia.
Qed.

Lemma choices_fmap (repos : list Repo.t) acc :
  fold_left (fun choices r => choices ++ [Repo.String r]) repos acc
  = acc ++ (Repo.String <$> repos).
Proof.
  revert acc. induction repos as [|r rest IH]; intros acc; cbn.
  - by rewrite app_nil_r.
  - by rewrite IH, <- app_assoc.
Qed.

(** Extra X3. [GetLatestCommits] reads the name of a repository back
    from its choice by cutting at the first [" ("]. For a name
    without [" ("] this gives the name [Repo.String] started from, so
    the names read back from the choices of
    [GetRecentlyUpdatedReposChoices] are those of
    [GetRecentlyUpdatedRepos], in order; for a name that contains
    [" ("] it gives a strictly shorter string, not the name. *)
Theorem choice_names_round_trip :
  (forall r, occurs " (" (Repo.Name r) = false ->
             SplitHead (Repo.String r) " (" = Repo.Name r)
  /\ (forall r, occurs " (" (Repo.Name r) = true ->
                (String.length (SplitHead (Repo.String r) " (")
                 < String.length (Repo.Name r))%nat)
  /\ (forall now gh daysBack,
         Forall (fun r => occurs " (" (Repo.Name r) = false)
           (GitHub.repos gh) ->
         (fun choice => SplitHead choice " (")
           <$> GetRecentlyUpdatedReposChoices now gh daysBack
         = Repo.Name <$> GetRecentlyUpdatedRepos now gh daysBack).
Proof.
  split; [|split].
  - intros r Hclean. unfold Repo.String.
    by apply (SplitHead_clean (Repo.Name r)
                (Repo.Language r +:+ ") - Updated: "
                 +:+ FormatDate (Repo.UpdatedAt r))).
  - intros r Hocc. unfold Repo.String. by apply SplitHead_dirty.
  - intros now gh daysBack Hall. unfold GetRecentlyUpdatedReposChoices.
    rewrite choices_fmap. cbn [app].
    assert (Hsub : Forall (fun r => occurs " (" (Repo.Name r) = false)
                     (GetRecentlyUpdatedRepos now gh daysBack)).
    { unfold GetRecentlyUpdatedRepos. destruct (daysBack <=? 0); [done|].
      rewrite recentLoop_filter. cbn [app].
      rewrite Forall_forall in *. intros r Hr. apply Hall.
      apply list_elem_of_In in Hr. apply filter_In in Hr as [Hr _].
      by apply list_elem_of_In. }
    induction Hsub as [|r rs Hr Hrs IH]; [done|].
    cbn [fmap list_fmap]. f_equal; [|apply IH].
    unfold Repo.String.
    by apply (SplitHead_clean (Repo.Name r)
                (Repo.Language r +:+ ") - Updated: "
                 +:+ FormatDate (Repo.UpdatedAt r))).
Qed.
End Choices.

Lemma choice_names_round_trip_witness :
  Main.SplitHead (Main.Repo.String (Desk.repoAt "a" 1717996400)) " (" = "a"
  /\ (String.length
        (Main.SplitHead (Main.Repo.String (Desk.repoAt "a (old)" 1717996400))
           " (")
      < String.length "a (old)")%nat
  /\ (fun choice => Main.SplitHead choice " (")
       <$> Main.GetRecentlyUpdatedReposChoices Desk.now0 gh3 1
     = Main.Repo.Name <$> Main.GetRecentlyUpdatedRepos Desk.now0 gh3 1.
Proof.
  destruct choice_names_round_trip as (Hclean & Hdirty & Hall).
  split; [exact (Hclean (Desk.repoAt "a" 1717996400) eq_refl)|].
  split; [exact (Hdirty (Desk.repoAt "a (old)" 1717996400) eq_refl)|].
  apply Hall. repeat constructor.
Defined.

(* ===================================================================== *)
(** ** What [GetLatestCommits] returns                                   *)
(* ===================================================================== *)

Section Latest.
Import GoTime Main.
Context {W : Type} `{Remote W}.

Lemma length_substring_whole n s :
  (n <= String.length s)%nat -> String.length (substring 0 n s) = n.
Proof.
  revert s. induction n as [|n IH]; intros s Hn; [by destruct s|].
  destruct s as [|c s]; cbn in *; [lia|]. rewrite IH; [done|lia].
Qed.

Lemma convertLoop_cut names name cs :
  name ∈ names ->
  forall acc w out w',
    Forall (cut names) acc ->
    convertLoop name cs acc w = Done out w' -> Forall (cut names) out.
Proof.
  intros Hname. induction cs as [|c cs IH]; intros acc w out w' Hacc Hrun.
  - cbn in Hrun. unfold ret in Hrun. by simplify_eq.
  - cbn [convertLoop] in Hrun. unfold slicePrefix in Hrun.
    destruct (Nat.leb_spec 8 (String.length (CommitResponse.SHA c)));
      [|done].
    eapply IH; [|exact Hrun]. apply Forall_app. split; [done|].
    apply Forall_singleton. split; cbn; [by apply length_substring_whole|done].
Qed.

Lemma latestLoop_cut gh since names repoNames :
  (forall rn, rn ∈ repoNames -> SplitHead rn " (" ∈ names) ->
  forall acc w out w',
    Forall (cut names) acc ->
    latestLoop gh since repoNames acc w = Done out w' ->
    Forall (cut names) out.
Proof.
  induction repoNames as [|rn rest IH]; intros Hsub acc w out w' Hacc Hrun.
  - cbn in Hrun. unfold ret in Hrun. by simplify_eq.
  - cbn [latestLoop] in Hrun. unfold bind, perform in Hrun.
    assert (Hrest : forall rn', rn' ∈ rest -> SplitHead rn' " (" ∈ names)
      by (intros; apply Hsub; by right).
    destruct (fetchCommits _ w) as [r w1].
    destruct r; try by (eapply IH; eauto).
    destruct (convertLoop _ v acc w1) as [acc' w2|?|] eqn:Hconv; try done.
    eapply (IH Hrest); [|exact Hrun].
    eapply convertLoop_cut; [|exact Hacc|exact Hconv]. apply Hsub. by left.
Qed.

(** Extra X4. Whatever [GetLatestCommits] returns, its error is nil
    (a repository whose request fails is skipped without a trace),
    every commit carries an identifier of exactly 8 characters, and
    every commit is filed under the name read back from one of the
    choices handed in. *)
Theorem latest_commits_cut now gh repoNames daysBack w commits err w' :
  GetLatestCommits now gh repoNames daysBack w = Done (commits, err) w' ->
  err = None
  /\ Forall (cut ((fun rn => SplitHead rn " (") <$> repoNames)) commits.
Proof.
  unfold GetLatestCommits, bind. intros Hrun.
  destruct (latestLoop _ _ _ _ w) as [out w1|?|] eqn:Hloop; try done.
  unfold ret in Hrun. simplify_eq. split; [done|].
  eapply (latestLoop_cut gh _ ((fun rn => SplitHead rn " (") <$> repoNames));
    [|constructor|exact Hloop].
  intros rn Hrn. apply list_elem_of_fmap. by exists rn.
Qed.
End Latest.

Lemma latest_commits_cut_witness :
  exists commits w',
    Main.GetLatestCommits Desk.now0 Desk.gh0 ["a (Go) - Updated: 2024-06-08"]
      1 (Desk.serving [Desk.response "abc123d4e5f6"])
    = Done (commits, None) w'
    /\ length commits = 1%nat
    /\ Forall (cut ["a"]) commits.
Proof.
  destruct (Main.GetLatestCommits Desk.now0 Desk.gh0
              ["a (Go) - Updated: 2024-06-08"] 1
              (Desk.serving [Desk.response "abc123d4e5f6"]))
    as [[commits err] w'|s w'|] eqn:Hrun;
    [|by vm_compute in Hrun|by vm_compute in Hrun].
  destruct (latest_commits_cut _ _ _ _ _ _ _ _ Hrun) as [-> Hcut].
  exists commits, w'. split; [reflexivity|]. split; [|exact Hcut].
  vm_compute in Hrun. by injection Hrun as <- <-.
Defined.

(* ===================================================================== *)
(** ** The day menu                                                      *)
(* ===================================================================== *)

Section Menu.
Import GoTime MainMenu.

Lemma day_suffix_small day :
  1 <= day <= 31 -> getDaySuffix day = ordinalSuffix day.
Proof.
  intros Hday.
  assert (Hn : exists n, day = Z.of_nat n /\ (n < 32)%nat)
    by (exists (Z.to_nat day); lia).
  destruct Hn as (n & -> & Hn).
  do 32 (destruct n as [|n]; [by vm_compute|]). lia.
Qed.

(** Extra X5. On the days of a month, 1 to 31, [getDaySuffix] is the
    English ordinal suffix (11th, 12th and 13th included); so it is
    on the day of every date, and every label of the day menu reads
    month, day and the ordinal suffix of the day. *)
Theorem day_suffix_ordinal :
  (forall day, 1 <= day <= 31 -> getDaySuffix day = ordinalSuffix day)
  /\ (forall t, getDaySuffix (Day t) = ordinalSuffix (Day t))
  /\ (forall today o,
         o ∈ getLast7Days today ->
         DayOption.label o
         = FormatMonthName (DayOption.date o) +:+ ", "
           +:+ appendInt (Day (DayOption.date o)) 0
           +:+ ordinalSuffix (Day (DayOption.date o))).
Proof.
  split; [exact day_suffix_small|]. split.
  - intros t. apply day_suffix_small. apply civil_day_range.
  - intros today o Ho. unfold getLast7Days in Ho. cbn [fold_left app] in Ho.
    repeat (apply elem_of_cons in Ho as [->|Ho];
            [cbn [DayOption.label DayOption.date optionAt];
             rewrite day_suffix_small by apply civil_day_range;
             reflexivity|]).
    inversion Ho.
Qed.

Lemma menu_windows today :
  (DayOption.daysBack <$> getLast7Days today) = [1; 2; 3; 4; 5; 6; 7].
Proof. reflexivity. Qed.

(** Extra X6. The day menu has seven entries, for today and the six
    days before, in this order; their windows are 1, 2, ..., 7 days
    (today and the entry of yesterday differ by one day); so for every
    entry [GetRecentlyUpdatedRepos] filters by the cutoff and never
    answers with every repository. *)
Theorem last_seven_days today :
  (DayOption.daysBack <$> getLast7Days today) = [1; 2; 3; 4; 5; 6; 7]
  /\ (DayOption.date <$> getLast7Days today)
     = (fun i => AddDate today 0 0 (- i)) <$> [0; 1; 2; 3; 4; 5; 6]
  /\ forall o now gh,
      o ∈ getLast7Days today ->
      Main.GetRecentlyUpdatedRepos now gh (DayOption.daysBack o)
      = List.filter
          (updatedSince (AddDate now 0 0 (- DayOption.daysBack o)))
          (Main.GitHub.repos gh).
Proof.
  split; [reflexivity|]. split; [reflexivity|].
  intros o now gh Ho. apply recent_filter.
  assert (Hd : DayOption.daysBack o
               ∈ (DayOption.daysBack <$> getLast7Days today))
    by (apply list_elem_of_fmap; by exists o).
  rewrite menu_windows in Hd.
  repeat (apply elem_of_cons in Hd as [->|Hd]; [lia|]). inversion Hd.
Qed.
End Menu.

Lemma day_suffix_ordinal_witness :
  MainMenu.getDaySuffix 22 = "nd" /\ MainMenu.getDaySuffix 11 = "th"
  /\ MainMenu.DayOption.label (MainMenu.optionAt Desk.now0 0) = "June, 10th".
Proof.
  destruct day_suffix_ordinal as (Hsmall & _ & Hlabel).
  split; [exact (Hsmall 22 ltac:(lia))|].
  split; [exact (Hsmall 11 ltac:(lia))|].
  exact (Hlabel Desk.now0 (MainMenu.optionAt Desk.now0 0)
           ltac:(by left)).
Defined.

Lemma last_seven_days_witness :
  Main.GetRecentlyUpdatedRepos Desk.now0 Desk.gh0
    (MainMenu.DayOption.daysBack (MainMenu.optionAt Desk.now0 2))
  = [Desk.repoAt "a" (1718000000 - 2 * 86400)].
Proof.
  destruct (last_seven_days Desk.now0) as (_ & _ & Hfilter).
  exact (Hfilter (MainMenu.optionAt Desk.now0 2) Desk.now0 Desk.gh0
           ltac:(right; right; by left)).
Defined.

(* ===================================================================== *)
(** ** The cutoff by working day                                         *)
(* ===================================================================== *)

Section Workdays.
Import GoTime.

Lemma Weekday_of_midnight l d :
  Weekday_of (midnight l d)
  = match (d + 4) mod 7 with
    | 0 => Sunday | 1 => Monday | 2 => Tuesday | 3 => Wednesday
    | 4 => Thursday | 5 => Friday | _ => Saturday
    end.
Proof. unfold Weekday_of. by rewrite (proj1 (midnight_clock l d)). Qed.

Lemma sinceByDay_back now :
  validTime now ->
  exists k,
    Github.sinceByDay now = midnight (loc now) (localDay now - k)
    /\ (k = 3 /\ Weekday_of now = Monday
        \/ k = 1 /\ Weekday_of now <> Monday).
Proof.
  intros Hv. unfold Github.sinceByDay.
  destruct (Weekday_of now) eqn:Hw;
    rewrite sinceByDay_midnight by done;
    try (exists 1; split; [done|right; done]).
  exists 3. split; [done|by left].
Qed.

(** Extra X7. The cutoff of [GetCommitsForRepoByDay] falls on the
    weekday before the one of the call, on a Friday when the call is
    on a Monday; it lies before the call, by at least one day and by
    less than four. *)
Theorem cutoff_day_before now :
  validTime now ->
  Weekday_of (Github.sinceByDay now) = dayBefore (Weekday_of now)
  /\ After now (Github.sinceByDay now) = true
  /\ secondsPerDay <= unixSec now - unixSec (Github.sinceByDay now)
     < 4 * secondsPerDay.
Proof.
  intros Hv. destruct (sinceByDay_back now Hv) as (k & -> & Hk).
  rewrite Weekday_of_midnight.
  unfold Weekday_of in *.
  set (d := localDay now) in *.
  assert (Hsec : unixSec now + locOffset (loc now)
                 = d * secondsPerDay + secOfDay now
                 /\ 0 <= secOfDay now < secondsPerDay).
  { subst d. unfold localDay, secOfDay, localSec, secondsPerDay.
    Z.div_mod_to_equations; lia. }
  destruct Hsec as [Hsec Hrange]. unfold secondsPerDay in *.
  assert (Hm7 : 0 <= (d + 4) mod 7 < 7) by (apply Z.mod_pos_bound; lia).
  split; [|split].
  - remember ((d + 4) mod 7) as m eqn:Hm.
    assert (Hcases : m = 0 \/ m = 1 \/ m = 2 \/ m = 3 \/ m = 4 \/ m = 5
                     \/ m = 6) by lia.
    destruct Hk as [[-> Hw]|[-> Hw]];
      destruct Hcases as [->|[->|[->|[->|[->|[->| ->]]]]]];
      try done;
      match goal with
      | |- context [(d - ?k + 4) mod 7] =>
          match goal with
          | H : ?v = (d + 4) mod 7 |- _ =>
              replace ((d - k + 4) mod 7) with ((v - k) mod 7)
                by (Z.div_mod_to_equations; lia)
          end
      end; reflexivity.
  - unfold After, midnight, secondsPerDay. cbn [unixSec nsec].
    apply orb_true_iff. left. apply Z.ltb_lt.
    destruct Hk as [[-> _]|[-> _]]; lia.
  - unfold midnight, secondsPerDay. cbn [unixSec].
    destruct Hk as [[-> _]|[-> _]]; lia.
Qed.
End Workdays.

Lemma cutoff_day_before_witness :
  validTime Platform.monday
  /\ GoTime.Weekday_of (Github.sinceByDay Platform.monday) = GoTime.Friday
  /\ GoTime.unixSec Platform.monday
     - GoTime.unixSec (Github.sinceByDay Platform.monday) = 281600.
Proof.
  assert (Hv : validTime Platform.monday) by (unfold validTime; cbn; lia).
  split; [exact Hv|]. split; [|reflexivity].
  exact (proj1 (cutoff_day_before Platform.monday Hv)).
Defined.

(* ===================================================================== *)
(** ** The pages of a listing                                            *)
(* ===================================================================== *)

Section Pages.
Import GoTime Github.

Lemma pageOf_nat {A} (k : nat) (items : list A) :
  Platform.pageOf (Z.of_nat k + 1) perPage items
  = take 100 (drop (k * 100) items).
Proof.
  unfold Platform.pageOf, perPage.
  destruct (Z.leb_spec (Z.of_nat k + 1) 0); [lia|].
  f_equal. f_equal. lia.
Qed.

Lemma page_step {A} (k : nat) (items : list A) :
  take (k * 100) items ++ take 100 (drop (k * 100) items)
  = take (S k * 100) items.
Proof.
  rewrite <- (take_drop (k * 100) (take (S k * 100) items)).
  rewrite take_take, skipn_firstn_comm. f_equal; f_equal; lia.
Qed.

Lemma page_more {A} (k fuel : nat) (items : list A) :
  (length items / 100 - k < S fuel)%nat ->
  perPage <= Z.of_nat (length (take 100 (drop (k * 100) items))) ->
  (length items / 100 - S k < fuel)%nat.
Proof.
  intros Hfuel Hge. rewrite length_take, length_drop in Hge.
  unfold perPage in Hge.
  assert (100 * (S k) <= length items)%nat by lia.
  assert (S k <= length items / 100)%nat
    by (apply Nat.div_le_lower_bound; lia).
  lia.
Qed.

Lemma page_last {A} (k : nat) (items : list A) :
  Z.of_nat (length (take 100 (drop (k * 100) items))) < perPage ->
  take (S k * 100) items = items.
Proof.
  intros Hlt. rewrite length_take, length_drop in Hlt. unfold perPage in Hlt.
  apply take_ge. lia.
Qed.

Lemma page_none {A} (k : nat) (items : list A) :
  Z.of_nat (length (take 100 (drop (k * 100) items))) = 0 ->
  take (k * 100) items = items.
Proof.
  intros Hz. rewrite length_take, length_drop in Hz.
  apply take_ge. lia.
Qed.

Context {W : Type} `{Remote W}.

Lemma commitPages_all gh targetRepo since branchName items :
  servesCommits (Repo.FullName targetRepo)
    (if IsZero since then None else Some since)
    (if String.eqb branchName "" then None else Some branchName) items ->
  forall fuel k w,
    (length items / 100 - k < fuel)%nat ->
    exists w',
      commitPages fuel gh targetRepo since branchName (Z.of_nat k + 1)
        (take (k * 100) items) w
      = Done (items, None) w'.
Proof.
  intros Hserve. induction fuel as [|fuel IH]; intros k w Hfuel; [lia|].
  cbn [commitPages]. unfold bind, perform.
  match goal with
  | |- context [fetchCommits ?q w] =>
      pose proof (Hserve q w eq_refl eq_refl eq_refl eq_refl) as Hq
  end.
  cbn [cqPage] in Hq. rewrite pageOf_nat in Hq.
  destruct (fetchCommits _ w) as [r w1]. cbn [fst] in Hq. subst r.
  destruct (Z.eqb_spec
              (Z.of_nat (length (take 100 (drop (k * 100) items)))) 0)
    as [Hz|Hnz].
  - exists w1. unfold ret. by rewrite (page_none k items Hz).
  - rewrite page_step.
    destruct (Z.ltb_spec
                (Z.of_nat (length (take 100 (drop (k * 100) items))))
                perPage) as [Hlt|Hge].
    + exists w1. unfold ret. by rewrite (page_last k items Hlt).
    + replace (Z.of_nat k + 1 + 1) with (Z.of_nat (S k) + 1) by lia.
      apply IH. by apply page_more.
Qed.

Lemma branchPages_all gh targetRepo items :
  servesBranches (Repo.FullName targetRepo) items ->
  forall fuel k w,
    (length items / 100 - k < fuel)%nat ->
    exists w',
      branchPages fuel gh targetRepo (Z.of_nat k + 1)
        (take (k * 100) items) w
      = Done (items, None) w'.
Proof.
  intros Hserve. induction fuel as [|fuel IH]; intros k w Hfuel; [lia|].
  cbn [branchPages]. unfold bind, perform.
  match goal with
  | |- context [fetchBranches ?q w] =>
      pose proof (Hserve q w eq_refl eq_refl) as Hq
  end.
  cbn [bqPage] in Hq. rewrite pageOf_nat in Hq.
  destruct (fetchBranches _ w) as [r w1]. cbn [fst] in Hq. subst r.
  destruct (Z.eqb_spec
              (Z.of_nat (length (take 100 (drop (k * 100) items)))) 0)
    as [Hz|Hnz].
  - exists w1. unfold ret. by rewrite (page_none k items Hz).
  - rewrite page_step.
    destruct (Z.ltb_spec
                (Z.of_nat (length (take 100 (drop (k * 100) items))))
                perPage) as [Hlt|Hge].
    + exists w1. unfold ret. by rewrite (page_last k items Hlt).
    + replace (Z.of_nat k + 1 + 1) with (Z.of_nat (S k) + 1) by lia.
      apply IH. by apply page_more.
Qed.

(** Extra X8. Against a platform that hands out a listing 100 items a
    page, [GetCommitsForRepoSinceFromBranch] and [GetBranchesForRepo]
    gather the whole listing, in order and without an error, whatever
    its length: one request more than the number of full pages does. *)
Theorem pagination_gathers_all fuel gh repoName targetRepo since branchName
    commits branches w :
  findRepo (GitHub.repos gh) repoName = Some targetRepo ->
  servesCommits (Repo.FullName targetRepo)
    (if IsZero since then None else Some since)
    (if String.eqb branchName "" then None else Some branchName) commits ->
  servesBranches (Repo.FullName targetRepo) branches ->
  (length commits / 100 < fuel)%nat ->
  (length branches / 100 < fuel)%nat ->
  (exists w',
      GetCommitsForRepoSinceFromBranch fuel gh repoName since branchName w
      = Done (commits, None) w')
  /\ (exists w',
         GetBranchesForRepo fuel gh repoName w = Done (branches, None) w').
Proof.
  intros Hfind Hcommits Hbranches Hfc Hfb. split.
  - unfold GetCommitsForRepoSinceFromBranch. rewrite Hfind.
    apply (commitPages_all gh targetRepo since branchName commits Hcommits
             fuel 0%nat).
    lia.
  - unfold GetBranchesForRepo. rewrite Hfind.
    apply (branchPages_all gh targetRepo branches Hbranches fuel 0%nat).
    lia.
Qed.

Lemma findRepo_none repos repoName :
  Forall (fun r => Repo.Name r <> repoName) repos ->
  findRepo repos repoName = None.
Proof.
  induction 1 as [|r rs Hr Hrs IH]; [done|]. cbn.
  destruct (String.eqb_spec (Repo.Name r) repoName); done.
Qed.

(** Extra X9. For a name that no loaded repository has,
    [GetCommitsForRepoSinceFromBranch], [GetBranchesForRepo] and
    [GetCommitsFromAllBranches] send no request and print nothing:
    they return the empty sequence and the error "repository ... not
    found", the last one under the prefix "failed to get branches". *)
Theorem unknown_repository fuel gh repoName since branchName w :
  Forall (fun r => Repo.Name r <> repoName) (GitHub.repos gh) ->
  GetCommitsForRepoSinceFromBranch fuel gh repoName since branchName w
  = Done ([], Some ("repository " +:+ repoName +:+ " not found")) w
  /\ GetBranchesForRepo fuel gh repoName w
     = Done ([], Some ("repository " +:+ repoName +:+ " not found")) w
  /\ GetCommitsFromAllBranches fuel gh repoName since w
     = Done ([], Some ("failed to get branches: repository " +:+ repoName
                       +:+ " not found")) w.
Proof.
  intros Hnone. apply findRepo_none in Hnone.
  unfold GetCommitsFromAllBranches, bind, GetCommitsForRepoSinceFromBranch,
    GetBranchesForRepo.
  rewrite Hnone. done.
Qed.

Lemma commitPages_error fuel gh targetRepo since branchName :
  forall page acc w cs e w',
    commitPages fuel gh targetRepo since branchName page acc w
    = Done (cs, Some e) w' -> cs = [].
Proof.
  induction fuel as [|fuel IH]; intros page acc w cs e w' Hrun; [done|].
  cbn [commitPages] in Hrun. unfold bind, perform, ret in Hrun.
  destruct (fetchCommits _ w) as [r w1].
  destruct r; try by simplify_eq.
  destruct (_ =? 0); [by simplify_eq|].
  destruct (_ <? perPage); [by simplify_eq|]. eauto.
Qed.

Lemma branchPages_error fuel gh targetRepo :
  forall page acc w bs e w',
    branchPages fuel gh targetRepo page acc w = Done (bs, Some e) w' ->
    bs = [].
Proof.
  induction fuel as [|fuel IH]; intros page acc w cs e w' Hrun; [done|].
  cbn [branchPages] in Hrun. unfold bind, perform, ret in Hrun.
  destruct (fetchBranches _ w) as [r w1].
  destruct r; try by simplify_eq.
  destruct (_ =? 0); [by simplify_eq|].
  destruct (_ <? perPage); [by simplify_eq|]. eauto.
Qed.

Lemma branches_error fuel gh repoName w bs e w' :
  GetBranchesForRepo fuel gh repoName w = Done (bs, Some e) w' -> bs = [].
Proof.
  unfold GetBranchesForRepo.
  destruct (findRepo _ _); [apply branchPages_error|].
  unfold ret. by intros [= <- _ _].
Qed.

(** Extra X10. An error never comes with data: when one of the two
    paged listings returns an error, the pages gathered before it are
    dropped and the sequence is empty; and the only error of
    [GetCommitsFromAllBranches] is the one of the listing of
    branches, so a branch whose commits cannot be listed never makes
    the merge fail. *)
Theorem errors_come_with_nil fuel gh repoName since w :
  (forall branchName cs e w',
      GetCommitsForRepoSinceFromBranch fuel gh repoName since branchName w
      = Done (cs, Some e) w' -> cs = [])
  /\ (forall bs e w',
         GetBranchesForRepo fuel gh repoName w = Done (bs, Some e) w' ->
         bs = [])
  /\ (forall commits e w',
         GetCommitsFromAllBranches fuel gh repoName since w
         = Done (commits, Some e) w' ->
         commits = []
         /\ exists e',
             GetBranchesForRepo fuel gh repoName w = Done ([], Some e') w'
             /\ e = "failed to get branches: " +:+ e').
Proof.
  split; [|split].
  - intros branchName cs e w'. unfold GetCommitsForRepoSinceFromBranch.
    destruct (findRepo _ _); [apply commitPages_error|].
    unfold ret. by intros [= <- _ _].
  - intros bs e w'. apply branches_error.
  - intros commits e w'. unfold GetCommitsFromAllBranches, bind.
    destruct (GetBranchesForRepo fuel gh repoName w)
      as [[bs [e'|]] w1|?|] eqn:Hbs; try done.
    + unfold ret. intros [= <- <- <-]. split; [done|]. exists e'.
      split; [|done].
      assert (bs = []) as -> by (eapply branches_error; exact Hbs).
      done.
    + destruct (branchLoop _ _ _ _ _ _ w1) as [[all m] w2|?|]; try done.
Qed.
End Pages.

Lemma pagination_gathers_all_witness :
  length longBranch = 150%nat
  /\ (exists w',
         Github.GetCommitsForRepoSinceFromBranch (H := Platform.rest hostingBig)
           2 ghBig "big" GoTime.zeroTime "main" Platform.console0
         = Done (Platform.toCommit <$> longBranch, None) w')
  /\ (exists w',
         Github.GetBranchesForRepo (H := Platform.rest hostingBig)
           2 ghBig "big" Platform.console0
         = Done (Platform.toBranch <$> Platform.hrBranches big, None) w').
Proof.
  split; [reflexivity|].
  apply (pagination_gathers_all (H := Platform.rest hostingBig) 2 ghBig "big"
           (Platform.restRepo big) GoTime.zeroTime "main"
           (Platform.toCommit <$> longBranch)
           (Platform.toBranch <$> Platform.hrBranches big) Platform.console0).
  - reflexivity.
  - intros q w Hname Hsince Hsha Hper.
    cbn [Github.fetchCommits Platform.rest Platform.restCommits fst].
    unfold Platform.commitsReply. rewrite Hname, Hsince, Hsha, Hper.
    reflexivity.
  - intros q w Hname Hper.
    cbn [Github.fetchBranches Platform.rest Platform.restBranches fst].
    unfold Platform.branchesReply. rewrite Hname, Hper. reflexivity.
  - vm_compute. lia.
  - vm_compute. lia.
Defined.

Lemma unknown_repository_witness :
  Github.GetCommitsFromAllBranches 1 Platform.gh0 "gone" GoTime.zeroTime
    Platform.console0
  = Done ([], Some "failed to get branches: repository gone not found")
      Platform.console0.
Proof.
  apply (unknown_repository 1 Platform.gh0 "gone" GoTime.zeroTime ""
           Platform.console0).
  repeat constructor; discriminate.
Defined.

Lemma errors_come_with_nil_witness :
  Github.GetCommitsForRepoSinceFromBranch (H := Platform.rest hostingDown)
    2 Platform.gh0 "app" GoTime.zeroTime "dev" Platform.console0
  = Done ([], Some "failed to do request: timeout") Platform.console0
  /\ ([] : list Github.Commit.t) = [].
Proof.
  assert (Hrun : Github.GetCommitsForRepoSinceFromBranch
                   (H := Platform.rest hostingDown) 2 Platform.gh0 "app"
                   GoTime.zeroTime "dev" Platform.console0
                 = Done ([], Some "failed to do request: timeout") Platform.console0)
    by (vm_compute; reflexivity).
  split; [exact Hrun|].
  exact (proj1 (errors_come_with_nil (H := Platform.rest hostingDown) 2
                  Platform.gh0 "app" GoTime.zeroTime Platform.console0)
           "dev" [] "failed to do request: timeout" Platform.console0 Hrun).
Defined.

(* ===================================================================== *)
(** ** The order of the merge                                            *)
(* ===================================================================== *)

Section MergeOrder.
Import GoTime Github.
Context {W : Type} `{Remote W}.

Lemma addUnique_keepFirst cs :
  forall st, tracked st ->
    (addUnique cs st).1 = fold_left keepFirst cs st.1.
Proof.
  induction cs as [|c cs IH]; intros [all m] Hst; [done|].
  cbn [addUnique fold_left fst]. unfold keepFirst at 2.
  destruct Hst as [Hnd Hseen]. cbn [fst snd] in *.
  case_bool_decide as Hin.
  - apply Hseen in Hin. rewrite Hin. cbn [negb]. by apply IH.
  - destruct (seen m (Commit.SHA c)) eqn:Hs; [by apply Hseen in Hs|].
    cbn [negb].
    pose proof (addUnique_tracked [c] (all, m) (conj Hnd Hseen)) as Hst'.
    cbn [addUnique] in Hst'. rewrite Hs in Hst'. cbn [negb] in Hst'.
    by rewrite (IH _ Hst').
Qed.

Lemma branchLoop_keepFirst fuel gh repoName since listing branches :
  (forall b w2, b ∈ branches ->
     exists w3,
       GetCommitsForRepoSinceFromBranch fuel gh repoName since
         (Branch.Name b) w2 = Done (listing (Branch.Name b)) w3) ->
  forall st w, tracked st ->
    exists st' w',
      branchLoop fuel gh repoName since branches st w = Done st' w'
      /\ st'.1 = fold_left keepFirst (concat (listed listing <$> branches))
                   st.1.
Proof.
  induction branches as [|b rest IH]; intros Hlist st w Hst.
  - exists st, w. done.
  - cbn [branchLoop]. unfold bind.
    destruct (Hlist b w ltac:(by left)) as [w3 ->].
    assert (Hrest : forall b' w2, b' ∈ rest ->
              exists w3,
                GetCommitsForRepoSinceFromBranch fuel gh repoName since
                  (Branch.Name b') w2 = Done (listing (Branch.Name b')) w3)
      by (intros; apply Hlist; by right).
    cbn [fmap list_fmap concat]. rewrite fold_left_app.
    unfold listed at 2.
    destruct (listing (Branch.Name b)) as [cs [e|]].
    + unfold perform. destruct (Printf _ w3) as [[] wp].
      cbn [fold_left]. by apply IH.
    + rewrite <- (addUnique_keepFirst cs st Hst).
      apply IH; [done|]. by apply addUnique_tracked.
Qed.

(** Extra X11. When the listings of the branches do not change during
    the run, [GetCommitsFromAllBranches] returns the listings of the
    branches laid end to end in the order of the branches, the
    listing of a branch that failed left out, with every identifier
    kept at its first occurrence only: the record of a commit shared
    by several branches is the one of the first branch that lists
    it. *)
Theorem merge_keeps_first_listing fuel gh repoName since w branches w1
    (listing : string -> list Commit.t * error) :
  GetBranchesForRepo fuel gh repoName w = Done (branches, None) w1 ->
  (forall b w2, b ∈ branches ->
     exists w3,
       GetCommitsForRepoSinceFromBranch fuel gh repoName since
         (Branch.Name b) w2 = Done (listing (Branch.Name b)) w3) ->
  exists w',
    GetCommitsFromAllBranches fuel gh repoName since w
    = Done (firstBySHA (concat (listed listing <$> branches)), None) w'.
Proof.
  intros Hbs Hlist. unfold GetCommitsFromAllBranches, bind. rewrite Hbs.
  destruct (branchLoop_keepFirst fuel gh repoName since listing branches
              Hlist ([], ∅) w1 tracked_init) as ([all m] & w' & -> & Hall).
  exists w'. unfold ret. cbn [fst] in Hall. by rewrite Hall.
Qed.
End MergeOrder.

Lemma merge_keeps_first_listing_witness :
  firstBySHA (concat (listed appListing <$> appBranches))
  = Platform.toCommit
      <$> [Platform.onMain; Platform.root; Platform.old; Platform.onDev]
  /\ exists w',
      Github.GetCommitsFromAllBranches 2 Platform.gh0 "app" GoTime.zeroTime
        Platform.console0
      = Done (firstBySHA (concat (listed appListing <$> appBranches)), None)
          w'.
Proof.
  split; [by vm_compute|].
  apply (merge_keeps_first_listing 2 Platform.gh0 "app" GoTime.zeroTime
           Platform.console0 appBranches Platform.console0 appListing).
  - reflexivity.
  - intros b w2 Hb. exists w2.
    apply elem_of_cons in Hb as [->|Hb]; [reflexivity|].
    apply elem_of_cons in Hb as [->|Hb]; [reflexivity|].
    inversion Hb.
Defined.

(* ===================================================================== *)
(** ** Loading the repositories of the user                              *)
(* ===================================================================== *)

Section Loader.
Import GoTime Github GithubLoad.
Context {W : Type} `{ReposRemote W}.

Lemma keepOwned_filter username repos :
  forall allRepos,
    keepOwned username repos allRepos
    = allRepos ++ List.filter (ownedBy username) repos.
Proof.
  induction repos as [|r rest IH]; intros allRepos;
    cbn [keepOwned List.filter].
  - by rewrite app_nil_r.
  - unfold ownedBy at 1.
    destruct (String.eqb _ username); rewrite IH; [|done].
    by rewrite <- app_assoc.
Qed.

Lemma filter_page_step {A} (f : A -> bool) (k : nat) (items : list A) :
  List.filter f (take (k * 100) items)
    ++ List.filter f (take 100 (drop (k * 100) items))
  = List.filter f (take (S k * 100) items).
Proof. by rewrite <- List.filter_app, page_step. Qed.

Lemma repoPages_all gh items :
  servesRepos items ->
  forall fuel k w,
    (length items / 100 - k < fuel)%nat ->
    exists w',
      repoPages fuel gh (Z.of_nat k + 1)
        (List.filter (ownedBy (username (GitHub.user gh)))
           (take (k * 100) items)) w
      = Done (Returned (List.filter (ownedBy (username (GitHub.user gh)))
                          items)) w'.
Proof.
  intros Hserve. induction fuel as [|fuel IH]; intros k w Hfuel; [lia|].
  cbn [repoPages]. unfold bind, perform.
  match goal with
  | |- context [fetchUserRepos ?q w] =>
      pose proof (Hserve q w eq_refl) as Hq
  end.
  cbn [rqPage] in Hq. rewrite pageOf_nat in Hq.
  destruct (fetchUserRepos _ w) as [r w1]. cbn [fst] in Hq. subst r.
  destruct (Z.eqb_spec
              (Z.of_nat (length (take 100 (drop (k * 100) items)))) 0)
    as [Hz|Hnz].
  - exists w1. unfold ret. by rewrite (page_none k items Hz).
  - rewrite keepOwned_filter, filter_page_step.
    destruct (Z.ltb_spec
                (Z.of_nat (length (take 100 (drop (k * 100) items))))
                perPage) as [Hlt|Hge].
    + exists w1. unfold ret. by rewrite (page_last k items Hlt).
    + replace (Z.of_nat k + 1 + 1) with (Z.of_nat (S k) + 1) by lia.
      apply IH. by apply page_more.
Qed.

(** Extra X12. Against a platform that hands out the repositories the
    token can see 100 a page, [LoadReposFromUser] of package github
    ends with exactly those of them whose full name starts with the
    user name up to the first ['/'], in the order of the listing; what
    the client held before is replaced, not extended. *)
Theorem load_repos_owned fuel gh items w :
  servesRepos items ->
  (length items / 100 < fuel)%nat ->
  exists w',
    LoadReposFromUser fuel gh w
    = Done (Returned
              (GitHub.mk (GitHub.user gh)
                 (List.filter (ownedBy (username (GitHub.user gh))) items)))
        w'.
Proof.
  intros Hserve Hfuel. unfold LoadReposFromUser, bind.
  destruct (repoPages_all gh items Hserve fuel 0%nat w ltac:(lia))
    as [w' Hrun].
  change (repoPages fuel gh 1 [] w = Done
            (Returned (List.filter (ownedBy (username (GitHub.user gh)))
                         items)) w') in Hrun.
  rewrite Hrun. by exists w'.
Qed.
End Loader.

Lemma load_repos_owned_witness :
  List.filter (ownedBy "me") visible
  = [Platform.restRepo Platform.app; Platform.restRepo Platform.side]
  /\ exists w',
      GithubLoad.LoadReposFromUser 1 Platform.gh0 Platform.console0
      = Done (Returned
                (Github.GitHub.mk (Github.GitHub.user Platform.gh0)
                   (List.filter (ownedBy "me") visible))) w'.
Proof.
  split; [reflexivity|].
  apply (load_repos_owned 1 Platform.gh0 visible Platform.console0).
  - intros q w Hpp. cbn. by rewrite Hpp.
  - vm_compute. lia.
Defined.

(* ===================================================================== *)
(** ** The line of a commit                                              *)
(* ===================================================================== *)

Section Lines.
Import GoTime Github.

Lemma length_append (s1 s2 : string) :
  String.length (s1 +:+ s2) = (String.length s1 + String.length s2)%nat.
Proof.
  induction s1 as [|c s1 IH]; [done|].
  change (S (String.length (s1 +:+ s2))
          = S (String.length s1 + String.length s2)).
  by rewrite IH.
Qed.

Lemma length_substring_le n s :
  (String.length (substring 0 n s) <= n)%nat.
Proof.
  revert s. induction n as [|n IH]; intros [|c s]; cbn; try lia.
  specialize (IH s). lia.
Qed.

Lemma length_digits fuel :
  forall n acc k,
    0 <= n < 10 ^ Z.of_nat (S k) ->
    (String.length (digits fuel n acc) <= String.length acc + S k)%nat.
Proof.
  induction fuel as [|fuel IH]; intros n acc k Hn; cbn [digits]; [lia|].
  destruct (Z.eqb_spec (n / 10) 0) as [Hz|Hnz]; [cbn; lia|].
  destruct k as [|k].
  - change (10 ^ Z.of_nat 1) with 10 in Hn.
    assert (n / 10 = 0) by (apply Z.div_small; lia). done.
  - assert (Hn' : 0 <= n / 10 < 10 ^ Z.of_nat (S k)).
    { replace (Z.of_nat (S (S k))) with (Z.of_nat (S k) + 1) in Hn by lia.
      rewrite Z.pow_add_r in Hn by lia. change (10 ^ 1) with 10 in Hn.
      split; [apply Z.div_pos; lia|].
      apply Z.div_lt_upper_bound; lia. }
    specialize (IH (n / 10) (String (digit n) acc) k Hn').
    cbn [String.length] in IH. lia.
Qed.

Lemma length_padLeft k s :
  String.length (padLeft k s) = (k + String.length s)%nat.
Proof. induction k as [|k IH]; cbn; [done|]. by rewrite IH. Qed.

Lemma length_appendInt x k :
  0 <= x < 10 ^ Z.of_nat (S k) ->
  String.length (appendInt x (S k)) = S k.
Proof.
  intros Hx. unfold appendInt.
  destruct (Z.ltb_spec x 0); [lia|].
  rewrite length_padLeft. rewrite Z.abs_eq by lia.
  pose proof (length_digits (S (Z.to_nat (Z.log2 x))) x "" k Hx) as Hle.
  cbn [String.length] in Hle. lia.
Qed.

Lemma clock_range t :
  0 <= Hour t < 100 /\ 0 <= Minute t < 100.
Proof.
  unfold Hour, Minute, secOfDay, secondsPerDay.
  Z.div_mod_to_equations; lia.
Qed.

Lemma length_FormatDateMinute t :
  0 <= Year t <= 9999 -> String.length (FormatDateMinute t) = 16%nat.
Proof.
  intros Hy. unfold FormatDateMinute, FormatDate.
  rewrite !length_append.
  pose proof (civil_month_range (localDay t)) as Hm.
  pose proof (civil_day_range (localDay t)) as Hd.
  destruct (clock_range t) as [Hh Hmin].
  rewrite (length_appendInt (Year t) 3)
    by (change (10 ^ Z.of_nat 4) with 10000; lia).
  rewrite (length_appendInt (Month t) 1)
    by (change (10 ^ Z.of_nat 2) with 100; unfold Month; lia).
  rewrite (length_appendInt (Day t) 1)
    by (change (10 ^ Z.of_nat 2) with 100; unfold Day; lia).
  rewrite (length_appendInt (Hour t) 1)
    by (change (10 ^ Z.of_nat 2) with 100; lia).
  rewrite (length_appendInt (Minute t) 1)
    by (change (10 ^ Z.of_nat 2) with 100; lia).
  reflexivity.
Qed.

(** Extra X13. [Commit.String] panics exactly when the identifier has
    fewer than 8 characters; otherwise, for a commit date in the years
    0 to 9999, the line it gives has at most 80 characters, whatever
    the length of the message. *)
Theorem commit_line_fits (c : Commit.t) :
  (Commit.String c = None <-> (String.length (Commit.SHA c) < 8)%nat)
  /\ forall line,
      Commit.String c = Some line ->
      0 <= Year (authored c) <= 9999 ->
      (String.length line <= 80)%nat.
Proof.
  unfold Commit.String, slicePrefix, authored.
  destruct (Nat.leb_spec 8 (String.length (Commit.SHA c))) as [Hlen|Hlen].
  - split; [split; [done|lia]|].
    intros line [= <-] Hy. rewrite !length_append.
    rewrite (length_FormatDateMinute _ Hy).
    pose proof (length_substring_le 8 (Commit.SHA c)).
    pose proof
      (length_substring_le 47 (CommitInfo.Message (Commit.Commit c))).
    destruct (Nat.ltb_spec 50
                (String.length (CommitInfo.Message (Commit.Commit c))));
      [rewrite length_append|]; cbn [String.length]; lia.
  - split; [done|]. done.
Qed.
End Lines.

Lemma commit_line_fits_witness :
  Github.Commit.String (Platform.toCommit Platform.root)
  = Some "abc123d4 - fix bug (2024-06-09 02:26)"
  /\ 0 <= GoTime.Year (authored (Platform.toCommit Platform.root)) <= 9999
  /\ (String.length "abc123d4 - fix bug (2024-06-09 02:26)" <= 80)%nat.
Proof.
  assert (Hy : 0 <= GoTime.Year (authored (Platform.toCommit Platform.root))
               <= 9999) by (vm_compute; split; discriminate).
  split; [by vm_compute|]. split; [exact Hy|].
  exact (proj2 (commit_line_fits (Platform.toCommit Platform.root)) _
           eq_refl Hy).
Defined.

(* ===================================================================== *)
(** ** The go-github client: names, commits, the report                  *)
(* ===================================================================== *)

Section RepoNames.
Import GithubClient.

Lemma splitSlash_none s : hasSlash s = false -> splitSlash s = None.
Proof.
  induction s as [|c s IH]; [done|]. cbn [hasSlash splitSlash].
  intros Hs. apply orb_false_elim in Hs as [-> Hs]. by rewrite IH.
Qed.

Lemma splitSlash_join owner repo :
  hasSlash owner = false ->
  splitSlash (owner +:+ "/" +:+ repo) = Some (owner, repo).
Proof.
  induction owner as [|c owner IH]; intros Hs; [done|].
  cbn [hasSlash] in Hs. apply orb_false_elim in Hs as [Hc Hs].
  change (String c owner +:+ "/" +:+ repo)
    with (String c (owner +:+ "/" +:+ repo)).
  cbn [splitSlash]. rewrite Hc. by rewrite IH.
Qed.

Lemma splitSlash_some s :
  hasSlash s = true ->
  exists owner repo,
    splitSlash s = Some (owner, repo)
    /\ s = owner +:+ "/" +:+ repo /\ hasSlash owner = false.
Proof.
  induction s as [|c s IH]; [done|]. cbn [hasSlash splitSlash].
  destruct (Ascii.eqb_spec c "/"%char) as [->|Hc].
  - intros _. by exists "", s.
  - cbn [orb]. intros Hs. destruct (IH Hs) as (owner & repo & -> & -> & Ho).
    exists (String c owner), repo. split; [done|]. split; [done|].
    cbn [hasSlash]. rewrite Ho.
    by destruct (Ascii.eqb_spec c "/"%char).
Qed.

(** Extra X14. [parseRepoName] splits at the first ['/']: it gives
    back the owner and the name that were joined by ['/'] when the
    owner has none (the name may have some), so it reads the full
    name of a hosted repository back into its two parts; putting the
    two parts of any full name with a ['/'] together again gives the
    full name; and a full name without ['/'] is taken as a name with
    the empty owner. *)
Theorem parse_repo_name :
  (forall owner repo,
      hasSlash owner = false ->
      parseRepoName (owner +:+ "/" +:+ repo) = (owner, repo))
  /\ (forall fullName,
         hasSlash fullName = false ->
         parseRepoName fullName = ("", fullName))
  /\ (forall fullName,
         hasSlash fullName = true ->
         hasSlash (parseRepoName fullName).1 = false
         /\ (parseRepoName fullName).1 +:+ "/"
            +:+ (parseRepoName fullName).2 = fullName)
  /\ (forall r,
         hasSlash (Platform.hrOwner r) = false ->
         parseRepoName
           (Repository.GetFullName (Platform.toRepository r))
         = (Platform.hrOwner r, Platform.hrName r)).
Proof.
  unfold parseRepoName. split_and!.
  - intros owner repo Hs. by rewrite splitSlash_join.
  - intros fullName Hs. by rewrite splitSlash_none.
  - intros fullName Hs.
    destruct (splitSlash_some fullName Hs) as (owner & repo & -> & -> & Ho).
    done.
  - intros r Hs. cbn. unfold Platform.hrFullName.
    by rewrite splitSlash_join.
Qed.
End RepoNames.

Lemma parse_repo_name_witness :
  GithubClient.parseRepoName "me/app" = ("me", "app")
  /\ GithubClient.parseRepoName "app" = ("", "app")
  /\ GithubClient.parseRepoName "me/app/x" = ("me", "app/x").
Proof.
  destruct parse_repo_name as (Hjoin & Hnone & _ & _).
  split; [exact (Hjoin "me" "app" eq_refl)|].
  split; [exact (Hnone "app" eq_refl)|].
  exact (Hjoin "me" "app/x" eq_refl).
Defined.

Section Distinct.
Import GoTime GithubClient.
Context {W : Type} `{Remote W} `{GoRuntime W}.

(** A property of every identifier the platform lists. *)
Variable P : string -> Prop.
Hypothesis listed_P :
  forall owner repo o w,
    Forall (fun c => P (RepositoryCommit.GetSHA c))
      (ListCommits owner repo o w).1.1.1.

Lemma commitExists_elem commits sha :
  commitExists commits sha = true <-> sha ∈ infoSHAs commits.
Proof.
  induction commits as [|c cs IH]; cbn [commitExists].
  - split; [done|]. intros Hin. inversion Hin.
  - unfold infoSHAs. cbn [fmap list_fmap]. rewrite elem_of_cons.
    destruct (String.eqb_spec (CommitInfo.SHA c) sha) as [->|Hne].
    + split; [by left|done].
    + rewrite IH. split; [by right|]. intros [->|Hin]; done.
Qed.

Lemma detailLoop_distinct owner repo ghCommits :
  Forall (fun c => P (RepositoryCommit.GetSHA c)) ghCommits ->
  forall commits w,
    NoDup (infoSHAs commits) -> Forall P (infoSHAs commits) ->
    exists out w',
      detailLoop owner repo ghCommits commits w = Done out w'
      /\ NoDup (infoSHAs out) /\ Forall P (infoSHAs out).
Proof.
  induction 1 as [|c rest Hc Hrest IH]; intros commits w Hnd HP.
  - by exists commits, w.
  - cbn [detailLoop].
    destruct (commitExists commits (RepositoryCommit.GetSHA c)) eqn:Hex;
      [by apply IH|].
    unfold bind, perform.
    destruct (GetCommit _ _ _ _ w) as [[[detailed resp] [e|]] w1].
    + destruct (logPrintf _ w1) as [[] w2]. by apply IH.
    + apply IH; unfold infoSHAs; rewrite fmap_app; cbn [fmap list_fmap].
      * apply NoDup_app. split; [done|]. split; [|apply NoDup_singleton].
        intros sha Hin Hsha. apply list_elem_of_singleton in Hsha.
        cbn in Hsha. subst sha.
        apply commitExists_elem in Hin. congruence.
      * apply Forall_app. split; [done|]. by apply Forall_singleton.
Qed.

Lemma branchCommitPages_distinct N owner repo branchName :
  pagesEnd N ->
  forall fuel opt commits w,
    ListOptions.PerPage (CommitsListOptions.ListOptions opt) = 100 ->
    0 <= ListOptions.Page (CommitsListOptions.ListOptions opt) ->
    (Z.to_nat (N - ListOptions.Page (CommitsListOptions.ListOptions opt))
     < fuel)%nat ->
    NoDup (infoSHAs commits) -> Forall P (infoSHAs commits) ->
    exists out w',
      branchCommitPages fuel owner repo branchName opt commits w
      = Done out w'
      /\ NoDup (infoSHAs out) /\ Forall P (infoSHAs out).
Proof.
  intros (_ & _ & Hend).
  induction fuel as [|fuel IH];
    intros opt commits w Hper Hpage Hfuel Hnd HP; [lia|].
  cbn [branchCommitPages]. unfold bind, perform.
  pose proof (Hend owner repo opt w Hper) as Hnext.
  pose proof (listed_P owner repo opt w) as Hlisted.
  destruct (ListCommits owner repo opt w) as [[[ghCommits resp] [e|]] w1].
  - destruct (logPrintf _ w1) as [[] w2]. by exists commits, w2.
  - cbn [fst snd] in Hnext, Hlisted.
    destruct (detailLoop_distinct owner repo ghCommits Hlisted commits w1
                Hnd HP) as (out & w2 & -> & Hout & HPout).
    destruct (Z.eqb_spec (Response.NextPage resp) 0) as [Hz|Hnz];
      [by exists out, w2|].
    destruct Hnext as [Hz|Hnext]; [done|].
    apply IH; cbn; [done|lia|lia|done|done].
Qed.

Lemma allBranchesLoop_distinct N fuel owner repo since branches :
  pagesEnd N -> (Z.to_nat N < fuel)%nat ->
  forall commits w,
    NoDup (infoSHAs commits) -> Forall P (infoSHAs commits) ->
    exists out w',
      allBranchesLoop fuel owner repo since branches commits w
      = Done out w'
      /\ NoDup (infoSHAs out) /\ Forall P (infoSHAs out).
Proof.
  intros Hend Hfuel.
  induction branches as [|b rest IH]; intros commits w Hnd HP.
  - by exists commits, w.
  - cbn [allBranchesLoop]. unfold bind.
    destruct (branchCommitPages_distinct N owner repo (Branch.GetName b)
                Hend fuel
                (CommitsListOptions.mk (Branch.GetName b) since
                   (ListOptions.mk 0 100)) commits w eq_refl ltac:(done)
                ltac:(cbn; lia) Hnd HP)
      as (out & w1 & -> & Hout & HPout).
    by apply IH.
Qed.

Lemma repositoryCommits_returns N fuel fullRepoName since w :
  pagesEnd N -> (Z.to_nat N < fuel)%nat ->
  exists commits err w',
    GetRepositoryCommits fuel fullRepoName since w = Done (commits, err) w'
    /\ NoDup (infoSHAs commits)
    /\ Forall P (infoSHAs commits)
    /\ (err <> None -> commits = []).
Proof.
  intros Hend Hfuel. unfold GetRepositoryCommits.
  destruct (parseRepoName fullRepoName) as [owner repo].
  unfold bind, perform.
  destruct (ListBranches owner repo _ w) as [[[branches resp] [e|]] w1].
  - do 3 eexists. split; [done|]. split; [constructor|].
    split; [constructor|done].
  - destruct (allBranchesLoop_distinct N fuel owner repo since branches
                Hend Hfuel [] w1 ltac:(constructor) ltac:(constructor))
      as (out & w2 & -> & Hout & HPout).
    do 3 eexists. split; [done|]. split; [done|]. split; [done|]. done.
Qed.
End Distinct.

Section Commits.
Import GoTime GithubClient.
Context {W : Type} `{Remote W} `{GoRuntime W}.

Lemma listed_listedSHA :
  forall owner repo o w,
    Forall (fun c => listedSHA (RepositoryCommit.GetSHA c))
      (ListCommits owner repo o w).1.1.1.
Proof.
  intros owner repo o w. apply Forall_forall. intros c Hc.
  exists owner, repo, o, w. apply list_elem_of_fmap. by exists c.
Qed.

(** Extra X15. When the listings of commits end, [GetRepositoryCommits]
    returns; no two of the records it returns have the same
    identifier, however many branches list a commit; every identifier
    it returns is one that a listing of commits showed; and an error,
    which only the listing of branches can cause, comes with the
    empty sequence. *)
Theorem repository_commits_distinct N fuel fullRepoName since w :
  pagesEnd N -> (Z.to_nat N < fuel)%nat ->
  exists commits err w',
    GetRepositoryCommits fuel fullRepoName since w = Done (commits, err) w'
    /\ NoDup (infoSHAs commits)
    /\ Forall listedSHA (infoSHAs commits)
    /\ (err <> None -> commits = []).
Proof.
  apply (repositoryCommits_returns listedSHA listed_listedSHA).
Qed.
End Commits.

Section Report.
Import GoTime GithubClient.
Context {W : Type} `{Remote W} `{GoRuntime W}.

Lemma insertAll_filed repos :
  forall m, filedByName m -> filedByName (insertAll repos m).
Proof.
  unfold insertAll.
  induction repos as [|r rest IH]; intros m Hm; [done|].
  cbn [fold_left]. apply IH. intros key r' Hr'.
  destruct (decide (RepositoryInfo.FullName r = key)) as [<-|Hne].
  - rewrite lookup_insert_eq in Hr'. by simplify_eq.
  - rewrite lookup_insert_ne in Hr' by done. by apply Hm.
Qed.

Lemma keepUpdated_filter page since :
  forall repos,
    keepUpdated page since repos
    = repos ++ (toRepositoryInfo
                  <$> List.filter (fun r => updatedAfter r since) page).
Proof.
  induction page as [|r rest IH]; intros repos;
    cbn [keepUpdated List.filter].
  - by rewrite app_nil_r.
  - destruct (updatedAfter r since); rewrite IH; [|done].
    by rewrite <- app_assoc.
Qed.

Lemma keepUpdated_records page since repos :
  Forall (updatedRecord since) repos ->
  Forall (updatedRecord since) (keepUpdated page since repos).
Proof.
  intros Hrepos. rewrite keepUpdated_filter. apply Forall_app.
  split; [done|]. apply Forall_fmap, Forall_forall. intros r Hr.
  apply list_elem_of_In, filter_In in Hr as [_ Hr]. by exists r.
Qed.

Lemma insertAll_records since repos :
  Forall (updatedRecord since) repos ->
  forall m,
    map_Forall (fun _ r => updatedRecord since r) m ->
    map_Forall (fun _ r => updatedRecord since r) (insertAll repos m).
Proof.
  unfold insertAll. induction 1 as [|r rest Hr Hrest IH]; intros m Hm;
    [done|].
  cbn [fold_left]. apply IH. by apply map_Forall_insert_2.
Qed.

Lemma userPages_returns N username since :
  pagesEnd N ->
  forall fuel opt repos w,
    ListOptions.PerPage (RepositoryListOptions.ListOptions opt) = 100 ->
    0 <= ListOptions.Page (RepositoryListOptions.ListOptions opt) ->
    (Z.to_nat (N - ListOptions.Page (RepositoryListOptions.ListOptions opt))
     < fuel)%nat ->
    Forall (updatedRecord since) repos ->
    exists out err w',
      userPages fuel username since opt repos w = Done (out, err) w'
      /\ (err <> None -> out = [])
      /\ Forall (updatedRecord since) out.
Proof.
  intros (Hend & _ & _).
  induction fuel as [|fuel IH]; intros opt repos w Hper Hpage Hfuel Hrepos;
    [lia|].
  cbn [userPages]. unfold bind, perform.
  pose proof (Hend username opt w Hper) as Hnext.
  destruct (ListByUser username opt w) as [[[page resp] [e|]] w1].
  - do 3 eexists. split; [done|]. split; [done|]. constructor.
  - cbn [fst snd] in Hnext.
    pose proof (keepUpdated_records page since repos Hrepos) as Hkeep.
    destruct (Z.eqb_spec (Response.NextPage resp) 0) as [Hz|Hnz];
      [by do 3 eexists|].
    destruct Hnext as [Hz|Hnext]; [done|].
    apply IH; cbn; [done|lia|lia|done].
Qed.

Lemma orgPages_returns N login since :
  pagesEnd N ->
  forall fuel opt repos w,
    ListOptions.PerPage (RepositoryListOptions.ListOptions opt) = 100 ->
    0 <= ListOptions.Page (RepositoryListOptions.ListOptions opt) ->
    (Z.to_nat (N - ListOptions.Page (RepositoryListOptions.ListOptions opt))
     < fuel)%nat ->
    Forall (updatedRecord since) repos ->
    exists out w',
      orgPages fuel login since opt repos w = Done out w'
      /\ Forall (updatedRecord since) out.
Proof.
  intros (_ & Hend & _).
  induction fuel as [|fuel IH]; intros opt repos w Hper Hpage Hfuel Hrepos;
    [lia|].
  cbn [orgPages]. unfold bind, perform.
  pose proof (Hend login opt w Hper) as Hnext.
  destruct (ListByOrg login opt w) as [[[page resp] [e|]] w1].
  - destruct (logPrintf _ w1) as [[] w2]. by do 2 eexists.
  - cbn [fst snd] in Hnext.
    pose proof (keepUpdated_records page since repos Hrepos) as Hkeep.
    destruct (Z.eqb_spec (Response.NextPage resp) 0) as [Hz|Hnz];
      [by do 2 eexists|].
    destruct Hnext as [Hz|Hnext]; [done|].
    apply IH; cbn; [done|lia|lia|done].
Qed.

Lemma orgLoop_returns N fuel since orgs :
  pagesEnd N -> (Z.to_nat N < fuel)%nat ->
  forall repos w,
    Forall (updatedRecord since) repos ->
    exists out w',
      orgLoop fuel since orgs repos w = Done out w'
      /\ Forall (updatedRecord since) out.
Proof.
  intros Hend Hfuel. induction orgs as [|org rest IH]; intros repos w Hrepos.
  - by do 2 eexists.
  - cbn [orgLoop]. unfold bind.
    destruct (orgPages_returns N (Organization.GetLogin org) since Hend
                fuel orgOptions repos w eq_refl ltac:(done)
                ltac:(cbn; lia) Hrepos) as (out & w1 & -> & Hout).
    by apply IH.
Qed.

Lemma organizations_return N fuel username since w :
  pagesEnd N -> (Z.to_nat N < fuel)%nat ->
  exists out err w',
    getOrganizationRepositories fuel username since w = Done (out, err) w'
    /\ Forall (updatedRecord since) out.
Proof.
  intros Hend Hfuel. unfold getOrganizationRepositories, bind, perform.
  destruct (OrganizationsList username _ w) as [[[orgs resp] [e|]] w1].
  - do 3 eexists. split; [done|]. constructor.
  - destruct (orgLoop_returns N fuel since orgs Hend Hfuel [] w1
                ltac:(constructor)) as (out & w2 & -> & Hout).
    by do 3 eexists.
Qed.

Lemma hasCommitsSince_returns fullRepoName since w :
  exists b err w', hasCommitsSince fullRepoName since w = Done (b, err) w'.
Proof.
  unfold hasCommitsSince. destruct (parseRepoName fullRepoName) as [o r].
  unfold bind, perform.
  destruct (ListCommits o r _ w) as [[[cs resp] [e|]] w1]; by do 3 eexists.
Qed.

Lemma checkLoop_picks since reposMap :
  filedByName reposMap ->
  forall order repos w,
    exists picked w',
      checkLoop since order reposMap repos w = Done (repos ++ picked) w'
      /\ fullNames picked `sublist_of` order
      /\ Forall (fun r => reposMap !! RepositoryInfo.FullName r = Some r)
           picked.
Proof.
  intros Hfiled. induction order as [|key rest IH]; intros repos w.
  - exists [], w. rewrite app_nil_r. done.
  - cbn [checkLoop].
    destruct (reposMap !! key) as [repoInfo|] eqn:Hkey.
    + unfold bind.
      destruct (hasCommitsSince_returns (RepositoryInfo.FullName repoInfo)
                  since w) as (b & err & w1 & ->).
      destruct err as [e|].
      * unfold perform. destruct (logPrintf _ w1) as [[] w2].
        destruct (IH repos w2) as (picked & w' & -> & Hsub & Hall).
        exists picked, w'. split; [done|]. split; [|done].
        by apply sublist_cons.
      * destruct b.
        -- destruct (IH (repos ++ [repoInfo]) w1)
             as (picked & w' & -> & Hsub & Hall).
           exists (repoInfo :: picked), w'.
           split; [by rewrite <- app_assoc|]. split.
           ++ unfold fullNames. cbn [fmap list_fmap].
              rewrite (Hfiled _ _ Hkey). by apply sublist_skip.
           ++ constructor; [|done]. by rewrite (Hfiled _ _ Hkey).
        -- destruct (IH repos w1) as (picked & w' & -> & Hsub & Hall).
           exists picked, w'. split; [done|]. split; [|done].
           by apply sublist_cons.
    + destruct (IH repos w) as (picked & w' & -> & Hsub & Hall).
      exists picked, w'. split; [done|]. split; [|done].
      by apply sublist_cons.
Qed.

Lemma keys_distinct {A} (m : gmap string A) : NoDup (keys m).
Proof. apply NoDup_fst_map_to_list. Qed.

Lemma rangeCheck_distinct since m w :
  filedByName m ->
  map_Forall (fun _ r => updatedRecord since r) m ->
  exists repos w',
    bind (perform (rangeOrder (keys m)))
      (fun order =>
         bind (checkLoop since order m [])
           (fun repos => ret (repos, (None : error)))) w
    = Done (repos, None) w'
    /\ NoDup (fullNames repos)
    /\ Forall (updatedRecord since) repos.
Proof.
  intros Hm Hrec. unfold bind, perform.
  pose proof (rangeOrder_perm (keys m) w) as Hperm.
  destruct (rangeOrder (keys m) w) as [order w4]. cbn [fst] in Hperm.
  destruct (checkLoop_picks since m Hm order [] w4)
    as (picked & w5 & -> & Hsub & Hpicked).
  unfold ret. do 2 eexists. split; [done|]. cbn [app]. split.
  - eapply sublist_NoDup; [|exact Hsub].
    rewrite Hperm. apply keys_distinct.
  - eapply Forall_impl; [exact Hpicked|]. intros r Hr. exact (Hrec _ _ Hr).
Qed.

Lemma report_returns N fuel username since w :
  pagesEnd N -> (Z.to_nat N < fuel)%nat ->
  exists repos err w',
    GetRepositoriesWithRecentCommits fuel username since w
    = Done (repos, err) w'
    /\ NoDup (fullNames repos)
    /\ Forall (updatedRecord since) repos
    /\ (err <> None -> repos = [])
    /\ exists owned wu,
        getUserRepositories fuel username since w = Done (owned, err) wu.
Proof.
  intros Hend Hfuel. unfold GetRepositoriesWithRecentCommits, repo.
  unfold bind at 1. unfold getUserRepositories.
  destruct (userPages_returns N username since Hend fuel ownerOptions [] w
              eq_refl ltac:(done) ltac:(cbn; lia) ltac:(constructor))
    as (owned & uerr & w1 & -> & Hnil & Howned).
  destruct uerr as [e|].
  - unfold ret. do 3 eexists. split; [done|]. split; [constructor|].
    split; [constructor|].
    split; [done|]. rewrite Hnil by done. by do 2 eexists.
  - unfold bind at 1.
    destruct (organizations_return N fuel username since w1 Hend Hfuel)
      as (orgRepos & oerr & w2 & -> & Horg).
    assert (Hm0 : filedByName (insertAll owned ∅)).
    { apply insertAll_filed. intros key r Hr. by rewrite lookup_empty in Hr. }
    assert (Hr0 : map_Forall (fun _ r => updatedRecord since r)
                    (insertAll owned ∅)).
    { apply insertAll_records; [done|]. apply map_Forall_empty. }
    destruct oerr as [e0|].
    + unfold bind at 1. unfold bind at 1. unfold perform at 1.
      destruct (logPrintf _ w2) as [[] w3]. unfold ret at 1.
      destruct (rangeCheck_distinct since _ w3 Hm0 Hr0)
        as (repos & w' & -> & Hnd & Hrec).
      do 3 eexists. split; [done|]. split; [done|]. split; [done|].
      split; [done|]. by do 2 eexists.
    + unfold bind at 1. unfold ret at 1.
      destruct (rangeCheck_distinct since _ w2
                  (insertAll_filed orgRepos _ Hm0)
                  (insertAll_records since orgRepos Horg _ Hr0))
        as (repos & w' & -> & Hnd & Hrec).
      do 3 eexists. split; [done|]. split; [done|]. split; [done|].
      split; [done|]. by do 2 eexists.
Qed.

End Report.

Section PlatformPages.
Import Platform.

Lemma nextPage_small {A} page (items : list A) :
  (length items <= 100)%nat -> nextPage page 100 items = 0.
Proof.
  intros Hlen. unfold nextPage.
  destruct (Z.leb_spec page 0).
  - destruct (Z.ltb_spec (1 * 100) (Z.of_nat (length items))); [lia|done].
  - destruct (Z.ltb_spec (page * 100) (Z.of_nat (length items)));
      [lia|done].
Qed.

Lemma paged_small {A} N o (items : list A) :
  GithubClient.ListOptions.PerPage o = 100 ->
  (length items <= 100)%nat ->
  endsBy N (GithubClient.ListOptions.Page o) (paged o items).1.2.
Proof.
  intros Hper Hlen. left. unfold paged. cbn. rewrite Hper.
  by apply nextPage_small.
Qed.

(** A small hosting of at most 99 repositories lists everything on
    one page. *)
Lemma small_pagesEnd p N :
  smallHosting p = true -> (length (hosted p) <= 99)%nat ->
  pagesEnd (H := api p) N.
Proof.
  intros Hsmall Hrepos. unfold smallHosting in Hsmall.
  rewrite forallb_forall in Hsmall.
  assert (Hfilter : forall f,
            (length (toRepository <$> List.filter f (hosted p))
             <= 100)%nat).
  { intros f. rewrite length_fmap.
    pose proof (List.filter_length_le f (hosted p)). lia. }
  split; [|split].
  - intros username o w Hper. cbn. by apply paged_small.
  - intros org o w Hper. cbn. by apply paged_small.
  - intros owner repo o w Hper. cbn.
    destruct (lookupRepo _ _) as [r|] eqn:Hr; [|by left].
    apply lookupRepo_In, Hsmall, andb_prop in Hr as [_ Hbs].
    destruct (commitsShown _ _ _) as [cs|] eqn:Hcs; [|by left].
    pose proof (commitsShown_length _ _ _ _ _ Hbs Hcs) as Hlen.
    apply paged_small; [done|]. rewrite length_fmap. lia.
Qed.

Lemma commitsShown_In r sha since cs c :
  commitsShown r sha since = Some cs -> In c cs ->
  exists b, In b (hrBranches r) /\ In c (snd b).
Proof.
  unfold commitsShown.
  destruct (lookupBranch _ _) as [all|] eqn:Hb; [|done].
  apply lookupBranch_In in Hb. intros [= <-] Hc.
  exists (default (hrDefaultBranch r) sha, all). split; [done|].
  destruct since; [|done]. by apply filter_In in Hc as [Hc _].
Qed.

(** A hosting of long identifiers lists long identifiers. *)
Lemma long_listsLongSHAs p :
  longHosting p = true -> listsLongSHAs (H := api p).
Proof.
  intros Hlong owner repo o w. cbn. unfold longHosting in Hlong.
  rewrite forallb_forall in Hlong.
  destruct (lookupRepo _ _) as [r|] eqn:Hr; [|constructor].
  apply lookupRepo_In, Hlong in Hr. rewrite forallb_forall in Hr.
  destruct (commitsShown _ _ _) as [cs|] eqn:Hcs; [|constructor].
  unfold paged, pageOf. cbn [fst]. apply Forall_forall. intros c Hc.
  apply subseteq_take, subseteq_drop in Hc.
  apply list_elem_of_fmap in Hc as (hc & -> & Hhc).
  apply list_elem_of_In in Hhc.
  destruct (commitsShown_In _ _ _ _ _ Hcs Hhc) as (b & Hb & Hcb).
  specialize (Hr b Hb). rewrite forallb_forall in Hr.
  specialize (Hr hc Hcb). by apply Nat.leb_le in Hr.
Qed.
End PlatformPages.

Lemma repository_commits_distinct_witness :
  exists commits err w',
    GithubClient.GetRepositoryCommits 1 "me/app" friday0 Platform.console0
    = Done (commits, err) w'
    /\ NoDup (infoSHAs commits)
    /\ Forall listedSHA (infoSHAs commits)
    /\ (err <> None -> commits = []).
Proof.
  apply (repository_commits_distinct 0 1 "me/app" friday0 Platform.console0).
  - apply small_pagesEnd; [vm_compute; reflexivity|cbn; lia].
  - cbn; lia.
Defined.


(* ===================================================================== *)
(** ** The terminal program: sessions                                    *)
(* ===================================================================== *)

Section Session.
Import GoTime Main MainMenu MainTUI.
Context {W : Type} `{Bubbles} `{RangeInts W} `{Main.Remote W}
  `{GoRuntime W}.

Lemma wrapInt_small z : - 2 ^ 63 <= z < 2 ^ 63 -> wrapInt z = z.
Proof. intros Hz. unfold wrapInt. rewrite Z.mod_small; lia. Qed.

Lemma menu_length today : len (getLast7Days today) = 7.
Proof. reflexivity. Qed.

Lemma menu_daysBack today i o :
  index (getLast7Days today) i = Some o -> 1 <= DayOption.daysBack o <= 7.
Proof.
  unfold index. destruct (i <? 0); [done|].
  intros Ho. apply list_elem_of_lookup_2 in Ho.
  assert (Hd : DayOption.daysBack o
               ∈ (DayOption.daysBack <$> getLast7Days today))
    by (apply list_elem_of_fmap; by exists o).
  rewrite menu_windows in Hd.
  repeat (apply elem_of_cons in Hd as [->|Hd]; [lia|]). inversion Hd.
Qed.

Lemma enter_is_enter {A} (quit back up down left right space enter other : A) :
  (if String.eqb "enter" "ctrl+c" || String.eqb "enter" "q" then quit
   else if String.eqb "enter" "b" then back
   else if String.eqb "enter" "up" || String.eqb "enter" "k" then up
   else if String.eqb "enter" "down" || String.eqb "enter" "j" then down
   else if String.eqb "enter" "left" || String.eqb "enter" "h" then left
   else if String.eqb "enter" "right" || String.eqb "enter" "l" then right
   else if String.eqb "enter" " " then space
   else if String.eqb "enter" "enter" then enter
   else other) = enter.
Proof. reflexivity. Qed.

Ltac step :=
  match goal with
  | H : ret _ _ = Done _ _ |- _ => unfold ret in H; simplify_eq
  | H : context [if ?b then _ else _] |- _ => destruct b eqn:?
  | H : context [match index ?s ?i with _ => _ end] |- _ =>
      destruct (index s i) eqn:?
  | H : panic _ _ = Done _ _ |- _ => discriminate H
  end.

Lemma updateKey_ready today now m key w m' cmd w' :
  menuReady today m ->
  updateKey now m key w = Done (m', cmd) w' ->
  menuReady today m'
  /\ match cmd with
     | LoadCommits g repos d =>
         g = gh m /\ d = daysBack m' /\ repos = repoSelected m'
     | GenerateSummary l cs => l = llm m /\ cs = commits m
     | _ => True
     end.
Proof.
  intros (Hmenu & Hday & Hback) Hrun. unfold updateKey in Hrun.
  assert (Hm : menuReady today m) by done.
  assert (Hframe : forall v,
            0 <= v < 7 -> menuReady today (withSelectedDay m v))
    by (intros v Hv; by split).
  destruct (_ || _) in Hrun; [repeat step; by split|].
  destruct (String.eqb key "b") in Hrun; [repeat step; by split|].
  destruct (_ || _) in Hrun.
  { repeat step; try (split; [exact Hm|done]); try (split; [by split|done]).
    split; [apply Hframe|done].
    unfold subInt. rewrite wrapInt_small by lia. lia. }
  destruct (_ || _) in Hrun.
  { repeat step; try (split; [exact Hm|done]); try (split; [by split|done]).
    split; [apply Hframe|done].
    match goal with Hlt : (_ <? _) = true |- _ => apply Z.ltb_lt in Hlt;
      rewrite Hmenu, menu_length in Hlt; unfold subInt in Hlt;
      rewrite wrapInt_small in Hlt by lia end.
    unfold addInt. rewrite wrapInt_small by lia. lia. }
  destruct (_ || _) in Hrun;
    [repeat step; try (split; [exact Hm|done]); by split|].
  destruct (_ || _) in Hrun;
    [repeat step; try (split; [exact Hm|done]); by split|].
  destruct (String.eqb key " ") in Hrun;
    [repeat step; try (split; [exact Hm|done]); by split|].
  destruct (String.eqb key "enter") in Hrun;
    [|repeat step; by split].
  destruct (action m) eqn:Hact; repeat step;
    try (split; [exact Hm|done]); try (split; [by split|done]).
  - rewrite Hmenu in *.
    match goal with Ho : index _ _ = Some _ |- _ =>
      apply menu_daysBack in Ho end.
    split; [|done]. split; [done|]. split; [done|]. cbn. lia.
  - rewrite Hmenu in *.
    match goal with Ho : index _ _ = Some _ |- _ =>
      apply menu_daysBack in Ho end.
    split; [|done]. split; [done|]. split; [done|]. cbn. lia.
  - unfold bind, perform in Hrun.
    destruct (rangeInts _ w) as [order w1].
    destruct (pickLoop order (choices m) [] w1) as [picked w2|?|];
      try done.
    repeat step; split; try done; by split.
Qed.

Lemma Update_ready today now m msg w m' cmd w' :
  menuReady today m ->
  Update now m msg w = Done (m', cmd) w' ->
  menuReady today m'
  /\ match cmd with
     | LoadCommits g repos d =>
         g = gh m /\ d = daysBack m' /\ repos = repoSelected m'
     | GenerateSummary l cs => l = llm m /\ cs = commits m
     | _ => True
     end.
Proof.
  intros Hm Hrun. destruct msg as [key|repos err|cs err|s err| |];
    cbn [Update] in Hrun.
  - by eapply updateKey_ready.
  - unfold ret in Hrun. simplify_eq. by split.
  - destruct err; unfold ret in Hrun; simplify_eq; by split.
  - destruct err; unfold ret in Hrun; simplify_eq; by split.
  - destruct (spinnerUpdate (spinner m)) as [sp [|]];
      unfold ret in Hrun; simplify_eq; by split.
  - unfold ret in Hrun. simplify_eq. by split.
Qed.

Lemma initial_ready env g l today :
  menuReady today (initialModel (Config.LoadConfig env) g l today).
Proof.
  split; [done|]. split; [done|]. cbn [daysBack initialModel].
  apply LoadConfig_positive.
Qed.

Lemma feed_ready today msgs :
  forall m w m' w',
    menuReady today m -> feed msgs m w = Done m' w' -> menuReady today m'.
Proof.
  induction msgs as [|[now msg] rest IH]; intros m w m' w' Hm Hrun.
  - cbn in Hrun. unfold ret in Hrun. by simplify_eq.
  - cbn [feed] in Hrun. unfold bind in Hrun.
    destruct (Update now m msg w) as [[m1 cmd] w1|?|] eqn:Hstep; try done.
    eapply IH; [|exact Hrun]. by eapply Update_ready.
Qed.

(** Extra X17. Whatever messages the program has handled since [main]
    built its model, the day menu is unchanged, the selected day is
    one of its seven entries and the window is positive. So [enter]
    on the day menu never fails on [dayOptions[selectedDay]]: it takes
    the window of the selected entry and shows exactly the
    repositories updated after the cutoff of that window; and every
    [LoadCommits] command carries a positive window. *)
Theorem session_keeps_day_and_window env g l today msgs w m w' :
  feed msgs (initialModel (Config.LoadConfig env) g l today) w
  = Done m w' ->
  menuReady today m
  /\ (forall now w1,
         action m = ACTION__SELECT_DAYS ->
         exists o m1,
           index (dayOptions m) (selectedDay m) = Some o
           /\ Update now m (KeyMsg "enter") w1 = Done (m1, nilCmd) w1
           /\ action m1 = ACTION__SHOW_ALL_REPOS
           /\ daysBack m1 = DayOption.daysBack o
           /\ choices m1
              = Repo.String
                  <$> List.filter
                        (updatedSince (AddDate now 0 0 (- daysBack m1)))
                        (GitHub.repos (gh m)))
  /\ (forall now msg w1 m1 g1 repos d w2,
         Update now m msg w1 = Done (m1, LoadCommits g1 repos d) w2 ->
         0 < d).
Proof.
  intros Hrun.
  assert (Hm : menuReady today m)
    by (eapply feed_ready; [apply initial_ready|exact Hrun]).
  split; [done|]. split.
  - intros now w1 Hact. destruct Hm as (Hmenu & Hday & Hback).
    assert (Hsome : is_Some (index (dayOptions m) (selectedDay m))).
    { unfold index. destruct (Z.ltb_spec (selectedDay m) 0); [lia|].
      apply lookup_lt_is_Some. rewrite Hmenu. cbn. lia. }
    destruct Hsome as [o Ho].
    pose proof Ho as Hd. rewrite Hmenu in Hd. apply menu_daysBack in Hd.
    assert (Hchoices :
              GetRecentlyUpdatedReposChoices now (gh m)
                (DayOption.daysBack o)
              = Repo.String
                  <$> List.filter
                        (updatedSince
                           (AddDate now 0 0 (- DayOption.daysBack o)))
                        (GitHub.repos (gh m))).
    { unfold GetRecentlyUpdatedReposChoices.
      rewrite recent_filter by lia. by rewrite choices_fmap. }
    cbn [Update]. unfold updateKey. rewrite enter_is_enter.
    rewrite Hact, Ho. cbn [daysBack withDaysBack withChoices choices gh].
    destruct (_ =? 0); eexists o, _; (split; [done|]); (split; [done|]);
      cbn; by rewrite Hchoices.
  - intros now msg w1 m1 g1 repos d w2 Hstep.
    destruct (Update_ready today now m msg w1 m1 _ w2 Hm Hstep)
      as [(_ & _ & Hback) (_ & -> & _)].
    done.
Qed.

Lemma pickLoop_spec choices order :
  forall acc (w : W),
    (Forall (fun i => is_Some (index choices i)) order
     /\ exists picked,
         pickLoop order choices acc w = Done (acc ++ picked) w
         /\ length picked = length order)
    \/ (Exists (fun i => index choices i = None) order
        /\ pickLoop order choices acc w
           = Panicked "runtime error: index out of range" w).
Proof.
  induction order as [|s rest IH]; intros acc w.
  - left. split; [constructor|]. exists []. by rewrite app_nil_r.
  - cbn [pickLoop]. destruct (index choices s) as [c|] eqn:Hs.
    + destruct (IH (acc ++ [c]) w) as [[Hall (picked & -> & Hlen)]|[Hex ->]].
      * left. split; [constructor; [by eexists|done]|].
        exists (c :: picked). rewrite <- app_assoc. split; [done|].
        cbn. by rewrite Hlen.
      * right. split; [by apply Exists_cons_tl|done].
    + right. split; [by apply Exists_cons_hd|done].
Qed.

(** Extra X18. With a day of the menu selected, [enter] makes [Update]
    panic in exactly one situation: the list of repositories is
    shown, it is not empty, and some selected index is outside of it,
    which the lookup [m.choices[s]] does not survive. (The cursor can
    be on such an index: turning the page keeps the row of the
    cursor, and the last page may be shorter.) *)
Theorem enter_panics_on_stray_selection now m w :
  0 <= selectedDay m < len (dayOptions m) ->
  (exists s w', Update now m (KeyMsg "enter") w = Panicked s w')
  <-> action m = ACTION__SHOW_ALL_REPOS /\ choices m <> []
      /\ straySelection m.
Proof.
  intros Hday. cbn [Update]. unfold updateKey. rewrite enter_is_enter.
  destruct (action m) eqn:Hact;
    try (split; [by intros (s & w' & Hp)|by intros (Ha & _)]).
  - split; [|by intros (Ha & _)]. intros (s & w' & Hp).
    assert (Hsome : is_Some (index (dayOptions m) (selectedDay m))).
    { unfold index. destruct (Z.ltb_spec (selectedDay m) 0); [lia|].
      apply lookup_lt_is_Some. unfold len in Hday. lia. }
    destruct Hsome as [o Ho]. rewrite Ho in Hp.
    destruct (_ =? 0) in Hp; done.
  - destruct (Z.eqb_spec (len (choices m)) 0) as [Hz|Hnz].
    + split; [by intros (s & w' & Hp)|].
      intros (_ & Hne & _). destruct (choices m); [done|].
      unfold len in Hz. cbn in Hz. lia.
    + assert (Hne : choices m <> [])
        by (intros Hnil; rewrite Hnil in Hnz; done).
      unfold bind, perform.
      pose proof (rangeInts_perm (elements (selected m)) w) as Hperm.
      destruct (rangeInts (elements (selected m)) w) as [order w1].
      cbn [fst] in Hperm.
      destruct (pickLoop_spec (choices m) order [] w1)
        as [[Hall (picked & -> & _)]|[Hex ->]].
      * split.
        { intros (s & w' & Hp). destruct (0 <? len ([] ++ picked)); done. }
        intros (_ & _ & (i & Hi & Hnone)).
        rewrite Forall_forall in Hall.
        assert (Hin : i ∈ order)
          by (rewrite Hperm; by apply elem_of_elements).
        destruct (Hall i Hin) as [c Hc]. congruence.
      * split; [|by eauto].
        intros _. split; [done|]. split; [done|].
        apply Exists_exists in Hex as (i & Hi & Hnone).
        exists i. split; [|done].
        apply elem_of_elements. by rewrite <- Hperm.
Qed.

(** Extra X19. The message that the command of [LoadCommits] brings
    back never carries an error, [GetLatestCommits] having none to
    give; so [Update] always stores its commits and shows them, and
    its branch for a failed load is never taken. *)
Theorem load_commits_reports_no_error now g repos d w r w' :
  runCmd now (LoadCommits g repos d) w = Done r w' ->
  exists cs,
    r = Some (commitsLoadedMsg cs None)
    /\ forall now' m w2,
        exists m',
          Update now' m (commitsLoadedMsg cs None) w2 = Done (m', nilCmd) w2
          /\ action m' = ACTION__SHOW_COMMITS /\ commits m' = cs.
Proof.
  cbn [runCmd]. unfold bind, GetLatestCommits, bind.
  destruct (latestLoop _ _ _ _ w) as [cs w1|?|]; try done.
  unfold ret. intros [= <- <-]. exists cs. split; [done|].
  intros now' m w2. by eexists.
Qed.
Lemma GenerateSummary_returns l cs (w : W) :
  exists text err w',
    Main.GenerateSummary l cs w = Done (text, err) w'
    /\ (err <> None -> text = "").
Proof.
  unfold Main.GenerateSummary.
  destruct (length cs =? 0)%nat; [by do 3 eexists|].
  unfold bind at 1. unfold buildPrompt, bind, perform.
  destruct (rangeOrder _ w) as [order w1]. unfold ret at 1.
  destruct (generateContent _ w1) as [[e|e|e|e|resp] w2];
    try by do 3 eexists.
  destruct (GeminiResponse.Candidates resp) as [|c ?]; [by do 3 eexists|].
  destruct (GeminiContent.Parts (GeminiCandidate.Content c));
    by do 3 eexists.
Qed.

(** Extra X22. The command of [GenerateSummary] always brings a
    message back: [GenerateSummary] of the service returns on every
    reply, also on one without candidates or parts, and an error
    comes with the empty text. On a message without error [Update]
    stores the text and shows the summary; on one with an error it
    goes back to the commits and keeps the summary it had. *)
Theorem summary_command_outcome now l cs (w : W) :
  exists text err w',
    runCmd now (GenerateSummary l cs) w
    = Done (Some (summaryGeneratedMsg text err)) w'
    /\ (err <> None -> text = "")
    /\ forall now' m (w2 : W),
        exists m',
          Update now' m (summaryGeneratedMsg text err) w2
          = Done (m', nilCmd) w2
          /\ (err = None ->
              action m' = ACTION__SHOW_SUMMARY /\ summary m' = text)
          /\ (err <> None ->
              action m' = ACTION__SHOW_COMMITS /\ summary m' = summary m).
Proof.
  destruct (GenerateSummary_returns l cs w) as (text & err & w' & Hrun & Herr).
  exists text, err, w'. cbn [runCmd]. unfold bind. rewrite Hrun.
  split; [done|]. split; [done|].
  intros now' m w2. cbn [Update]. destruct err as [e|].
  - eexists. split; [done|]. split; [done|]. by intros _.
  - eexists. split; [done|]. split; [by intros _|done].
Qed.
End Session.

Lemma session_keeps_day_and_window_witness :
  exists m w',
    feed (pressed ["down"; "down"; "up"]) model0
      (Desk.quiet Desk.noCandidates false) = Done m w'
    /\ MainTUI.selectedDay m = 1
    /\ menuReady Desk.now0 m.
Proof.
  destruct (feed (pressed ["down"; "down"; "up"]) model0
              (Desk.quiet Desk.noCandidates false)) as [m w'|s w'|] eqn:Hrun;
    [|by vm_compute in Hrun|by vm_compute in Hrun].
  exists m, w'. split; [done|]. split.
  - vm_compute in Hrun. by injection Hrun as <- <-.
  - exact (proj1 (session_keeps_day_and_window env0 gh3 Desk.llm0 Desk.now0
                    _ _ m w' Hrun)).
Defined.

Lemma enter_panics_on_stray_selection_witness :
  exists m w',
    feed (pressed ["enter"; "down"; "right"; " "]) model0
      (Desk.quiet Desk.noCandidates false) = Done m w'
    /\ MainTUI.len (MainTUI.choices m) = 3
    /\ 3 ∈ MainTUI.selected m
    /\ exists s w'',
        MainTUI.Update Desk.now0 m (MainTUI.KeyMsg "enter") w'
        = Panicked s w''.
Proof.
  destruct (feed (pressed ["enter"; "down"; "right"; " "]) model0
              (Desk.quiet Desk.noCandidates false)) as [m w'|s w'|] eqn:Hrun;
    [|by vm_compute in Hrun|by vm_compute in Hrun].
  vm_compute in Hrun. injection Hrun as <- <-.
  eexists _, _. split; [reflexivity|].
  split; [reflexivity|]. split.
  { apply (bool_decide_unpack _). by vm_compute. }
  apply enter_panics_on_stray_selection.
  - by vm_compute.
  - split; [reflexivity|]. split; [discriminate|].
    exists 3. split; [|reflexivity].
    apply (bool_decide_unpack _). by vm_compute.
Defined.

Lemma summary_command_outcome_witness :
  exists text err w',
    MainTUI.runCmd Desk.now0 (MainTUI.GenerateSummary Desk.llm0 Desk.twoRepos)
      (Desk.quiet (DoFailed "timeout") false)
    = Done (Some (MainTUI.summaryGeneratedMsg text err)) w'
    /\ err = Some "timeout" /\ text = "".
Proof.
  destruct (summary_command_outcome Desk.now0 Desk.llm0 Desk.twoRepos
              (Desk.quiet (DoFailed "timeout") false))
    as (text & err & w' & Hrun & Herr & _).
  exists text, err, w'. split; [exact Hrun|].
  assert (Hwhich : err = Some "timeout").
  { pose proof Hrun as Hsame. vm_compute in Hsame.
    by injection Hsame as _ <- _. }
  split; [exact Hwhich|]. apply Herr. by rewrite Hwhich.
Defined.

Lemma load_commits_reports_no_error_witness :
  exists cs m',
    MainTUI.runCmd Desk.now0 (MainTUI.LoadCommits Desk.gh0 ["a"] 1)
      (Desk.serving [Desk.response "abc123d4e5"])
    = Done (Some (MainTUI.commitsLoadedMsg cs None))
        (Desk.serving [Desk.response "abc123d4e5"])
    /\ MainTUI.Update Desk.now0 model0 (MainTUI.commitsLoadedMsg cs None)
         (Desk.serving [Desk.response "abc123d4e5"])
       = Done (m', MainTUI.nilCmd) (Desk.serving [Desk.response "abc123d4e5"])
    /\ MainTUI.action m' = MainTUI.ACTION__SHOW_COMMITS.
Proof.
  destruct (MainTUI.runCmd Desk.now0 (MainTUI.LoadCommits Desk.gh0 ["a"] 1)
              (Desk.serving [Desk.response "abc123d4e5"]))
    as [r w'|s w'|] eqn:Hrun;
    [|by vm_compute in Hrun|by vm_compute in Hrun].
  destruct (load_commits_reports_no_error _ _ _ _ _ _ _ Hrun)
    as (cs & -> & Hupdate).
  destruct (Hupdate Desk.now0 model0
              (Desk.serving [Desk.response "abc123d4e5"]))
    as (m' & Hstep & Hact & _).
  exists cs, m'. split; [|by split].
  pose proof Hrun as Hsame. vm_compute in Hsame.
  injection Hsame as _ <-. reflexivity.
Defined.

(* ===================================================================== *)
(** ** The go-github client at the terminal                              *)
(* ===================================================================== *)

Section Terminal.
Import GoTime GithubClient GithubCLI.
Context {W : Type} `{Remote W} `{GoRuntime W} `{Terminal W}.

Ltac prints :=
  repeat match goal with
         | |- context [Print ?s ?w] =>
             destruct (Print s w) as [[] ?]; cbv beta iota
         end.

Lemma fileLoop_returns files :
  forall w : W, exists w', fileLoop files w = Done tt w'.
Proof.
  induction files as [|f rest IH]; intros w; [by eexists|].
  cbn [fileLoop]. unfold bind, perform. prints. apply IH.
Qed.

Lemma repoBlocks_returns repos :
  forall i (w : W), exists w', repoBlocks i repos w = Done tt w'.
Proof.
  induction repos as [|r rest IH]; intros i w; [by eexists|].
  cbn [repoBlocks]. unfold bind, perform. prints.
  destruct (negb _); unfold ret; cbv beta iota; prints; apply IH.
Qed.

Lemma commitBlocks_long commits :
  longInfoSHAs commits ->
  forall i (w : W), exists w', commitBlocks i commits w = Done tt w'.
Proof.
  induction 1 as [|c rest Hc Hrest IH]; intros i w; [by eexists|].
  cbn [commitBlocks]. unfold bind, perform, slicePrefix. prints.
  destruct (Nat.leb_spec 8 (String.length (CommitInfo.SHA c))); [|lia].
  prints.
  destruct (0 <? _)%nat; unfold ret; cbv beta iota; prints.
  - match goal with
    | |- context [fileLoop ?fs ?w0] =>
        destruct (fileLoop_returns fs w0) as [? ->]
    end.
    prints. apply IH.
  - apply IH.
Qed.

Lemma commitBlocks_short commits :
  Exists (fun c => (String.length (CommitInfo.SHA c) < 8)%nat) commits ->
  forall i (w : W),
    exists w', commitBlocks i commits w
               = Panicked "slice bounds out of range" w'.
Proof.
  induction commits as [|c rest IH]; intros Hex i w;
    [by apply Exists_nil in Hex|].
  cbn [commitBlocks]. unfold bind, perform, slicePrefix. prints.
  destruct (Nat.leb_spec 8 (String.length (CommitInfo.SHA c)))
    as [Hlong|Hshort]; [|by eexists].
  apply Exists_cons in Hex as [Hex|Hex]; [lia|].
  prints.
  destruct (0 <? _)%nat; unfold ret; cbv beta iota; prints.
  - match goal with
    | |- context [fileLoop ?fs ?w0] =>
        destruct (fileLoop_returns fs w0) as [? ->]
    end.
    prints. by apply IH.
  - by apply IH.
Qed.

Lemma DisplayCommits_long commits repoName (w : W) :
  longInfoSHAs commits ->
  exists w', DisplayCommits commits repoName w = Done tt w'.
Proof.
  intros Hlong. unfold DisplayCommits.
  destruct (length commits =? 0)%nat.
  - unfold perform. destruct (Print _ w) as [[] w1]. by eexists.
  - unfold bind, perform. destruct (Print _ w) as [[] w1].
    by apply commitBlocks_long.
Qed.

(** Extra X20. [DisplayCommits] prints and returns when every
    identifier has 8 characters or more; it panics, on the slice
    [commit.SHA[:8]], as soon as it comes to a commit with a shorter
    identifier (the empty one that the getter gives for a missing
    identifier included). *)
Theorem display_commits_short_identifier commits repoName (w : W) :
  (longInfoSHAs commits ->
   exists w', DisplayCommits commits repoName w = Done tt w')
  /\ (Exists (fun c => (String.length (CommitInfo.SHA c) < 8)%nat) commits ->
      exists w', DisplayCommits commits repoName w
                 = Panicked "slice bounds out of range" w').
Proof.
  split; [apply DisplayCommits_long|].
  intros Hex. unfold DisplayCommits.
  destruct commits as [|c rest]; [by apply Exists_nil in Hex|].
  cbn [length Nat.eqb]. unfold bind, perform.
  destruct (Print _ w) as [[] w1]. by apply commitBlocks_short.
Qed.

(** Extra X21. When the listings end and every listed commit has an
    identifier of 8 characters or more, [InteractiveRepositorySelector]
    returns whatever number is typed: a number that is not the number
    of a listed repository is turned away before [repos[selection-1]]
    is read, and the commits shown are those of a report without
    short identifiers; its error, if any, is one of the two fetches. *)
Theorem selector_returns N fuel username since (w : W) :
  pagesEnd N -> (Z.to_nat N < fuel)%nat -> listsLongSHAs ->
  exists err w',
    InteractiveRepositorySelector fuel username since w = Done err w'
    /\ forall e, err = Some e ->
         exists e',
           e = "error fetching repositories: " +:+ e'
           \/ e = "error fetching commits: " +:+ e'.
Proof.
  intros Hend Hfuel Hlong. unfold InteractiveRepositorySelector.
  unfold bind at 1.
  destruct (report_returns N fuel username since w Hend Hfuel)
    as (repos & err & w1 & -> & _).
  destruct err as [e|].
  { unfold ret. do 2 eexists. split; [done|]. intros ? [= <-]. eauto. }
  destruct (length repos =? 0)%nat eqn:Hempty.
  { unfold bind, perform. destruct (Print _ w1) as [[] w2].
    unfold ret. do 2 eexists. split; [done|]. done. }
  unfold bind at 1. unfold perform at 1.
  destruct (Print _ w1) as [[] w2].
  unfold bind at 1.
  destruct (repoBlocks_returns repos 0 w2) as [w3 ->].
  unfold bind at 1. unfold perform at 1.
  destruct (Print _ w3) as [[] w4].
  unfold bind at 1. unfold perform at 1.
  destruct (ScanInt w4) as [selection w5].
  destruct (Z.leb_spec selection 0) as [Hle|Hpos]; cbn [orb].
  { unfold bind, perform. destruct (Print _ w5) as [[] w6].
    unfold ret. do 2 eexists. split; [done|]. done. }
  destruct (Z.ltb_spec (Z.of_nat (length repos)) selection) as [Hgt|Hin].
  { unfold bind, perform. destruct (Print _ w5) as [[] w6].
    unfold ret. do 2 eexists. split; [done|]. done. }
  assert (Hsome : is_Some (repos !! Z.to_nat (selection - 1)))
    by (apply lookup_lt_is_Some; lia).
  destruct Hsome as [selectedRepo ->].
  unfold bind at 1. unfold perform at 1.
  destruct (Print _ w5) as [[] w6].
  unfold bind at 1.
  destruct (repositoryCommits_returns
              (fun sha => (8 <= String.length sha)%nat) Hlong N fuel
              (RepositoryInfo.FullName selectedRepo) since w6 Hend Hfuel)
    as (commits & cerr & w7 & -> & _ & Hshas & _).
  destruct cerr as [e|].
  { unfold ret. do 2 eexists. split; [done|]. intros ? [= <-]. eauto. }
  unfold bind.
  destruct (DisplayCommits_long commits
              (RepositoryInfo.FullName selectedRepo) w7) as [w8 ->].
  { unfold longInfoSHAs. unfold infoSHAs in Hshas.
    rewrite Forall_fmap in Hshas. exact Hshas. }
  unfold ret. do 2 eexists. split; [done|]. done.
Qed.
End Terminal.

Lemma display_commits_short_identifier_witness :
  exists w',
    GithubCLI.DisplayCommits (H1 := terminal 0)
      [GithubClient.CommitInfo.mk "abc" "fix" "ann" Platform.monday [] 1 0]
      "me/app" Platform.console0
    = Panicked "slice bounds out of range" w'.
Proof.
  apply (display_commits_short_identifier (H1 := terminal 0)).
  apply Exists_cons_hd. cbn. lia.
Defined.

Lemma selector_returns_witness :
  exists err w',
    GithubCLI.InteractiveRepositorySelector (H1 := terminal 1) 1 "me" friday0
      Platform.console0 = Done err w'
    /\ forall e, err = Some e ->
         exists e',
           e = "error fetching repositories: " +:+ e'
           \/ e = "error fetching commits: " +:+ e'.
Proof.
  apply (selector_returns (H1 := terminal 1) 0 1 "me" friday0
           Platform.console0).
  - apply small_pagesEnd; [vm_compute; reflexivity|cbn; lia].
  - cbn; lia.
  - apply long_listsLongSHAs. vm_compute; reflexivity.
Defined.

(* ===================================================================== *)
(** ** The terminal program: the screen                                  *)
(* ===================================================================== *)

Section Screen.
Import GoTime Main MainMenu MainTUI.
Context {W : Type} `{Bubbles} `{RangeInts W} `{Main.Remote W}
  `{GoRuntime W}.

Lemma sliceRange_None {A} (s : list A) low high :
  high <= len s ->
  sliceRange s low high = None <-> low < 0 \/ high < low.
Proof.
  intros Hhigh. unfold sliceRange.
  destruct (Z.leb_spec 0 low), (Z.leb_spec low high),
    (Z.leb_spec high (len s)); cbn [andb]; split; try done; try lia.
  all: intros _; lia.
Qed.

(** Extra X23. [View] panics in exactly one situation: the list of
    repositories is shown, it is not empty, and the bounds that the
    paginator gives for its page are no bounds of a slice of the
    choices, its start lying beyond its end. (The page can be stale:
    a new list of choices sets the number of pages, not the page.) *)
Theorem view_panics_on_stale_page m (w : W) :
  (exists s w', View m w = Panicked s w')
  <-> action m = ACTION__SHOW_ALL_REPOS /\ choices m <> [] /\ stalePage m.
Proof.
  unfold View, stalePage.
  destruct (action m) eqn:Hact;
    try (split; [by intros (s & w' & Hp)|by intros (Ha & _)]).
  - destruct (Z.eqb_spec (len (choices m)) 0) as [Hz|Hnz].
    + split; [by intros (s & w' & Hp)|].
      intros (_ & Hne & _). destruct (choices m); [done|].
      unfold len in Hz. cbn in Hz. lia.
    + assert (Hne : choices m <> [])
        by (intros Hnil; rewrite Hnil in Hnz; done).
      pose proof (GetSliceBounds_end (paginator m) (len (choices m)))
        as Hend.
      destruct (GetSliceBounds (paginator m) (len (choices m)))
        as [start end_]. cbn [fst snd] in *.
      pose proof (sliceRange_None (choices m) start end_ Hend) as Hnone.
      destruct (sliceRange (choices m) start end_) as [page|].
      * split; [by intros (s & w' & Hp)|].
        intros (_ & _ & Hstale). by apply Hnone in Hstale.
      * split; [|by eauto]. intros _. split; [done|]. split; [done|].
        by apply Hnone.
  - split; [|by intros (Ha & _)]. intros (s & w' & Hp).
    unfold bind in Hp. destruct (len (commits m) =? 0); [done|].
    unfold bind, perform in Hp.
    destruct (rangeOrder _ w) as [order w1]. done.
Qed.
End Screen.

Lemma view_panics_on_stale_page_witness :
  exists m w',
    feed (pressed ["down"; "down"; "down"; "enter"; "right"; "b";
                   "up"; "up"; "up"; "enter"]) model4
      (Desk.quiet Desk.noCandidates false) = Done m w'
    /\ MainTUI.choices m = ["d (Go) - Updated: 2024-06-10"]
    /\ MainTUI.Paginator.Page (MainTUI.paginator m) = 1
    /\ exists s w'', MainTUI.View m w' = Panicked s w''.
Proof.
  destruct (feed (pressed ["down"; "down"; "down"; "enter"; "right"; "b";
                           "up"; "up"; "up"; "enter"]) model4
              (Desk.quiet Desk.noCandidates false)) as [m w'|s w'|] eqn:Hrun;
    [|by vm_compute in Hrun|by vm_compute in Hrun].
  vm_compute in Hrun. injection Hrun as <- <-.
  eexists _, _. split; [reflexivity|].
  split; [reflexivity|]. split; [reflexivity|].
  apply view_panics_on_stale_page.
  split; [reflexivity|]. split; [discriminate|].
  right. by vm_compute.
Defined.
